(** * Leasing agreements: pricing, payment schedules and the creation saga

    A shallow embedding of [src/services/leasingAgreementService.ts] and
    [src/utils/validation.ts], of the controller that calls the service
    ([src/controllers/leasingAgreementController.ts]) with the company
    access middleware in front of it, and of the configuration loader
    ([src/config/index.ts]), with the JavaScript run-time notions they
    rest on (numbers, [Date], thrown errors), followed by the properties
    of the pricing engine, the payment schedule generator, the validator,
    the saga executor, the controller and the configuration.

    Conventions of the embedding.
    - A JavaScript number that carries money ([price], [amount], the
      discount multipliers) is an IEEE 754 binary64 value: Rocq's
      primitive [float], whose operations are the ones of the hardware.
    - A JavaScript number that carries a calendar field, a month count or
      a loop index is an integer far below 2^53, where binary64 arithmetic
      is exact: it lives in [Z]. Where such a number can be [NaN] (the
      time value of an invalid [Date] and what is computed from it) it is
      an [option Z], [None] standing for [NaN].
    - A [Date] object is a mutable cell holding a time value; cells live in
      a store and records hold their locations, so that sharing and
      mutation are those of the source.
    - A thrown value is an [Error] object, or [undefined] or [null] (a
      promise rejected with no reason); [await] on a collaborator either
      returns or throws, and changes the state of the outside world.
    - A string is held as the bytes of its UTF-8 encoding; its length is
      counted in UTF-16 code units, as JavaScript counts it.
    - Local time is UTC moved by one constant offset, [LocalTZA]: a time
      zone without daylight saving. *)

From Stdlib Require Import ZArith Floats Uint63 Ascii String List Lia Bool.
From stdpp Require Import base option list gmap strings pretty.

#[local] Set Warnings "-inexact-float,-abstract-large-number".

Local Open Scope string_scope.
Local Open Scope Z_scope.

(* ===================================================================== *)
(** * Part I. Definitions *)
(* ===================================================================== *)

(** ** JavaScript numbers *)

Module JSNumber.

(** The binary64 value of an integer (exact below 2^53). *)
Definition ofZ (z : Z) : float :=
  match z with
  | Z0 => PrimFloat.zero
  | Zpos _ => PrimFloat.of_uint63 (Uint63.of_Z z)
  | Zneg p => PrimFloat.opp (PrimFloat.of_uint63 (Uint63.of_Z (Zpos p)))
  end.

(** [Math.round]: the integral number closest to [x], the one closer to
    +infinity on a tie; NaN, the infinities and integral numbers are
    returned as they are. A finite [x] is [(-1)^s * m * 2^e]; for
    [e < 0] the integer part is [m >> -e] and the fraction is compared
    with one half. *)
Definition Math_round (x : float) : float :=
  match Prim2SF x with
  | S754_finite s m e =>
      if 0 <=? e then x
      else
        let k := - e in
        let q := Z.shiftr (Zpos m) k in
        let r := Zpos m - Z.shiftl q k in
        let half := Z.shiftl 1 (k - 1) in
        let up := if s then half <? r else half <=? r in
        let n := if up then q + 1 else q in
        if s then PrimFloat.opp (ofZ n) else ofZ n
  | _ => x
  end.

(** [Math.ceil]: the least integral number that is not below [x]. *)
Definition Math_ceil (x : float) : float :=
  match Prim2SF x with
  | S754_finite s m e =>
      if 0 <=? e then x
      else
        let k := - e in
        let q := Z.shiftr (Zpos m) k in
        let r := Zpos m - Z.shiftl q k in
        if s then PrimFloat.opp (ofZ q)
        else if r =? 0 then ofZ q else ofZ (q + 1)
  | _ => x
  end.

(** [Math.ceil(d / i)] for integers [d] and [i > 0] of calendar size:
    the quotient of two such integers is never within rounding distance
    of an integer it does not equal, so the result is the integer
    ceiling; [NaN] propagates. (Where JavaScript gives [-0], for [d]
    between [-i] and [0], this is [0]: the sign of that zero only shows
    in the sign of the infinity got by dividing by it, an amount that the
    generator then never uses.) *)
Definition ceil_div (d : option Z) (i : Z) : option Z :=
  match d with
  | Some d => Some (- ((- d) / i))
  | None => None
  end.

(** [isNaN(x)], [x > y], [x <= y], [x >= y] on numbers. *)
Definition isNaN (x : float) : bool := PrimFloat.is_nan x.
Definition gt (x y : float) : bool := PrimFloat.ltb y x.
Definition le (x y : float) : bool := PrimFloat.leb x y.
Definition ge (x y : float) : bool := PrimFloat.leb y x.

(** Truthiness of a number: [0], [-0] and [NaN] are falsy. *)
Definition truthy (x : float) : bool :=
  negb (PrimFloat.is_zero x || PrimFloat.is_nan x).

End JSNumber.

(** ** JavaScript dates (ECMAScript, Date objects: time values and the
     calendar functions over them) *)

Module JSDate.

Definition msPerDay : Z := 86400000.

Definition Day (t : Z) : Z := t / msPerDay.
Definition TimeWithinDay (t : Z) : Z := t mod msPerDay.

Definition DaysInYear (y : Z) : Z :=
  if negb (y mod 4 =? 0) then 365
  else if negb (y mod 100 =? 0) then 366
  else if negb (y mod 400 =? 0) then 365
  else 366.

Definition DayFromYear (y : Z) : Z :=
  365 * (y - 1970) + (y - 1969) / 4 - (y - 1901) / 100 + (y - 1601) / 400.

(** The year of a day number: the largest [y] with
    [DayFromYear y <= d]. The mean Gregorian year has 146097/400 days;
    the estimate is off by one year at most, and is corrected. *)
Definition YearFromDay (d : Z) : Z :=
  let y0 := 1970 + (400 * d) / 146097 in
  if d <? DayFromYear y0 then y0 - 1
  else if DayFromYear (y0 + 1) <=? d then y0 + 1
  else y0.

Definition YearFromTime (t : Z) : Z := YearFromDay (Day t).

Definition InLeapYear (y : Z) : Z := if DaysInYear y =? 366 then 1 else 0.

Definition DayWithinYear (t : Z) : Z := Day t - DayFromYear (YearFromTime t).

(** Days of the year before month [m] (0 = January), [leap] being 0 or 1. *)
Definition DaysBeforeMonth (m leap : Z) : Z :=
  match m with
  | 0 => 0
  | 1 => 31
  | 2 => 59 + leap
  | 3 => 90 + leap
  | 4 => 120 + leap
  | 5 => 151 + leap
  | 6 => 181 + leap
  | 7 => 212 + leap
  | 8 => 243 + leap
  | 9 => 273 + leap
  | 10 => 304 + leap
  | _ => 334 + leap
  end.

Definition MonthFromDayInYear (d leap : Z) : Z :=
  if d <? 31 then 0
  else if d <? 59 + leap then 1
  else if d <? 90 + leap then 2
  else if d <? 120 + leap then 3
  else if d <? 151 + leap then 4
  else if d <? 181 + leap then 5
  else if d <? 212 + leap then 6
  else if d <? 243 + leap then 7
  else if d <? 273 + leap then 8
  else if d <? 304 + leap then 9
  else if d <? 334 + leap then 10
  else 11.

Definition MonthFromTime (t : Z) : Z :=
  MonthFromDayInYear (DayWithinYear t) (InLeapYear (YearFromTime t)).

Definition DateFromTime (t : Z) : Z :=
  let leap := InLeapYear (YearFromTime t) in
  DayWithinYear t - DaysBeforeMonth (MonthFromTime t) leap + 1.

(** [MakeDay(year, month, date)]: months beyond 0..11 carry into the
    year, and a date beyond the month's length carries into the
    following months. *)
Definition MakeDay (year month date : Z) : Z :=
  let ym := year + month / 12 in
  let mn := month mod 12 in
  DayFromYear ym + DaysBeforeMonth mn (InLeapYear ym) + date - 1.

Definition MakeDate (day time : Z) : Z := day * msPerDay + time.

Definition maxTime : Z := 8640000000000000.

(** [TimeClip]: a time value out of range is [NaN]. *)
Definition TimeClip (t : Z) : option Z :=
  if maxTime <? Z.abs t then None else Some t.

Section LocalTime.
(** The offset of local time from UTC, in milliseconds (a zone
    without daylight saving). *)
Variable tza : Z.

Definition LocalTime (t : Z) : Z := t + tza.
Definition UTC (t : Z) : Z := t - tza.

(** [d.getFullYear()], [d.getMonth()], [d.getDate()] on the time
    value of [d]. *)
Definition getFullYear (tv : option Z) : option Z :=
  t ← tv; Some (YearFromTime (LocalTime t)).
Definition getMonth (tv : option Z) : option Z :=
  t ← tv; Some (MonthFromTime (LocalTime t)).
Definition getDate (tv : option Z) : option Z :=
  t ← tv; Some (DateFromTime (LocalTime t)).

(** [d.setMonth(month)]: the new time value of [d]. *)
Definition setMonth (tv month : option Z) : option Z :=
  t ← tv; m ← month;
  let lt := LocalTime t in
  TimeClip (UTC (MakeDate (MakeDay (YearFromTime lt) m (DateFromTime lt))
                          (TimeWithinDay lt))).

(** [d.setFullYear(year)], for a valid [d]. *)
Definition setFullYear (tv year : option Z) : option Z :=
  t ← tv; y ← year;
  let lt := LocalTime t in
  TimeClip (UTC (MakeDate (MakeDay y (MonthFromTime lt) (DateFromTime lt))
                          (TimeWithinDay lt))).

(** [d.setDate(date)]. *)
Definition setDate (tv date : option Z) : option Z :=
  t ← tv; dt ← date;
  let lt := LocalTime t in
  TimeClip (UTC (MakeDate (MakeDay (YearFromTime lt) (MonthFromTime lt) dt)
                          (TimeWithinDay lt))).

(** [new Date(d.toDateString())]: the local midnight that starts the
    day of [d]. *)
Definition startOfDay (tv : option Z) : option Z :=
  t ← tv;
  let lt := LocalTime t in
  TimeClip (UTC (lt - TimeWithinDay lt)).
End LocalTime.

(** Relational comparison of two dates compares their time values and
    is false as soon as one is [NaN]. *)
Definition lt (a b : option Z) : bool :=
  match a, b with Some x, Some y => x <? y | _, _ => false end.
Definition le (a b : option Z) : bool :=
  match a, b with Some x, Some y => x <=? y | _, _ => false end.
Definition gt (a b : option Z) : bool := lt b a.

Definition HourFromTime (t : Z) : Z := (t / 3600000) mod 24.
Definition MinFromTime (t : Z) : Z := (t / 60000) mod 60.
Definition SecFromTime (t : Z) : Z := (t / 1000) mod 60.
Definition msFromTime (t : Z) : Z := t mod 1000.

(** A number written with at least [n] digits. *)
Definition pad (n : nat) (z : Z) : string :=
  let s := pretty z in
  String.concat EmptyString (repeat "0" (n - String.length s)%nat) ++ s.

(** [d.toISOString()]: the UTC fields of the time value, written
    [YYYY-MM-DDTHH:mm:ss.sssZ] (a year outside 0..9999 takes a sign and
    six digits). On an invalid date the method throws a [RangeError]:
    the result is then [None]. *)
Definition toISOString (tv : option Z) : option string :=
  t ← tv;
  let y := YearFromTime t in
  let year :=
    if (0 <=? y) && (y <=? 9999) then pad 4 y
    else (if y <? 0 then "-" else "+") ++ pad 6 (Z.abs y) in
  Some (year ++ "-" ++ pad 2 (MonthFromTime t + 1)
        ++ "-" ++ pad 2 (DateFromTime t)
        ++ "T" ++ pad 2 (HourFromTime t)
        ++ ":" ++ pad 2 (MinFromTime t)
        ++ ":" ++ pad 2 (SecFromTime t)
        ++ "." ++ pad 3 (msFromTime t) ++ "Z").

End JSDate.

(** ** Thrown values, outcomes of a call, and the state-and-exception
       monad in which the asynchronous code runs *)

(** Any value can be thrown, or be the reason of a rejected promise. The
    code looks at three things in a value it has caught: its [message]
    property, its class ([instanceof]), and, where the controller hands it
    to the logger, what [JSON.stringify] makes of it. The values told
    apart are:
    - the [Error] objects, with the two subclasses of
      [src/types/index.ts];
    - [undefined] and [null], the reason of a promise rejected with no
      error: they have no property, and reading one throws a [TypeError];
    - an [Error] object that [JSON.stringify] cannot write (it holds a
      circular reference or a BigInt), [reason] being the message of the
      [TypeError] that [JSON.stringify] throws on it.
    A value of another kind (a string, a number, an object without a
    [message]) is not told apart from an [Error] object: the code
    catches, logs and throws it in the same way, the [message] it reads
    being [undefined]. *)
Inductive JSError : Type :=
| Error (message : string)
| ValidationError (message field code : string)
| BusinessRuleError (message rule code : string)
| Undefined
| Null
| Unserializable (message reason : string).

(** The [message] of a thrown object. ([undefined] and [null] have none,
    and the code never gets one from them: see [get_message]; the empty
    string stands there.) *)
Definition message (e : JSError) : string :=
  match e with
  | Error m => m
  | ValidationError m _ _ => m
  | BusinessRuleError m _ _ => m
  | Unserializable m _ => m
  | Undefined | Null => EmptyString
  end.

(** The [code] property ([undefined] on a plain [Error]). *)
Definition code (e : JSError) : option string :=
  match e with
  | ValidationError _ _ c => Some c
  | BusinessRuleError _ _ c => Some c
  | _ => None
  end.

(** [undefined] and [null]. *)
Definition is_nullish (e : JSError) : bool :=
  match e with
  | Undefined | Null => true
  | _ => false
  end.

(** The values that [JSON.stringify] can write. *)
Definition is_serializable (e : JSError) : bool :=
  match e with
  | Unserializable _ _ => false
  | _ => true
  end.

(** The [TypeError] thrown by [e.message] when [e] is [undefined] or
    [null]. *)
Definition no_message (e : JSError) : JSError :=
  match e with
  | Null => Error "Cannot read properties of null (reading 'message')"
  | _ => Error "Cannot read properties of undefined (reading 'message')"
  end.

Inductive Outcome (A : Type) : Type :=
| Return (a : A)
| Throw (e : JSError).
Arguments Return {A} a.
Arguments Throw {A} e.

(** A computation over a state [S]: it returns or throws, and leaves a
    new state either way. *)
Definition M (S A : Type) : Type := S -> Outcome A * S.

Definition ret {S A} (a : A) : M S A := fun s => (Return a, s).
Definition throw {S A} (e : JSError) : M S A := fun s => (Throw e, s).

Definition bind {S A B} (m : M S A) (k : A -> M S B) : M S B :=
  fun s =>
    match m s with
    | (Return a, s') => k a s'
    | (Throw e, s') => (Throw e, s')
    end.

(** [try { m } catch (e) { h e }]. *)
Definition try_catch {S A} (m : M S A) (h : JSError -> M S A) : M S A :=
  fun s =>
    match m s with
    | (Return a, s') => (Return a, s')
    | (Throw e, s') => h e s'
    end.

(** [e.message], for a caught value [e]. *)
Definition get_message {S} (e : JSError) : M S string :=
  if is_nullish e then throw (no_message e) else ret (message e).

Definition modify {S} (f : S -> S) : M S unit := fun s => (Return tt, f s).
Definition gets {S A} (f : S -> A) : M S A := fun s => (Return (f s), s).

Declare Scope js_scope.
Delimit Scope js_scope with js.
Notation "x <- m ;; k" := (bind m (fun x => k))
  (at level 100, m at next level, right associativity) : js_scope.
Notation "m ;;; k" := (bind m (fun _ => k))
  (at level 100, right associativity) : js_scope.
Local Open Scope js_scope.

(** ** JSON values and [JSON.stringify]

    Metadata is a [Record<string, unknown>]. The values modelled are
    null, booleans, integers, strings, arrays and objects; in a string,
    the quotation mark, the backslash and the control characters (below
    U+0020) are escaped. *)

Module JSON.

#[local] Unset Elimination Schemes.
Inductive value : Type :=
| JNull
| JBool (b : bool)
| JInt (n : Z)
| JString (s : string)
| JArray (l : list value)
| JObject (l : list (string * value)).
#[local] Set Elimination Schemes.

Definition dquote : ascii := ascii_of_nat 34.
Definition backslash : ascii := ascii_of_nat 92.

Definition hex_digit (n : nat) : ascii :=
  if (n <? 10)%nat then ascii_of_nat (48 + n)%nat else ascii_of_nat (87 + n)%nat.

(** What [JSON.stringify] writes for one character of a string. *)
Definition escape_char (c : ascii) : string :=
  let n := nat_of_ascii c in
  if (Ascii.eqb c dquote || Ascii.eqb c backslash)%bool
  then String backslash (String c EmptyString)
  else if (n =? 8)%nat then String backslash "b"
  else if (n =? 9)%nat then String backslash "t"
  else if (n =? 10)%nat then String backslash "n"
  else if (n =? 12)%nat then String backslash "f"
  else if (n =? 13)%nat then String backslash "r"
  else if (n <? 32)%nat then
    String backslash
      ("u00" ++ String (hex_digit (n / 16)%nat)
                  (String (hex_digit (n mod 16)%nat) EmptyString))
  else String c EmptyString.

Fixpoint escape (s : string) : string :=
  match s with
  | EmptyString => EmptyString
  | String c r => escape_char c ++ escape r
  end.

Definition quote (s : string) : string :=
  String dquote (escape s ++ String dquote EmptyString).

Fixpoint join (sep : string) (l : list string) : string :=
  match l with
  | [] => EmptyString
  | [x] => x
  | x :: r => x ++ sep ++ join sep r
  end.

Fixpoint stringify (v : value) : string :=
  match v with
  | JNull => "null"
  | JBool true => "true"
  | JBool false => "false"
  | JInt n => pretty n
  | JString s => quote s
  | JArray l => "[" ++ join "," (map stringify l) ++ "]"
  | JObject l =>
      "{" ++ join "," (map (fun '(k, x) => quote k ++ ":" ++ stringify x) l) ++ "}"
  end.

End JSON.

(** An object used as metadata: its own properties in insertion order. *)
Abbreviation Metadata := (list (string * JSON.value)) (only parsing).

(** ** The store of [Date] objects *)

(** A location of the store, and the store: cell [l] holds the time value
    of the [Date] object [l]. *)
Abbreviation loc := nat (only parsing).
Abbreviation Dates := (list (option Z)) (only parsing).

(** The time value of a [Date] object ([d.getTime()]). *)
Definition getTime (h : Dates) (l : loc) : option Z := mjoin (h !! l).

(** [new Date(v)]: a fresh object, holding [v]. *)
Definition alloc (v : option Z) (h : Dates) : loc * Dates :=
  (length h, (h ++ [v])%list).

(** Assignment to the time value of the object [l]. *)
Definition setTime (l : loc) (v : option Z) (h : Dates) : Dates := <[l := v]> h.

(** ** The domain types of [src/types/index.ts] *)

Inductive AgreementStatus : Type :=
| DRAFT | PENDING | ACTIVE | COMPLETED | CANCELLED.

Inductive PaymentStatus : Type :=
| PAYMENT_PENDING | PAID | OVERDUE | PAYMENT_CANCELLED.

(** An entry of a payment schedule (the optional [paymentId] and
    [lastAttemptDate], which the service never sets, are left out). *)
Module PaymentSchedule.
Record t : Type := mk {
  id : string;
  dueDate : loc;
  amount : float;
  status : PaymentStatus;
  attemptCount : Z
}.
End PaymentSchedule.

Module LeasingAgreement.
Record t : Type := mk {
  id : string;
  employeeId : string;
  itemId : string;
  startDate : loc;
  endDate : loc;
  status : AgreementStatus;
  price : float;
  currency : string;
  companyId : string;
  paymentSchedule : list PaymentSchedule.t;
  metadata : Metadata;
  createdAt : loc;
  updatedAt : loc
}.

(** [{ ...a, status: s }] *)
Definition with_status (a : t) (s : AgreementStatus) : t :=
  mk (id a) (employeeId a) (itemId a) (startDate a) (endDate a) s (price a)
     (currency a) (companyId a) (paymentSchedule a) (metadata a)
     (createdAt a) (updatedAt a).

(** [{ ...a, status: s, updatedAt: d }] *)
Definition with_status_updatedAt (a : t) (s : AgreementStatus) (d : loc) : t :=
  mk (id a) (employeeId a) (itemId a) (startDate a) (endDate a) s (price a)
     (currency a) (companyId a) (paymentSchedule a) (metadata a)
     (createdAt a) d.

(** [{ ...a, paymentSchedule: ps }] *)
Definition with_paymentSchedule (a : t) (ps : list PaymentSchedule.t) : t :=
  mk (id a) (employeeId a) (itemId a) (startDate a) (endDate a) (status a)
     (price a) (currency a) (companyId a) ps (metadata a)
     (createdAt a) (updatedAt a).
End LeasingAgreement.

Module CreateAgreementRequest.
Record t : Type := mk {
  employeeId : string;
  itemId : string;
  startDate : string;
  endDate : string;
  price : float;
  currency : string;
  companyId : string;
  paymentFrequency : string;
  metadata : option Metadata
}.

(** [{ ...r, metadata: m }] *)
Definition with_metadata (r : t) (m : option Metadata) : t :=
  mk (employeeId r) (itemId r) (startDate r) (endDate r) (price r)
     (currency r) (companyId r) (paymentFrequency r) m.
End CreateAgreementRequest.

Module LeasingConfig.
Record t : Type := mk {
  maxLeasingDuration : float;
  minLeasingDuration : float;
  maxPrice : float;
  supportedCurrencies : list string;
  employeeDiscounts : gmap string float;
  longTermDiscount : float;
  longTermThreshold : float
}.

(** [{ ...c, maxPrice: m }] *)
Definition with_maxPrice (c : t) (m : float) : t :=
  mk (maxLeasingDuration c) (minLeasingDuration c) m (supportedCurrencies c)
     (employeeDiscounts c) (longTermDiscount c) (longTermThreshold c).
End LeasingConfig.

(** ** The world: the store of dates and the state of everything outside
       the service (collaborators, clock, console) *)

Record World (E : Type) : Type := mkWorld {
  dates : Dates;
  ext : E
}.
Arguments mkWorld {E} dates ext.
Arguments dates {E} w.
Arguments ext {E} w.

(** A call that only touches the outside. *)
Definition outside {E A} (f : E -> Outcome A * E) : M (World E) A :=
  fun w => let (r, e') := f (ext w) in (r, mkWorld (dates w) e').

(** [new Date(v)] in the world. *)
Definition newDate {E} (v : option Z) : M (World E) loc :=
  fun w => let (l, h') := alloc v (dates w) in (Return l, mkWorld h' (ext w)).

Definition readDate {E} (l : loc) : M (World E) (option Z) :=
  gets (fun w => getTime (dates w) l).

Definition writeDate {E} (l : loc) (v : option Z) : M (World E) unit :=
  modify (fun w => mkWorld (setTime l v (dates w)) (ext w)).

(** ** The collaborators ([ILeasingRepository], [INotificationService],
       [IInventoryService], [IBillingService], [IEmployeeService]), the
       logger and the run-time services, as interfaces over the outside
       state [E] *)

(** Each interface has the methods the service calls. A method takes the
    state of the outside and gives back its outcome, a value returned or
    an error thrown, with the new state. *)

Class ILeasingRepository (E : Type) : Type := {
  save : LeasingAgreement.t -> E -> Outcome LeasingAgreement.t * E
}.

Class INotificationService (E : Type) : Type := {
  sendAgreementCreated : string -> string -> E -> Outcome unit * E
}.

Class IInventoryService (E : Type) : Type := {
  reserveItem : string -> E -> Outcome bool * E;
  releaseItem : string -> E -> Outcome unit * E;
  checkAvailability : string -> E -> Outcome bool * E
}.

Class IBillingService (E : Type) : Type := {
  createBillingRecord : LeasingAgreement.t -> E -> Outcome string * E
}.

Class IEmployeeService (E : Type) : Type := {
  getEmployeeType : string -> E -> Outcome string * E;
  validateEmployee : string -> string -> E -> Outcome bool * E
}.

Inductive LogLevel : Type := LInfo | LWarn | LError.

(** The logger writes an entry (level, message and the string fields of
    its metadata) to the console; on metadata made of strings and
    numbers it does not throw. *)
Class Logger (E : Type) : Type := {
  log : LogLevel -> string -> list (string * string) -> E -> E
}.

(** The clock ([Date.now()], [new Date()]), the random suffix
    [Math.random().toString(36).substr(2, 9)], and the two conversions
    left to the engine: [Date.parse] (None for an invalid date) and the
    decimal printing of a number. *)
Class Runtime (E : Type) : Type := {
  Date_now : E -> Z * E;
  random_suffix : E -> string * E;
  Date_parse : string -> option Z;
  Number_toString : float -> string;
  LocalTZA : Z
}.

Definition logger {E} `{Logger E} (lvl : LogLevel) (msg : string)
    (meta : list (string * string)) : M (World E) unit :=
  outside (fun e => (Return tt, log lvl msg meta e)).

(** [logger.error(msg, meta, error)]: the entry holds the error object,
    and [Logger] prints the entry with [JSON.stringify], which throws a
    [TypeError] on an object it cannot write; nothing is written then.
    (Of the entry, the model keeps the level, the message and the
    metadata.) *)
Definition logger_error {E} `{Logger E} (msg : string)
    (meta : list (string * string)) (error : JSError) : M (World E) unit :=
  match error with
  | Unserializable _ reason => throw (Error reason)
  | _ => logger LError msg meta
  end.

(** [new Date()] *)
Definition newDateNow {E} `{Runtime E} : M (World E) loc :=
  now <- outside (fun e => let (n, e') := Date_now e in (Return n, e')) ;;
  newDate (Some now).

(** [Date.now()] *)
Definition now_ms {E} `{Runtime E} : M (World E) Z :=
  outside (fun e => let (n, e') := Date_now e in (Return n, e')).

Definition randomSuffix {E} `{Runtime E} : M (World E) string :=
  outside (fun e => let (r, e') := random_suffix e in (Return r, e')).

(** ** Strings: the methods of [String.prototype] the validator uses

    A string is the sequence of the bytes of its UTF-8 encoding (the
    strings of JavaScript that hold no lone surrogate). *)

Module JSString.

(** The white space and the line terminators of ECMAScript, which
    [trim] strips and [parseInt] skips. In one byte: U+0009 to U+000D and
    U+0020. *)
Definition is_whitespace (c : ascii) : bool :=
  let n := nat_of_ascii c in
  ((9 <=? n)%nat && (n <=? 13)%nat) || (n =? 32)%nat.

(** In two bytes: U+00A0 (C2 A0). *)
Definition is_whitespace2 (c1 c2 : ascii) : bool :=
  (nat_of_ascii c1 =? 194)%nat && (nat_of_ascii c2 =? 160)%nat.

(** In three bytes: U+1680 (E1 9A 80); U+2000 to U+200A, U+2028, U+2029
    and U+202F (E2 80 80 to 8A, A8, A9, AF); U+205F (E2 81 9F); U+3000
    (E3 80 80); U+FEFF (EF BB BF). *)
Definition is_whitespace3 (c1 c2 c3 : ascii) : bool :=
  let a := nat_of_ascii c1 in
  let b := nat_of_ascii c2 in
  let c := nat_of_ascii c3 in
  ((a =? 225)%nat && (b =? 154)%nat && (c =? 128)%nat)
  || ((a =? 226)%nat && (b =? 128)%nat
      && (((128 <=? c)%nat && (c <=? 138)%nat)
          || (c =? 168)%nat || (c =? 169)%nat || (c =? 175)%nat))
  || ((a =? 226)%nat && (b =? 129)%nat && (c =? 159)%nat)
  || ((a =? 227)%nat && (b =? 128)%nat && (c =? 128)%nat)
  || ((a =? 239)%nat && (b =? 187)%nat && (c =? 191)%nat).

(** The characters of a class are stripped from the front of a string,
    the class being given by its members of one, two and three bytes. *)
Fixpoint strip (w1 : ascii -> bool) (w2 : ascii -> ascii -> bool)
    (w3 : ascii -> ascii -> ascii -> bool) (s : string) : string :=
  match s with
  | String c1 r1 =>
      if w1 c1 then strip w1 w2 w3 r1
      else
        match r1 with
        | String c2 r2 =>
            if w2 c1 c2 then strip w1 w2 w3 r2
            else
              match r2 with
              | String c3 r3 => if w3 c1 c2 c3 then strip w1 w2 w3 r3 else s
              | EmptyString => s
              end
        | EmptyString => s
        end
  | EmptyString => EmptyString
  end.

Definition trimStart (s : string) : string :=
  strip is_whitespace is_whitespace2 is_whitespace3 s.

Fixpoint rev_onto (s acc : string) : string :=
  match s with
  | EmptyString => acc
  | String c r => rev_onto r (String c acc)
  end.

Definition reverse (s : string) : string := rev_onto s EmptyString.

(** From the end, the bytes of a character are met last byte first. *)
Definition trimEnd (s : string) : string :=
  reverse
    (strip is_whitespace (fun c2 c1 => is_whitespace2 c1 c2)
       (fun c3 c2 c1 => is_whitespace3 c1 c2 c3) (reverse s)).

Definition trim (s : string) : string := trimEnd (trimStart s).

(** A string is falsy when it is empty. *)
Definition is_empty (s : string) : bool :=
  match s with EmptyString => true | _ => false end.

(** [s.includes(sub)] *)
Fixpoint includes (sub s : string) : bool :=
  String.prefix sub s ||
  match s with
  | EmptyString => false
  | String _ r => includes sub r
  end.

(** [s.split(c)] for a one-character separator. *)
Fixpoint split (c : ascii) (s : string) : list string :=
  match s with
  | EmptyString => [EmptyString]
  | String a r =>
      if Ascii.eqb a c then EmptyString :: split c r
      else
        match split c r with
        | x :: xs => String a x :: xs
        | [] => [String a EmptyString]
        end
  end.

(** [Array.prototype.includes] on an array of strings. *)
Definition array_includes (l : list string) (s : string) : bool :=
  existsb (String.eqb s) l.

(** The character class [[a-zA-Z0-9_-]]. *)
Definition is_id_char (c : ascii) : bool :=
  let n := nat_of_ascii c in
  ((97 <=? n)%nat && (n <=? 122)%nat)
  || ((65 <=? n)%nat && (n <=? 90)%nat)
  || ((48 <=? n)%nat && (n <=? 57)%nat)
  || (n =? 95)%nat || (n =? 45)%nat.

(** [/^[a-zA-Z0-9_-]+$/.test(s)] *)
Definition matches_id_pattern (s : string) : bool :=
  negb (is_empty s) && forallb is_id_char (list_ascii_of_string s).

(** [s.length] counts UTF-16 code units. A character below U+10000 (one
    to three bytes) is one unit and a character from U+10000 on (four
    bytes, the first of them F0 or above) is two; the unit or units of a
    character are counted at its first byte, the bytes that follow (80 to
    BF) counting for nothing. *)
Definition code_units (c : ascii) : Z :=
  let n := nat_of_ascii c in
  if (n <? 128)%nat then 1
  else if (n <? 192)%nat then 0
  else if (n <? 240)%nat then 1
  else 2.

Fixpoint length (s : string) : Z :=
  match s with
  | EmptyString => 0
  | String c r => code_units c + length r
  end.

(** [s.replace(/[...]/g, '')]: every character of a class is removed. *)
Fixpoint remove_class (cls : ascii -> bool) (s : string) : string :=
  match s with
  | EmptyString => EmptyString
  | String c r =>
      if cls c then remove_class cls r else String c (remove_class cls r)
  end.

(** The two character classes of [sanitizeString]: the angle brackets,
    and the single and double quotation marks. *)
Definition is_angle_bracket (c : ascii) : bool :=
  let n := nat_of_ascii c in (n =? 60)%nat || (n =? 62)%nat.
Definition is_quote_mark (c : ascii) : bool :=
  let n := nat_of_ascii c in (n =? 39)%nat || (n =? 34)%nat.

(** [s.substring(n)]: the string from index [n] on, for a string whose
    first [n] characters are ASCII characters. *)
Fixpoint substring_from (n : nat) (s : string) : string :=
  match n, s with
  | O, _ => s
  | S _, EmptyString => EmptyString
  | S n', String _ r => substring_from n' r
  end.

End JSString.

(** Arithmetic on integers that may be [NaN]. *)
Definition int_add (a b : option Z) : option Z :=
  x ← a; y ← b; Some (x + y).
Definition int_sub (a b : option Z) : option Z :=
  x ← a; y ← b; Some (x - y).
Definition int_mul (a b : option Z) : option Z :=
  x ← a; y ← b; Some (x * y).

(** The number held by such an integer. *)
Definition int_to_number (a : option Z) : float :=
  match a with
  | Some z => JSNumber.ofZ z
  | None => PrimFloat.nan
  end.

(** ** The validator, [src/utils/validation.ts] *)

Module Validator.
Section Validator.
Context {E : Type} `{Runtime E}.

Definition validateAndParseDate (dateString fieldName : string)
  : M (World E) Z :=
  if JSString.is_empty (JSString.trim dateString) then
    throw (ValidationError (fieldName ++ " is required") fieldName "REQUIRED")
  else
    match Date_parse dateString with
    | None =>
        throw (ValidationError (fieldName ++ " must be a valid ISO date")
                 fieldName "INVALID_FORMAT")
    | Some date => ret date
    end.

Definition validateDateRange (startDate endDate : Z) : M (World E) unit :=
  now <- now_ms ;;
  maxFutureDate0 <- now_ms ;;
  let maxFutureDate :=
    JSDate.setFullYear LocalTZA (Some maxFutureDate0)
      (int_add (JSDate.getFullYear LocalTZA (Some now)) (Some 5)) in
  if JSDate.lt (Some startDate) (JSDate.startOfDay LocalTZA (Some now)) then
    throw (ValidationError "Start date cannot be in the past"
             "startDate" "PAST_DATE")
  else if JSDate.le (Some endDate) (Some startDate) then
    throw (ValidationError "End date must be after start date"
             "endDate" "INVALID_RANGE")
  else if JSDate.gt (Some endDate) maxFutureDate then
    throw (ValidationError "Lease duration cannot exceed 5 years"
             "endDate" "DURATION_EXCEEDED")
  else
    let minEndDate :=
      JSDate.setDate LocalTZA (Some startDate)
        (int_add (JSDate.getDate LocalTZA (Some startDate)) (Some 30)) in
    if JSDate.lt (Some endDate) minEndDate then
      throw (ValidationError "Minimum lease duration is 30 days"
               "endDate" "DURATION_TOO_SHORT")
    else ret tt.

Definition validatePrice (price : float) : M (World E) unit :=
  if JSNumber.isNaN price then
    throw (ValidationError "Price must be a valid number" "price" "INVALID_TYPE")
  else if JSNumber.le price 0 then
    throw (ValidationError "Price must be greater than zero"
             "price" "INVALID_VALUE")
  else if JSNumber.gt price 1000000 then
    throw (ValidationError "Price cannot exceed $1,000,000"
             "price" "EXCEEDS_LIMIT")
  else if JSString.includes "." (Number_toString price)
          && (2 <? JSString.length
                     (nth 1 (JSString.split "." (Number_toString price))
                        EmptyString)) then
    throw (ValidationError "Price cannot have more than 2 decimal places"
             "price" "INVALID_PRECISION")
  else ret tt.

Definition validateCurrency (currency : string) : M (World E) unit :=
  let supportedCurrencies := ["USD"; "EUR"; "GBP"; "CAD"] in
  if negb (JSString.array_includes supportedCurrencies currency) then
    throw (ValidationError
             ("Currency must be one of: " ++ JSON.join ", " supportedCurrencies)
             "currency" "UNSUPPORTED_CURRENCY")
  else ret tt.

Definition validatePaymentFrequency (frequency : string) : M (World E) unit :=
  let validFrequencies := ["MONTHLY"; "QUARTERLY"; "ANNUALLY"] in
  if negb (JSString.array_includes validFrequencies frequency) then
    throw (ValidationError
             ("Payment frequency must be one of: "
              ++ JSON.join ", " validFrequencies)
             "paymentFrequency" "INVALID_FREQUENCY")
  else ret tt.

Definition validateIdFormat (id fieldName : string) : M (World E) unit :=
  if (JSString.length id <? 3) || (50 <? JSString.length id) then
    throw (ValidationError (fieldName ++ " must be between 3 and 50 characters")
             fieldName "INVALID_LENGTH")
  else if negb (JSString.matches_id_pattern id) then
    throw (ValidationError (fieldName ++ " contains invalid characters")
             fieldName "INVALID_FORMAT")
  else ret tt.

Definition validateCreateAgreementRequest (request : CreateAgreementRequest.t)
  : M (World E) unit :=
  if JSString.is_empty (JSString.trim (CreateAgreementRequest.employeeId request)) then
    throw (ValidationError "Employee ID is required" "employeeId" "REQUIRED")
  else if JSString.is_empty (JSString.trim (CreateAgreementRequest.itemId request)) then
    throw (ValidationError "Item ID is required" "itemId" "REQUIRED")
  else if JSString.is_empty (JSString.trim (CreateAgreementRequest.companyId request)) then
    throw (ValidationError "Company ID is required" "companyId" "REQUIRED")
  else
    startDate <- validateAndParseDate
                   (CreateAgreementRequest.startDate request) "startDate" ;;
    endDate <- validateAndParseDate
                 (CreateAgreementRequest.endDate request) "endDate" ;;
    validateDateRange startDate endDate ;;;
    validatePrice (CreateAgreementRequest.price request) ;;;
    validateCurrency (CreateAgreementRequest.currency request) ;;;
    validatePaymentFrequency (CreateAgreementRequest.paymentFrequency request) ;;;
    validateIdFormat (CreateAgreementRequest.employeeId request) "employeeId" ;;;
    validateIdFormat (CreateAgreementRequest.itemId request) "itemId" ;;;
    validateIdFormat (CreateAgreementRequest.companyId request) "companyId".

Definition validateMetadata (metadata : option Metadata) : M (World E) unit :=
  match metadata with
  | None => ret tt
  | Some m =>
      let serialized := JSON.stringify (JSON.JObject m) in
      if 10000 <? JSString.length serialized then
        throw (ValidationError "Metadata size cannot exceed 10KB"
                 "metadata" "SIZE_EXCEEDED")
      else if JSString.includes "<script>" serialized
              || JSString.includes "javascript:" serialized then
        throw (ValidationError "Metadata contains prohibited content"
                 "metadata" "PROHIBITED_CONTENT")
      else ret tt
  end.

Definition sanitizeString (input : string) : string :=
  JSString.trim
    (JSString.remove_class JSString.is_quote_mark
       (JSString.remove_class JSString.is_angle_bracket input)).

End Validator.
End Validator.

(** ** The service, [src/services/leasingAgreementService.ts] *)

Module LeasingAgreementService.
Section Service.
Context {E : Type}.
Context `{ILeasingRepository E} `{INotificationService E}
        `{IInventoryService E} `{IBillingService E} `{IEmployeeService E}
        `{Logger E} `{Runtime E}.
Variable config : LeasingConfig.t.

(** [calculateDurationInMonths]: calendar months between two dates, the
    day of the month being ignored. *)
Definition calculateDurationInMonths (h : Dates) (startDate endDate : loc)
  : option Z :=
  let yearDiff :=
    int_sub (JSDate.getFullYear LocalTZA (getTime h endDate))
            (JSDate.getFullYear LocalTZA (getTime h startDate)) in
  let monthDiff :=
    int_sub (JSDate.getMonth LocalTZA (getTime h endDate))
            (JSDate.getMonth LocalTZA (getTime h startDate)) in
  int_add (int_mul yearDiff (Some 12)) monthDiff.

Definition getIntervalMonths (frequency : string) : Z :=
  if String.eqb frequency "MONTHLY" then 1
  else if String.eqb frequency "QUARTERLY" then 3
  else if String.eqb frequency "ANNUALLY" then 12
  else 1.

(** The names of the members of [Object.prototype], which an object
    literal inherits. *)
Definition Object_prototype_members : list string :=
  ["constructor"; "__defineGetter__"; "__defineSetter__"; "hasOwnProperty";
   "__lookupGetter__"; "__lookupSetter__"; "isPrototypeOf";
   "propertyIsEnumerable"; "toString"; "valueOf"; "__proto__";
   "toLocaleString"].

(** [employeeDiscounts[employeeType] || 1.0], as a factor of the product
    that follows. The multipliers configured are the own properties of an
    object literal. A key that is not one of them and names a member of
    [Object.prototype] reads that member, a function or an object: it is
    truthy, and as a factor of a product it is [NaN]. *)
Definition employeeMultiplierOf (employeeType : string) : float :=
  match LeasingConfig.employeeDiscounts config !! employeeType with
  | Some d => if JSNumber.truthy d then d else 1%float
  | None =>
      if JSString.array_includes Object_prototype_members employeeType
      then PrimFloat.nan else 1%float
  end.

Definition longTermMultiplierOf (durationMonths : option Z) : float :=
  if JSNumber.ge (int_to_number durationMonths)
                 (LeasingConfig.longTermThreshold config)
  then LeasingConfig.longTermDiscount config
  else 1%float.

Definition calculateLeasingCost (price : float) (startDate endDate : loc)
    (employeeType : string) : M (World E) float :=
  durationMonths <-
    gets (fun w => calculateDurationInMonths (dates w) startDate endDate) ;;
  let longTermMultiplier := longTermMultiplierOf durationMonths in
  let employeeMultiplier := employeeMultiplierOf employeeType in
  let totalCost := (price * longTermMultiplier * employeeMultiplier)%float in
  logger LInfo "Cost calculation completed" [] ;;;
  ret (JSNumber.Math_round (totalCost * 100) / 100)%float.

(** [d.setMonth(d.getMonth() + months)]: the time value of [d] moved
    forward by [months] calendar months. *)
Definition advanceMonths (months : Z) (current : option Z) : option Z :=
  JSDate.setMonth LocalTZA current
    (int_add (JSDate.getMonth LocalTZA current) (Some months)).

(** One turn of the loop of [generatePaymentSchedule], then the rest:
    [k] turns remain and [i] is the loop index. *)
Fixpoint scheduleLoop (k : nat) (i : Z) (agreementId : string)
    (totalPayments : Z) (paymentAmount : float) (intervalMonths : Z)
    (currentDate : loc) (remainingAmount : float)
    (schedules : list PaymentSchedule.t)
  : M (World E) (list PaymentSchedule.t) :=
  match k with
  | O => ret schedules
  | S k' =>
      let amount :=
        if i =? totalPayments - 1 then remainingAmount else paymentAmount in
      current <- readDate currentDate ;;
      dueDate <- newDate current ;;
      let schedules' :=
        (schedules ++
         [PaymentSchedule.mk (agreementId ++ "-payment-" ++ pretty (i + 1))
            dueDate amount PAYMENT_PENDING 0])%list in
      let remainingAmount' := (remainingAmount - amount)%float in
      current <- readDate currentDate ;;
      writeDate currentDate (advanceMonths intervalMonths current) ;;;
      scheduleLoop k' (i + 1) agreementId totalPayments paymentAmount
        intervalMonths currentDate remainingAmount' schedules'
  end.

(** The number of turns of [for (let i = 0; i < totalPayments; i++)]. *)
Definition turns (totalPayments : option Z) : nat :=
  match totalPayments with
  | Some n => Z.to_nat n
  | None => O
  end.

Definition generatePaymentSchedule (agreement : LeasingAgreement.t)
    (frequency : string) : M (World E) (list PaymentSchedule.t) :=
  let totalAmount := LeasingAgreement.price agreement in
  let intervalMonths := getIntervalMonths frequency in
  duration <-
    gets (fun w => calculateDurationInMonths (dates w)
                     (LeasingAgreement.startDate agreement)
                     (LeasingAgreement.endDate agreement)) ;;
  let totalPayments := JSNumber.ceil_div duration intervalMonths in
  let paymentAmount :=
    (JSNumber.Math_round ((totalAmount / int_to_number totalPayments) * 100)
     / 100)%float in
  start <- readDate (LeasingAgreement.startDate agreement) ;;
  currentDate <- newDate start ;;
  schedules <-
    scheduleLoop (turns totalPayments) 0 (LeasingAgreement.id agreement)
      (default 0 totalPayments) paymentAmount intervalMonths currentDate
      totalAmount [] ;;
  logger LInfo "Payment schedule generated"
    [("agreementId", LeasingAgreement.id agreement); ("frequency", frequency)] ;;;
  ret schedules.

Definition validateBusinessRules (request : CreateAgreementRequest.t)
  : M (World E) unit :=
  isValidEmployee <-
    outside (validateEmployee (CreateAgreementRequest.employeeId request)
                              (CreateAgreementRequest.companyId request)) ;;
  if negb isValidEmployee then
    throw (BusinessRuleError
             "Employee does not exist or does not belong to specified company"
             "EMPLOYEE_VALIDATION" "INVALID_EMPLOYEE")
  else
    isItemAvailable <-
      outside (checkAvailability (CreateAgreementRequest.itemId request)) ;;
    if negb isItemAvailable then
      throw (BusinessRuleError "Requested item is not available for leasing"
               "ITEM_AVAILABILITY" "ITEM_UNAVAILABLE")
    else if JSNumber.gt (CreateAgreementRequest.price request)
                        (LeasingConfig.maxPrice config) then
      throw (BusinessRuleError
               ("Price exceeds maximum allowed amount of "
                ++ Number_toString (LeasingConfig.maxPrice config))
               "PRICE_LIMIT" "PRICE_EXCEEDED")
    else ret tt.

Definition generateAgreementId : M (World E) string :=
  now <- now_ms ;;
  r <- randomSuffix ;;
  ret ("LA-" ++ pretty now ++ "-" ++ r).

Definition generateCorrelationId : M (World E) string :=
  now <- now_ms ;;
  r <- randomSuffix ;;
  ret (pretty now ++ "-" ++ r).

Definition createAgreementFromRequest (request : CreateAgreementRequest.t)
  : M (World E) LeasingAgreement.t :=
  startDate <- newDate (Date_parse (CreateAgreementRequest.startDate request)) ;;
  endDate <- newDate (Date_parse (CreateAgreementRequest.endDate request)) ;;
  employeeType <-
    outside (getEmployeeType (CreateAgreementRequest.employeeId request)) ;;
  totalCost <-
    calculateLeasingCost (CreateAgreementRequest.price request)
      startDate endDate employeeType ;;
  id <- generateAgreementId ;;
  createdAt <- newDateNow ;;
  updatedAt <- newDateNow ;;
  let tempAgreement :=
    LeasingAgreement.mk id
      (CreateAgreementRequest.employeeId request)
      (CreateAgreementRequest.itemId request)
      startDate endDate DRAFT totalCost
      (CreateAgreementRequest.currency request)
      (CreateAgreementRequest.companyId request)
      []
      (default [] (CreateAgreementRequest.metadata request))
      createdAt updatedAt in
  paymentSchedule <-
    generatePaymentSchedule tempAgreement
      (CreateAgreementRequest.paymentFrequency request) ;;
  ret (LeasingAgreement.with_paymentSchedule tempAgreement paymentSchedule).

(** *** The saga *)

(** A compensator: a closure [() => Promise<void>]. *)
Definition Compensator : Type := M (World E) unit.

(** The [try] block of [executeAgreementTransaction] runs over the world
    and the local array [operations]. *)
Definition Saga (A : Type) : Type := M (World E * list Compensator) A.

(** A computation of the world, inside the [try] block. *)
Definition inSaga {A} (m : M (World E) A) : Saga A :=
  fun s => let (r, w') := m (fst s) in (r, (w', snd s)).

(** [operations.push(c)] *)
Definition push (c : Compensator) : Saga unit :=
  modify (fun s => (fst s, (snd s ++ [c])%list)).

Definition transactionBody (agreement : LeasingAgreement.t)
    (correlationId : string) : Saga LeasingAgreement.t :=
  (* Step 1: reserve the inventory item *)
  _ <- inSaga (outside (reserveItem (LeasingAgreement.itemId agreement))) ;;
  push (outside (releaseItem (LeasingAgreement.itemId agreement))) ;;;
  (* Step 2: save the agreement *)
  savedAgreement <-
    inSaga (outside (save (LeasingAgreement.with_status agreement PENDING))) ;;
  (* Step 3: create the billing record *)
  billingId <- inSaga (outside (createBillingRecord savedAgreement)) ;;
  inSaga (logger LInfo "Billing record created"
            [("agreementId", LeasingAgreement.id savedAgreement);
             ("billingId", billingId)]) ;;;
  (* Step 4: send the notification; a failure is logged and dropped *)
  inSaga (try_catch
            (outside (sendAgreementCreated
                        (LeasingAgreement.employeeId savedAgreement)
                        (LeasingAgreement.id savedAgreement)))
            (fun notificationError =>
               error_message <- get_message notificationError ;;
               logger LWarn "Notification failed but agreement created"
                 [("correlationId", correlationId);
                  ("error", error_message)])) ;;;
  (* Update the status to active *)
  updatedAt <- inSaga newDateNow ;;
  finalAgreement <-
    inSaga (outside (save (LeasingAgreement.with_status_updatedAt
                             savedAgreement ACTIVE updatedAt))) ;;
  inSaga (logger LInfo "Agreement processed successfully"
            [("correlationId", correlationId);
             ("agreementId", LeasingAgreement.id finalAgreement)]) ;;;
  ret finalAgreement.

(** The loop of the [catch] block: every rollback is awaited in turn, and
    a rollback that throws is logged. (What the [catch] block of a
    rollback throws itself leaves the loop.) *)
Fixpoint runRollbacks (correlationId : string) (rollbacks : list Compensator)
  : M (World E) unit :=
  match rollbacks with
  | [] => ret tt
  | rollback :: rest =>
      try_catch rollback
        (fun rollbackError =>
           error_message <- get_message rollbackError ;;
           logger LError "Rollback failed"
             [("correlationId", correlationId);
              ("error", error_message)]) ;;;
      runRollbacks correlationId rest
  end.

Definition executeAgreementTransaction (agreement : LeasingAgreement.t)
    (correlationId : string) : M (World E) LeasingAgreement.t :=
  fun w =>
    match transactionBody agreement correlationId (w, []) with
    | (Return finalAgreement, (w', _)) => (Return finalAgreement, w')
    | (Throw error, (w', operations)) =>
        (runRollbacks correlationId (rev operations) ;;; throw error) w'
    end.

Definition processLeasingAgreement (request : CreateAgreementRequest.t)
  : M (World E) LeasingAgreement.t :=
  correlationId <- generateCorrelationId ;;
  try_catch
    (logger LInfo "Processing leasing agreement"
       [("correlationId", correlationId);
        ("employeeId", CreateAgreementRequest.employeeId request);
        ("itemId", CreateAgreementRequest.itemId request)] ;;;
     Validator.validateCreateAgreementRequest request ;;;
     validateBusinessRules request ;;;
     agreement <- createAgreementFromRequest request ;;
     executeAgreementTransaction agreement correlationId)
    (fun error =>
       error_message <- get_message error ;;
       logger LError "Failed to process leasing agreement"
         [("correlationId", correlationId); ("error", error_message)] ;;;
       throw error).

End Service.
End LeasingAgreementService.

(** ** The HTTP layer: requests and responses *)

(** [req.user], set by the authentication middleware. *)
Module User.
Record t : Type := mk {
  id : string;
  email : string;
  companyId : string;
  role : string
}.
End User.

(** The parts of an Express request that the middleware and the
    handlers read. A body, when there is one, is an object whose fields
    have the types of [CreateAgreementRequest]. *)
Module Request.
Record t : Type := mk {
  user : option User.t;
  body : option CreateAgreementRequest.t;
  (* [req.is('application/json')] *)
  is_json : bool;
  (* [req.header('Authorization')] *)
  authorization : option string;
  (* [req.params.id], [req.params.employeeId], [req.params?.companyId],
     [req.query?.companyId], [req.path] *)
  params_id : option string;
  params_employeeId : option string;
  params_companyId : option string;
  query_companyId : option string;
  path : string
}.

(** The request after [req.user = u]. *)
Definition with_user (r : t) (u : User.t) : t :=
  mk (Some u) (body r) (is_json r) (authorization r) (params_id r)
     (params_employeeId r) (params_companyId r) (query_companyId r) (path r).
End Request.

Module PaymentScheduleResponse.
Record t : Type := mk {
  id : string;
  dueDate : string;
  amount : float;
  status : PaymentStatus
}.
End PaymentScheduleResponse.

Module AgreementResponse.
Record t : Type := mk {
  id : string;
  status : AgreementStatus;
  totalCost : float;
  paymentSchedule : list PaymentScheduleResponse.t;
  createdAt : string
}.
End AgreementResponse.

(** What a handler sends: [res.status(statusCode).json(payload)], the
    payload being [{ success: true, data, correlationId }],
    [{ success: true, message, correlationId }] or
    [{ error: { code, message, field, correlationId } }]. *)
Module HttpResponse.
Inductive payload : Type :=
| Success (data : AgreementResponse.t) (correlationId : string)
| Pending (message correlationId : string)
| Failure (code message : string) (field correlationId : option string).

Record t : Type := mk {
  statusCode : Z;
  json : payload
}.
End HttpResponse.

(** A middleware either calls [next()], leaving the request to the next
    handler, or sends a response. *)
Inductive Passed : Type :=
| Next (req : Request.t)
| Responded (res : HttpResponse.t).

(** [a || b] on values that are strings or [undefined], and the
    truthiness of such a value. *)
Definition string_truthy (a : option string) : bool :=
  match a with
  | Some s => negb (JSString.is_empty s)
  | None => false
  end.

Definition string_or (a b : option string) : option string :=
  if string_truthy a then a else b.

(** A field of the metadata of a log entry; a field that is [undefined]
    is not printed. *)
Definition log_field (key : string) (v : option string) : list (string * string) :=
  match v with
  | Some s => [(key, s)]
  | None => []
  end.

(** ** The security middleware, [src/middleware/security.ts] (its text
       is found after the types, in [src/types/index.ts]) *)

Module SecurityMiddleware.
Section Middleware.
Context {E : Type} `{Logger E}.

(** The mock of the token validation: any token of more than ten
    characters is the token of one fixed user. *)
Definition validateToken (token : string) : option User.t :=
  if 10 <? JSString.length token then
    Some (User.mk "user123" "user@example.com" "comp1" "user")
  else None.

Definition authenticate (req : Request.t) : M (World E) Passed :=
  match Request.authorization req with
  | None =>
      ret (Responded
             (HttpResponse.mk 401
                (HttpResponse.Failure "MISSING_TOKEN"
                   "Authorization token is required" None None)))
  | Some authHeader =>
      if JSString.is_empty authHeader
         || negb (String.prefix "Bearer " authHeader) then
        ret (Responded
               (HttpResponse.mk 401
                  (HttpResponse.Failure "MISSING_TOKEN"
                     "Authorization token is required" None None)))
      else
        let token := JSString.substring_from 7 authHeader in
        match validateToken token with
        | None =>
            ret (Responded
                   (HttpResponse.mk 401
                      (HttpResponse.Failure "INVALID_TOKEN"
                         "Invalid or expired token" None None)))
        | Some user => ret (Next (Request.with_user req user))
        end
  end.

Definition authorize (requiredRole : option string) (req : Request.t)
  : M (World E) Passed :=
  match Request.user req with
  | None =>
      ret (Responded
             (HttpResponse.mk 401
                (HttpResponse.Failure "UNAUTHORIZED" "Authentication required"
                   None None)))
  | Some user =>
      if string_truthy requiredRole
         && negb (bool_decide (Some (User.role user) = requiredRole))
         && negb (String.eqb (User.role user) "admin") then
        logger LWarn "Authorization failed"
          ([("userId", User.id user); ("userRole", User.role user)]
           ++ log_field "requiredRole" requiredRole
           ++ [("endpoint", Request.path req)])%list ;;;
        ret (Responded
               (HttpResponse.mk 403
                  (HttpResponse.Failure "INSUFFICIENT_PERMISSIONS"
                     "Insufficient permissions for this operation" None None)))
      else ret (Next req)
  end.

Definition validateCompanyAccess (req : Request.t) : M (World E) Passed :=
  match Request.user req with
  | None =>
      ret (Responded
             (HttpResponse.mk 401
                (HttpResponse.Failure "UNAUTHORIZED" "Authentication required"
                   None None)))
  | Some user =>
      let requestCompanyId :=
        string_or
          (string_or (CreateAgreementRequest.companyId <$> Request.body req)
                     (Request.params_companyId req))
          (Request.query_companyId req) in
      if negb (string_truthy requestCompanyId) then
        ret (Responded
               (HttpResponse.mk 400
                  (HttpResponse.Failure "MISSING_COMPANY_ID"
                     "Company ID is required" None None)))
      else if String.eqb (User.role user) "admin" then ret (Next req)
      else if negb (bool_decide (Some (User.companyId user) = requestCompanyId))
      then
        logger LWarn "Company access denied"
          ([("userId", User.id user); ("userCompanyId", User.companyId user)]
           ++ log_field "requestedCompanyId" requestCompanyId
           ++ [("endpoint", Request.path req)])%list ;;;
        ret (Responded
               (HttpResponse.mk 403
                  (HttpResponse.Failure "COMPANY_ACCESS_DENIED"
                     "Access denied to company resources" None None)))
      else ret (Next req)
  end.

End Middleware.
End SecurityMiddleware.

(** ** The controller, [src/controllers/leasingAgreementController.ts] *)

Module LeasingAgreementController.
Section Controller.
Context {E : Type}.
Context `{ILeasingRepository E} `{INotificationService E}
        `{IInventoryService E} `{IBillingService E} `{IEmployeeService E}
        `{Logger E} `{Runtime E}.
Variable config : LeasingConfig.t.

Definition getStatusCodeForError (errorCode : string) : Z :=
  if String.eqb errorCode "VALIDATION_ERROR" then 400
  else if String.eqb errorCode "BUSINESS_RULE_ERROR" then 409
  else if String.eqb errorCode "UNAUTHORIZED" then 401
  else if String.eqb errorCode "FORBIDDEN" then 403
  else if String.eqb errorCode "NOT_FOUND" then 404
  else 500.

Definition sendErrorResponse (code message correlationId : string)
    (field : option string) : HttpResponse.t :=
  let statusCode := getStatusCodeForError code in
  HttpResponse.mk statusCode
    (HttpResponse.Failure code message field (Some correlationId)).

(** The error is handed to the logger, and answered according to its
    class. *)
Definition handleError (error : JSError) (correlationId : string)
  : M (World E) HttpResponse.t :=
  logger_error "Request failed" [("correlationId", correlationId)] error ;;;
  match error with
  | ValidationError msg field _ =>
      ret (sendErrorResponse "VALIDATION_ERROR" msg correlationId (Some field))
  | BusinessRuleError msg _ _ =>
      ret (sendErrorResponse "BUSINESS_RULE_ERROR" msg correlationId None)
  | _ =>
      ret (sendErrorResponse "INTERNAL_ERROR" "An unexpected error occurred"
             correlationId None)
  end.

Definition hasCompanyAccess (user : User.t) (companyId : string) : bool :=
  String.eqb (User.companyId user) companyId
  || String.eqb (User.role user) "admin".

(** [toISOString] on a [Date] object of the store; on an invalid date it
    throws a [RangeError]. *)
Definition dateToISOString (d : loc) : M (World E) string :=
  tv <- readDate d ;;
  match JSDate.toISOString tv with
  | Some s => ret s
  | None => throw (Error "Invalid time value")
  end.

Definition formatPaymentSchedule (payment : PaymentSchedule.t)
  : M (World E) PaymentScheduleResponse.t :=
  dueDate <- dateToISOString (PaymentSchedule.dueDate payment) ;;
  ret (PaymentScheduleResponse.mk (PaymentSchedule.id payment) dueDate
         (PaymentSchedule.amount payment) (PaymentSchedule.status payment)).

(** [array.map(f)], for an [f] that may throw. *)
Fixpoint array_map {A B : Type} (f : A -> M (World E) B) (l : list A)
  : M (World E) (list B) :=
  match l with
  | [] => ret []
  | x :: r =>
      y <- f x ;;
      ys <- array_map f r ;;
      ret (y :: ys)
  end.

Definition generateCorrelationId : M (World E) string :=
  now <- now_ms ;;
  r <- randomSuffix ;;
  ret ("req-" ++ pretty now ++ "-" ++ r).

Definition createAgreement (req : Request.t) : M (World E) HttpResponse.t :=
  correlationId <- generateCorrelationId ;;
  try_catch
    (logger LInfo "Creating leasing agreement"
       ([("correlationId", correlationId)]
        ++ log_field "userId" (User.id <$> Request.user req)
        ++ log_field "companyId"
             (CreateAgreementRequest.companyId <$> Request.body req))%list ;;;
     match Request.user req with
     | None =>
         ret (sendErrorResponse "UNAUTHORIZED" "Authentication required"
                correlationId None)
     | Some user =>
         if JSString.is_empty (User.id user) then
           ret (sendErrorResponse "UNAUTHORIZED" "Authentication required"
                  correlationId None)
         else
           match Request.body req with
           | None =>
               ret (sendErrorResponse "BAD_REQUEST" "Request body is required"
                      correlationId None)
           | Some agreementRequest =>
               if negb (Request.is_json req) then
                 ret (sendErrorResponse "BAD_REQUEST"
                        "Content-Type must be application/json"
                        correlationId None)
               else if negb (hasCompanyAccess user
                               (CreateAgreementRequest.companyId
                                  agreementRequest)) then
                 ret (sendErrorResponse "FORBIDDEN"
                        "Access denied to company resources"
                        correlationId None)
               else
                 agreement <-
                   LeasingAgreementService.processLeasingAgreement config
                     agreementRequest ;;
                 paymentSchedule <-
                   array_map formatPaymentSchedule
                     (LeasingAgreement.paymentSchedule agreement) ;;
                 createdAt <-
                   dateToISOString (LeasingAgreement.createdAt agreement) ;;
                 let response :=
                   AgreementResponse.mk (LeasingAgreement.id agreement)
                     (LeasingAgreement.status agreement)
                     (LeasingAgreement.price agreement)
                     paymentSchedule createdAt in
                 logger LInfo "Agreement created successfully"
                   [("correlationId", correlationId);
                    ("agreementId", LeasingAgreement.id agreement);
                    ("userId", User.id user)] ;;;
                 ret (HttpResponse.mk 201
                        (HttpResponse.Success response correlationId))
           end
     end)
    (fun error => handleError error correlationId).

Definition getAgreement (req : Request.t) : M (World E) HttpResponse.t :=
  correlationId <- generateCorrelationId ;;
  try_catch
    (let agreementId := Request.params_id req in
     if negb (string_truthy agreementId) then
       ret (sendErrorResponse "BAD_REQUEST" "Agreement ID is required"
              correlationId None)
     else if negb (string_truthy (User.id <$> Request.user req)) then
       ret (sendErrorResponse "UNAUTHORIZED" "Authentication required"
              correlationId None)
     else
       logger LInfo "Retrieving agreement"
         ([("correlationId", correlationId)]
          ++ log_field "agreementId" agreementId
          ++ log_field "userId" (User.id <$> Request.user req))%list ;;;
       ret (HttpResponse.mk 200
              (HttpResponse.Pending
                 "Agreement retrieval endpoint - implementation pending"
                 correlationId)))
    (fun error => handleError error correlationId).

Definition getEmployeeAgreements (req : Request.t)
  : M (World E) HttpResponse.t :=
  correlationId <- generateCorrelationId ;;
  try_catch
    (let employeeId := Request.params_employeeId req in
     if negb (string_truthy employeeId) then
       ret (sendErrorResponse "BAD_REQUEST" "Employee ID is required"
              correlationId None)
     else if negb (string_truthy (User.id <$> Request.user req)) then
       ret (sendErrorResponse "UNAUTHORIZED" "Authentication required"
              correlationId None)
     else
       logger LInfo "Retrieving employee agreements"
         ([("correlationId", correlationId)]
          ++ log_field "employeeId" employeeId
          ++ log_field "userId" (User.id <$> Request.user req))%list ;;;
       ret (HttpResponse.mk 200
              (HttpResponse.Pending
                 "Employee agreements endpoint - implementation pending"
                 correlationId)))
    (fun error => handleError error correlationId).

End Controller.
End LeasingAgreementController.

(** ** The routes, [src/app.ts] *)

Module App.
Section Routes.
Context {E : Type}.
Context `{ILeasingRepository E} `{INotificationService E}
        `{IInventoryService E} `{IBillingService E} `{IEmployeeService E}
        `{Logger E} `{Runtime E}.
Variable config : LeasingConfig.t.

(** The handlers registered for a route run in order: a middleware
    answers, or passes the request on to the next one. *)
Fixpoint handlers (middleware : list (Request.t -> M (World E) Passed))
    (handler : Request.t -> M (World E) HttpResponse.t) (req : Request.t)
  : M (World E) HttpResponse.t :=
  match middleware with
  | [] => handler req
  | m :: rest =>
      passed <- m req ;;
      match passed with
      | Next req' => handlers rest handler req'
      | Responded res => ret res
      end
  end.

(** [POST /agreements] *)
Definition postAgreements : Request.t -> M (World E) HttpResponse.t :=
  handlers [SecurityMiddleware.authenticate;
            SecurityMiddleware.validateCompanyAccess]
    (LeasingAgreementController.createAgreement config).

(** [GET /agreements/:id] *)
Definition getAgreementById : Request.t -> M (World E) HttpResponse.t :=
  handlers [SecurityMiddleware.authenticate]
    LeasingAgreementController.getAgreement.

(** [GET /employees/:employeeId/agreements] *)
Definition getEmployeeAgreements : Request.t -> M (World E) HttpResponse.t :=
  handlers [SecurityMiddleware.authenticate;
            SecurityMiddleware.authorize (Some "manager")]
    LeasingAgreementController.getEmployeeAgreements.

End Routes.
End App.

(** ** The configuration, [src/config/index.ts] *)

Module Config.

(** [parseInt(s, 10)]: leading white space is skipped, a sign is read,
    then the longest run of decimal digits; without a digit the result
    is [NaN]. The integer read is rounded to the nearest number. *)
Definition digit_value (c : ascii) : option Z :=
  let n := nat_of_ascii c in
  if (48 <=? n)%nat && (n <=? 57)%nat then Some (Z.of_nat n - 48) else None.

Fixpoint leading_digits (s : string) (acc : option Z) : option Z :=
  match s with
  | EmptyString => acc
  | String c r =>
      match digit_value c with
      | Some d => leading_digits r (Some (10 * default 0 acc + d))
      | None => acc
      end
  end.

Definition number_of_integer (n : Z) : float :=
  SF2Prim (binary_normalize prec emax n 0 false).

Definition parseInt (s : string) : float :=
  let s1 := JSString.trimStart s in
  let '(negative, s2) :=
    match s1 with
    | String c r =>
        if Ascii.eqb c "-" then (true, r)
        else if Ascii.eqb c "+" then (false, r)
        else (false, s1)
    | EmptyString => (false, s1)
    end in
  match leading_digits s2 None with
  | Some n =>
      if negative then PrimFloat.opp (number_of_integer n)
      else number_of_integer n
  | None => PrimFloat.nan
  end.

Module Database.
Record t : Type := mk {
  host : string;
  port : float;
  database : string;
  username : string;
  password : string
}.
End Database.

Module Redis.
Record t : Type := mk {
  host : string;
  port : float;
  password : option string
}.
End Redis.

Module Auth.
Record t : Type := mk {
  jwtSecret : string;
  jwtExpiresIn : string
}.
End Auth.

Module RateLimit.
Record t : Type := mk {
  windowMs : float;
  max : float
}.
End RateLimit.

Module Cors.
Record t : Type := mk {
  origin : list string;
  credentials : bool
}.
End Cors.

Module AppConfig.
Record t : Type := mk {
  port : float;
  nodeEnv : string;
  database : Database.t;
  redis : Redis.t;
  auth : Auth.t;
  leasing : LeasingConfig.t;
  rateLimit : RateLimit.t;
  cors : Cors.t
}.
End AppConfig.

Section LoadConfig.
(** [parseFloat], left to the engine. *)
Variable parseFloat : string -> float.
(** [process.env] *)
Variable env : gmap string string.

(** [process.env.NAME || fallback] *)
Definition env_or (name fallback : string) : string :=
  match env !! name with
  | Some v => if JSString.is_empty v then fallback else v
  | None => fallback
  end.

Definition loadConfig : AppConfig.t :=
  AppConfig.mk
    (parseInt (env_or "PORT" "3000"))
    (env_or "NODE_ENV" "development")
    (Database.mk
       (env_or "DB_HOST" "localhost")
       (parseInt (env_or "DB_PORT" "5432"))
       (env_or "DB_NAME" "leasing_db")
       (env_or "DB_USER" "postgres")
       (env_or "DB_PASSWORD" "password"))
    (Redis.mk
       (env_or "REDIS_HOST" "localhost")
       (parseInt (env_or "REDIS_PORT" "6379"))
       (env !! "REDIS_PASSWORD"))
    (Auth.mk
       (env_or "JWT_SECRET" "your-secret-key")
       (env_or "JWT_EXPIRES_IN" "24h"))
    (LeasingConfig.mk
       (parseInt (env_or "MAX_LEASING_DURATION" "60"))
       (parseInt (env_or "MIN_LEASING_DURATION" "1"))
       (parseInt (env_or "MAX_PRICE" "1000000"))
       ["USD"; "EUR"; "GBP"; "CAD"]
       (<["STANDARD" := 1%float]> (<["PREMIUM" := 0.9%float]>
          (<["VIP" := 0.8%float]> ∅)))
       (parseFloat (env_or "LONG_TERM_DISCOUNT" "0.8"))
       (parseInt (env_or "LONG_TERM_THRESHOLD" "12")))
    (RateLimit.mk
       (parseInt (env_or "RATE_LIMIT_WINDOW_MS" "900000"))
       (parseInt (env_or "RATE_LIMIT_MAX" "100")))
    (Cors.mk
       (match env !! "CORS_ORIGIN" with
        | Some s => JSString.split "," s
        | None => ["http://localhost:3000"]
        end)
       (bool_decide (env !! "CORS_CREDENTIALS" = Some "true"))).

End LoadConfig.
End Config.

(** ** The test doubles of [tests/leasingAgreementService.test.ts], and a
       run-time for them *)

Module TestDoubles.

Record Env : Type := mkEnv {
  (* MockLeasingRepository *)
  agreements : gmap string LeasingAgreement.t;
  (* MockNotificationService *)
  sentNotifications : list (string * string);
  (* MockInventoryService *)
  reservedItems : gset string;
  availableItems : gset string;
  (* MockBillingService *)
  billingRecords : list (string * string);
  (* MockEmployeeService: employee -> (type, company) *)
  employees : gmap string (string * string);
  (* the console of the logger *)
  console : list (LogLevel * string * list (string * string));
  (* the clock *)
  clock : Z;
  (* [jest.fn().mockRejectedValue(e)] put in place of a method *)
  billingRejects : option JSError;
  notificationRejects : option JSError;
  releaseRejects : option JSError
}.

#[export] Instance MockLeasingRepository : ILeasingRepository Env := {
  save a e :=
    (Return a,
     mkEnv (<[LeasingAgreement.id a := a]> (agreements e)) (sentNotifications e)
       (reservedItems e) (availableItems e) (billingRecords e) (employees e)
       (console e) (clock e) (billingRejects e) (notificationRejects e)
       (releaseRejects e))
}.

#[export] Instance MockNotificationService : INotificationService Env := {
  sendAgreementCreated employeeId agreementId e :=
    match notificationRejects e with
    | Some err => (Throw err, e)
    | None =>
        (Return tt,
         mkEnv (agreements e)
           (sentNotifications e ++ [(employeeId, agreementId)])%list
           (reservedItems e) (availableItems e) (billingRecords e)
           (employees e) (console e) (clock e) (billingRejects e)
           (notificationRejects e) (releaseRejects e))
    end
}.

Definition setReserved (r : gset string) (e : Env) : Env :=
  mkEnv (agreements e) (sentNotifications e) r (availableItems e)
    (billingRecords e) (employees e) (console e) (clock e) (billingRejects e)
    (notificationRejects e) (releaseRejects e).

#[export] Instance MockInventoryService : IInventoryService Env := {
  reserveItem itemId e :=
    if bool_decide (itemId ∈ availableItems e)
       && negb (bool_decide (itemId ∈ reservedItems e))
    then (Return true, setReserved (reservedItems e ∪ {[itemId]}) e)
    else (Return false, e);
  releaseItem itemId e :=
    match releaseRejects e with
    | Some err => (Throw err, e)
    | None => (Return tt, setReserved (reservedItems e ∖ {[itemId]}) e)
    end;
  checkAvailability itemId e :=
    (Return (bool_decide (itemId ∈ availableItems e)
             && negb (bool_decide (itemId ∈ reservedItems e))), e)
}.

#[export] Instance MockBillingService : IBillingService Env := {
  createBillingRecord a e :=
    match billingRejects e with
    | Some err => (Throw err, e)
    | None =>
        let billingId := "bill-" ++ LeasingAgreement.id a in
        (Return billingId,
         mkEnv (agreements e) (sentNotifications e) (reservedItems e)
           (availableItems e)
           (billingRecords e ++ [(LeasingAgreement.id a, billingId)])%list
           (employees e) (console e) (clock e) (billingRejects e)
           (notificationRejects e) (releaseRejects e))
    end
}.

#[export] Instance MockEmployeeService : IEmployeeService Env := {
  getEmployeeType employeeId e :=
    (Return (default "STANDARD" (fst <$> employees e !! employeeId)), e);
  validateEmployee employeeId companyId e :=
    (Return (match employees e !! employeeId with
             | Some (_, c) => String.eqb c companyId
             | None => false
             end), e)
}.

#[export] Instance ConsoleLogger : Logger Env := {
  log lvl msg meta e :=
    mkEnv (agreements e) (sentNotifications e) (reservedItems e)
      (availableItems e) (billingRecords e) (employees e)
      (console e ++ [(lvl, msg, meta)])%list (clock e) (billingRejects e)
      (notificationRejects e) (releaseRejects e)
}.

(** [Date.parse] on the two ISO forms the tests use, [YYYY-MM-DD] and
    [YYYY-MM-DDTHH:mm:ss.sssZ] (both UTC). *)
Definition digit (c : ascii) : option Z :=
  let n := nat_of_ascii c in
  if ((48 <=? n)%nat && (n <=? 57)%nat)%bool
  then Some (Z.of_nat n - 48) else None.

Fixpoint digits (l : list ascii) (acc : Z) : option Z :=
  match l with
  | [] => Some acc
  | c :: r => d ← digit c; digits r (10 * acc + d)
  end.

Definition field (s : string) (start len : nat) : option Z :=
  let sub := String.substring start len s in
  if (String.length sub =? len)%nat
  then digits (list_ascii_of_string sub) 0 else None.

Definition sep (s : string) (pos : nat) (c : ascii) : bool :=
  match String.get pos s with
  | Some a => Ascii.eqb a c
  | None => false
  end.

Definition parseISO (s : string) : option Z :=
  y ← field s 0 4; mo ← field s 5 2; d ← field s 8 2;
  if sep s 4 "-" && sep s 7 "-"
     && (1 <=? mo) && (mo <=? 12) && (1 <=? d) && (d <=? 31) then
    let day := JSDate.MakeDay y (mo - 1) d in
    if (String.length s =? 10)%nat then
      JSDate.TimeClip (JSDate.MakeDate day 0)
    else
      hh ← field s 11 2; mi ← field s 14 2; ss ← field s 17 2;
      ms ← field s 20 3;
      if (String.length s =? 24)%nat
         && sep s 10 "T" && sep s 13 ":" && sep s 16 ":" && sep s 19 "."
         && sep s 23 "Z"
         && (hh <=? 23) && (mi <=? 59) && (ss <=? 59) then
        JSDate.TimeClip
          (JSDate.MakeDate day (((hh * 60 + mi) * 60 + ss) * 1000 + ms))
      else None
  else None.

(** The decimal printing of a number, for the prices the tests use: a
    number of at most nine decimals is printed with the fewest decimals
    that read back as the same number; of a number that needs more, the
    text only keeps that it has more than two decimals. *)
Definition pow10 (k : nat) : Z := 10 ^ Z.of_nat k.

Definition reads_back (x : float) (k : nat) : bool :=
  PrimFloat.eqb
    (JSNumber.Math_round (x * JSNumber.ofZ (pow10 k))
     / JSNumber.ofZ (pow10 k))%float x.

Definition scaled (x : float) (k : nat) : Z :=
  match Prim2SF (JSNumber.Math_round (x * JSNumber.ofZ (pow10 k))%float) with
  | S754_finite s m e => (if s then -1 else 1) * Z.shiftl (Zpos m) e
  | _ => 0
  end.

Definition pad_left (n : nat) (s : string) : string :=
  String.concat EmptyString (repeat "0" (n - String.length s)) ++ s.

Definition print_decimal (x : float) (k : nat) : string :=
  let n := scaled x k in
  let sign := if n <? 0 then "-" else EmptyString in
  let a := Z.abs n in
  match k with
  | O => sign ++ pretty a
  | _ => sign ++ pretty (a / pow10 k) ++ "."
         ++ pad_left k (pretty (a mod pow10 k))
  end.

Definition toStringDecimal (x : float) : string :=
  match find (reads_back x) (seq 0 10) with
  | Some k => print_decimal x k
  | None => print_decimal x 9 ++ "00000000"
  end.

(** The run-time of the tests: a clock that stands still, one random
    suffix, and UTC as the local time zone. *)
#[export] Instance TestRuntime : Runtime Env := {
  Date_now e := (clock e, e);
  random_suffix e := ("k3x9q2m7d", e);
  Date_parse := parseISO;
  Number_toString := toStringDecimal;
  LocalTZA := 0
}.

(** [testConfig] *)
Definition testConfig : LeasingConfig.t :=
  LeasingConfig.mk 60 1 1000000 ["USD"; "EUR"; "GBP"; "CAD"]
    (<["STANDARD" := 1%float]> (<["PREMIUM" := 0.9%float]>
       (<["VIP" := 0.8%float]> ∅)))
    0.8 12.

(** The state of the mocks after [beforeEach], with the clock at
    2025-06-15T12:00:00Z. *)
Definition initialEnv : Env :=
  mkEnv ∅ [] ∅ {["item1"; "item2"; "item3"]} []
    (<["emp1" := ("STANDARD", "comp1")]> (<["emp2" := ("PREMIUM", "comp1")]>
       (<["emp3" := ("VIP", "comp2")]> ∅)))
    [] 1749988800000 None None None.

Definition initialWorld : World Env := mkWorld [] initialEnv.

(** The agreement of the generator's tests: its start and end dates are
    the first two cells of the store. *)
Definition testWorld (startDate endDate : string) : World Env :=
  mkWorld [parseISO startDate; parseISO endDate;
           Some (clock initialEnv); Some (clock initialEnv)] initialEnv.

Definition testAgreement (price : float) : LeasingAgreement.t :=
  LeasingAgreement.mk "test-id" "emp1" "item1" 0%nat 1%nat DRAFT price "USD"
    "comp1" [] [] 2%nat 3%nat.

(** A request the validator accepts whose lease starts and ends in July
    2025 (thirty days apart). *)
Definition sameMonthRequest : CreateAgreementRequest.t :=
  CreateAgreementRequest.mk "emp1" "item1" "2025-07-01T00:00:00.000Z"
    "2025-07-31T00:00:00.000Z" 1000 "USD" "comp1" "MONTHLY" None.

(** The request of the first test, with a script tag in its metadata. *)
Definition scriptRequest : CreateAgreementRequest.t :=
  CreateAgreementRequest.mk "emp1" "item1" "2025-07-01T00:00:00.000Z"
    "2025-12-01T00:00:00.000Z" 1000 "USD" "comp1" "MONTHLY"
    (Some [("note", JSON.JString "<script>alert(1)</script>")]).

(** A metadata object that holds one string of 10001 characters. *)
Definition largeMetadata : Metadata :=
  [("blob", JSON.JString (String.concat EmptyString (repeat "x" 10001)))].

(** The mocks after [beforeEach], with one method replaced by
    [jest.fn().mockRejectedValue(e)]. *)
Definition billingFails (e : JSError) : World Env :=
  mkWorld (dates (testWorld "2025-07-01" "2025-12-01"))
    (mkEnv ∅ [] ∅ (availableItems initialEnv) [] (employees initialEnv) []
       (clock initialEnv) (Some e) None None).

Definition notificationFails (e : JSError) : World Env :=
  mkWorld (dates (testWorld "2025-07-01" "2025-12-01"))
    (mkEnv ∅ [] ∅ (availableItems initialEnv) [] (employees initialEnv) []
       (clock initialEnv) None (Some e) None).

Definition billingAndReleaseFail (e r : JSError) : World Env :=
  mkWorld (dates (testWorld "2025-07-01" "2025-12-01"))
    (mkEnv ∅ [] ∅ (availableItems initialEnv) [] (employees initialEnv) []
       (clock initialEnv) (Some e) None (Some r)).

(** The request of the first test. *)
Definition validRequest : CreateAgreementRequest.t :=
  CreateAgreementRequest.mk "emp1" "item1" "2025-07-01T00:00:00.000Z"
    "2025-12-01T00:00:00.000Z" 1000 "USD" "comp1" "MONTHLY" None.

(** The request of the first test, for the PREMIUM employee and with a
    price of 1.15. *)
Definition premiumRequest : CreateAgreementRequest.t :=
  CreateAgreementRequest.mk "emp2" "item1" "2025-07-01T00:00:00.000Z"
    "2025-12-01T00:00:00.000Z" 1.15 "USD" "comp1" "MONTHLY" None.

(** The request of the employee-company mismatch test, with a price of
    5000. *)
Definition wrongCompanyRequest : CreateAgreementRequest.t :=
  CreateAgreementRequest.mk "emp1" "item1" "2025-07-01T00:00:00.000Z"
    "2025-12-01T00:00:00.000Z" 5000 "USD" "wrong-company" "MONTHLY" None.

(** The request of the first test, with a price of 5000. *)
Definition expensiveRequest : CreateAgreementRequest.t :=
  CreateAgreementRequest.mk "emp1" "item1" "2025-07-01T00:00:00.000Z"
    "2025-12-01T00:00:00.000Z" 5000 "USD" "comp1" "MONTHLY" None.

(** [testConfig] with a ceiling of 1000. *)
Definition lowCeilingConfig : LeasingConfig.t :=
  LeasingConfig.with_maxPrice testConfig 1000.

(** A configuration with a ceiling of 1000 and a multiplier of 1.5 for
    the STANDARD tier. *)
Definition surchargeConfig : LeasingConfig.t :=
  LeasingConfig.mk 60 1 1000 ["USD"; "EUR"; "GBP"; "CAD"]
    (<["STANDARD" := 1.5%float]> ∅) 0.8 12.

(** [testConfig] with a multiplier of 0 for the VIP tier. *)
Definition freeForVipConfig : LeasingConfig.t :=
  LeasingConfig.mk 60 1 1000000 ["USD"; "EUR"; "GBP"; "CAD"]
    (<["STANDARD" := 1%float]> (<["PREMIUM" := 0.9%float]>
       (<["VIP" := 0%float]> ∅)))
    0.8 12.

End TestDoubles.

(** ** More test doubles: any method rejecting, and requests *)

(** The mocks of the tests with any of their methods replaced by
    [jest.fn().mockRejectedValue(new Error(name + ' failed'))]. *)
Module Faulty.
Import TestDoubles.

Record Env : Type := mk {
  mocks : TestDoubles.Env;
  rejecting : list string
}.

Definition method {A : Type} (name : string)
    (f : TestDoubles.Env -> Outcome A * TestDoubles.Env) (e : Env)
  : Outcome A * Env :=
  if existsb (String.eqb name) (rejecting e) then
    (Throw (Error (name ++ " failed")), e)
  else
    let (r, m) := f (mocks e) in (r, mk m (rejecting e)).

#[global] Instance Repository : ILeasingRepository Env := {
  save a := method "save" (save a)
}.

#[global] Instance Notification : INotificationService Env := {
  sendAgreementCreated employeeId agreementId :=
    method "sendAgreementCreated" (sendAgreementCreated employeeId agreementId)
}.

#[global] Instance Inventory : IInventoryService Env := {
  reserveItem itemId := method "reserveItem" (reserveItem itemId);
  releaseItem itemId := method "releaseItem" (releaseItem itemId);
  checkAvailability itemId :=
    method "checkAvailability" (checkAvailability itemId)
}.

#[global] Instance Billing : IBillingService Env := {
  createBillingRecord a := method "createBillingRecord" (createBillingRecord a)
}.

#[global] Instance Employee : IEmployeeService Env := {
  getEmployeeType employeeId :=
    method "getEmployeeType" (getEmployeeType employeeId);
  validateEmployee employeeId companyId :=
    method "validateEmployee" (validateEmployee employeeId companyId)
}.

#[global] Instance Console : Logger Env := {
  log lvl msg meta e := mk (log lvl msg meta (mocks e)) (rejecting e)
}.

#[global] Instance Clock : Runtime Env := {
  Date_now e := (clock (mocks e), e);
  random_suffix e := ("k3x9q2m7d", e);
  Date_parse := parseISO;
  Number_toString := toStringDecimal;
  LocalTZA := 0
}.

(** The state after [beforeEach], with the methods named rejecting. *)
Definition world (rejecting : list string) : World Env :=
  mkWorld [] (mk initialEnv rejecting).

End Faulty.

Module HttpFixtures.
Import TestDoubles.

(** The user that the mock of [validateToken] returns. *)
Definition testUser : User.t :=
  User.mk "user123" "user@example.com" "comp1" "user".

(** A JSON request of that user. *)
Definition requestOf (user : option User.t)
    (body : option CreateAgreementRequest.t) : Request.t :=
  Request.mk user body true (Some "Bearer test-token-0001") None None None None
    "/agreements".

(** The request of the first test with an employee identifier of two
    characters. *)
Definition shortIdRequest : CreateAgreementRequest.t :=
  CreateAgreementRequest.mk "e1" "item1" "2025-07-01T00:00:00.000Z"
    "2025-12-01T00:00:00.000Z" 1000 "USD" "comp1" "MONTHLY" None.

(** The request of the first test for an employee of another company. *)
Definition otherCompanyRequest : CreateAgreementRequest.t :=
  CreateAgreementRequest.mk "emp3" "item1" "2025-07-01T00:00:00.000Z"
    "2025-12-01T00:00:00.000Z" 1000 "USD" "comp1" "MONTHLY" None.

(** An environment where the ceiling and the threshold are texts. *)
Definition wordyEnv : gmap string string :=
  <["MAX_PRICE" := "unlimited"]> (<["LONG_TERM_THRESHOLD" := "one year"]> ∅).

End HttpFixtures.

(** ** Notions used to state the properties *)

(** The amounts the loop hands out over [k] turns from index [i]. *)
Fixpoint loopAmounts (k : nat) (i totalPayments : Z) (paymentAmount remaining : float)
  : list float :=
  match k with
  | O => []
  | S k' =>
      let amount := if i =? totalPayments - 1 then remaining else paymentAmount in
      amount :: loopAmounts k' (i + 1) totalPayments paymentAmount
                  (remaining - amount)%float
  end.

Definition loopEntry (agreementId : string) (i : Z) (base : loc) (j : nat)
    (amount : float) : PaymentSchedule.t :=
  PaymentSchedule.mk (agreementId ++ "-payment-" ++ pretty (i + Z.of_nat j + 1))
    (base + j)%nat amount PAYMENT_PENDING 0.

Section GeneratorNotions.
Context {E : Type} `{Runtime E}.
Import LeasingAgreementService.

(** The number of payments the generator computes for an agreement. *)
Definition totalPaymentsOf (h : Dates) (agreement : LeasingAgreement.t)
    (frequency : string) : option Z :=
  JSNumber.ceil_div
    (calculateDurationInMonths h (LeasingAgreement.startDate agreement)
       (LeasingAgreement.endDate agreement))
    (getIntervalMonths frequency).

(** The rounded base amount. *)
Definition paymentAmountOf (h : Dates) (agreement : LeasingAgreement.t)
    (frequency : string) : float :=
  (JSNumber.Math_round
     (LeasingAgreement.price agreement
      / int_to_number (totalPaymentsOf h agreement frequency) * 100)
   / 100)%float.

(** The local time that [advanceMonths k] aims at from [t]. *)
Definition advancedLocal (k t : Z) : Z :=
  let lt := JSDate.LocalTime LocalTZA t in
  JSDate.MakeDate
    (JSDate.MakeDay (JSDate.YearFromTime lt) (JSDate.MonthFromTime lt + k)
       (JSDate.DateFromTime lt))
    (JSDate.TimeWithinDay lt).

End GeneratorNotions.

(** One rollback of the [catch] block: the compensator is run, and when it
    throws, the failure is logged. *)
Definition settle {E : Type} `{Logger E} (correlationId : string)
    (rollback : M (World E) unit) : M (World E) unit :=
  try_catch rollback
    (fun rollbackError =>
       error_message <- get_message rollbackError ;;
       logger LError "Rollback failed"
         [("correlationId", correlationId); ("error", error_message)]).

(** A compensator whose rejections, if any, carry a message. *)
Definition rejects_with_message {E : Type} (rollback : M (World E) unit)
  : Prop :=
  forall (w : World E) (rollbackError : JSError) (w' : World E),
    rollback w = (Throw rollbackError, w') -> is_nullish rollbackError = false.

(** The outcome of the [catch] block of the transaction, [releaseItem]
    being the one compensator registered and [r] what the call to it
    gave: [error] is thrown after the call returned, or after it threw a
    value with a message, which is logged; when it throws [undefined] or
    [null], reading the message throws a [TypeError], which is thrown in
    place of [error]. *)
Definition rolled_back {E A : Type} `{Logger E} (correlationId : string)
    (error : JSError) (h : Dates) (r : Outcome unit * E)
  : Outcome A * World E :=
  match r with
  | (Return _, e) => (Throw error, mkWorld h e)
  | (Throw rollbackError, e) =>
      if is_nullish rollbackError then
        (Throw (no_message rollbackError), mkWorld h e)
      else
        (Throw error,
         mkWorld h
           (log LError "Rollback failed"
              [("correlationId", correlationId);
               ("error", message rollbackError)] e))
  end.

(** Signs of a binary64 number, read on its specification. A number that
    is not negative: a zero, a positive finite number or +infinity. *)
Definition sf_nonneg (x : spec_float) : Prop :=
  match x with
  | S754_zero _ => True
  | S754_infinity s => s = false
  | S754_finite s _ _ => s = false
  | S754_nan => False
  end.

(** A positive finite number. *)
Definition sf_posfin (x : spec_float) : Prop :=
  match x with
  | S754_finite s _ _ => s = false
  | _ => False
  end.

(** A zero or a positive finite number. *)
Definition sf_nonnegfin (x : spec_float) : Prop :=
  match x with
  | S754_zero _ => True
  | S754_finite s _ _ => s = false
  | _ => False
  end.

(** A valid price: a finite number above 0. A valid multiplier: a finite
    number that is not negative. *)
Definition is_positive_price (x : float) : bool :=
  PrimFloat.ltb 0 x && PrimFloat.is_finite x.
Definition is_multiplier (x : float) : bool :=
  PrimFloat.leb 0 x && PrimFloat.is_finite x.

(** The sum of the amounts of a schedule,
    [schedule.reduce((sum, p) => sum + p.amount, 0)]. *)
Definition sumAmounts (schedule : list PaymentSchedule.t) : float :=
  fold_left (fun sum p => (sum + PaymentSchedule.amount p)%float) schedule 0%float.

(** [Math.round(x * 100) / 100] *)
Definition round2 (x : float) : float :=
  (JSNumber.Math_round (x * 100) / 100)%float.

(** Amounts in exact arithmetic. The count of cents nearest to the
    fraction [n / d] of a count of cents, a tie going up (for [n] that is
    not negative and [d] above 0): rounding half-up to the cent. The
    number that is [c] cents: the binary64 number nearest to [c / 100]. *)
Definition half_up (n d : Z) : Z := (2 * n + d) / (2 * d).
Definition of_cents (c : Z) : float := (JSNumber.ofZ c / 100)%float.

(** *** Strings *)

(** A string that [sanitizeString] has nothing to do on: it holds no
    angle bracket and no quotation mark, and neither starts nor ends
    with white space. *)
Definition heads (w1 : ascii -> bool) (w2 : ascii -> ascii -> bool)
    (w3 : ascii -> ascii -> ascii -> bool) (s : string) : bool :=
  match s with
  | String c1 r1 =>
      w1 c1
      || match r1 with
         | String c2 r2 =>
             w2 c1 c2
             || match r2 with
                | String c3 _ => w3 c1 c2 c3
                | EmptyString => false
                end
         | EmptyString => false
         end
  | EmptyString => false
  end.

(** The first character is a white space character (of one, two or
    three bytes). *)
Definition starts_with_whitespace (s : string) : bool :=
  heads JSString.is_whitespace JSString.is_whitespace2 JSString.is_whitespace3 s.

(** The last character is a white space character. *)
Definition ends_with_whitespace (s : string) : bool :=
  heads JSString.is_whitespace (fun c2 c1 => JSString.is_whitespace2 c1 c2)
    (fun c3 c2 c1 => JSString.is_whitespace3 c1 c2 c3) (JSString.reverse s).

Definition is_markup_char (c : ascii) : bool :=
  JSString.is_angle_bracket c || JSString.is_quote_mark c.

Definition is_sanitized (s : string) : bool :=
  forallb (fun c => negb (is_markup_char c)) (list_ascii_of_string s)
  && negb (starts_with_whitespace s)
  && negb (ends_with_whitespace s).

(** *** Validation *)

(** A [ValidationError] on one of the fields and with one of the codes
    listed. *)
Definition is_validation_error (fields codes : list string) (err : JSError)
  : Prop :=
  match err with
  | ValidationError _ field code => In field fields /\ In code codes
  | _ => False
  end.

Definition is_valid_id (id : string) : bool :=
  (3 <=? JSString.length id) && (JSString.length id <=? 50)
  && forallb JSString.is_id_char (list_ascii_of_string id).

(** The fields of a request that the validator reports on, and the
    codes of its errors. *)
Definition requestFields : list string :=
  ["employeeId"; "itemId"; "companyId"; "startDate"; "endDate"; "price";
   "currency"; "paymentFrequency"].

Definition validationCodes : list string :=
  ["REQUIRED"; "INVALID_FORMAT"; "PAST_DATE"; "INVALID_RANGE";
   "DURATION_EXCEEDED"; "DURATION_TOO_SHORT"; "INVALID_TYPE"; "INVALID_VALUE";
   "EXCEEDS_LIMIT"; "INVALID_PRECISION"; "UNSUPPORTED_CURRENCY";
   "INVALID_FREQUENCY"; "INVALID_LENGTH"].

(** *** The HTTP layer and the configuration *)

(** The response to an error, by the class of the error: 400 with the
    message and the field of a [ValidationError], 409 with the message
    of a [BusinessRuleError], and 500 with a fixed message for any other
    error. *)
Definition errorResponse (error : JSError) (correlationId : string)
  : HttpResponse.t :=
  match error with
  | ValidationError msg field _ =>
      HttpResponse.mk 400
        (HttpResponse.Failure "VALIDATION_ERROR" msg (Some field)
           (Some correlationId))
  | BusinessRuleError msg _ _ =>
      HttpResponse.mk 409
        (HttpResponse.Failure "BUSINESS_RULE_ERROR" msg None
           (Some correlationId))
  | _ =>
      HttpResponse.mk 500
        (HttpResponse.Failure "INTERNAL_ERROR" "An unexpected error occurred"
           None (Some correlationId))
  end.

(** An entry of a schedule as the response shows it, reading its due
    date in the store; [None] when the due date is invalid. *)
Definition formatted (h : Dates) (payment : PaymentSchedule.t)
  : option PaymentScheduleResponse.t :=
  dueDate ← JSDate.toISOString (getTime h (PaymentSchedule.dueDate payment));
  Some (PaymentScheduleResponse.mk (PaymentSchedule.id payment) dueDate
          (PaymentSchedule.amount payment) (PaymentSchedule.status payment)).

(** A text in which [parseInt] finds an integer: after the leading white
    space and a sign, it starts with a decimal digit. *)
Definition starts_with_integer (s : string) : bool :=
  let s1 := JSString.trimStart s in
  let s2 :=
    match s1 with
    | String c r =>
        if Ascii.eqb c "-" then r else if Ascii.eqb c "+" then r else s1
    | EmptyString => s1
    end in
  match s2 with
  | String c _ =>
      match Config.digit_value c with Some _ => true | None => false end
  | EmptyString => false
  end.

(* ===================================================================== *)
(** * Part II. Properties *)
(* ===================================================================== *)

(** ** The store of dates *)

Section ScheduleLoop.
Context {E : Type} `{Runtime E}.
Import LeasingAgreementService.

Lemma getTime_insert_eq (h : Dates) (l : loc) (v : option Z) :
  (l < length h)%nat -> getTime (<[l := v]> h) l = v.
Proof.
  intros Hl. unfold getTime. rewrite list_lookup_insert_eq by exact Hl.
  reflexivity.
Qed.

Lemma getTime_app_l (h h' : Dates) (l : loc) :
  (l < length h)%nat -> getTime (h ++ h') l = getTime h l.
Proof.
  intros Hl. unfold getTime. rewrite lookup_app_l by exact Hl. reflexivity.
Qed.

Lemma insert_getTime_id (h : Dates) (l : loc) :
  (l < length h)%nat -> <[l := getTime h l]> h = h.
Proof.
  intros Hl. unfold getTime.
  destruct (h !! l) as [o|] eqn:Hlk.
  - simpl. apply list_insert_id. exact Hlk.
  - apply lookup_ge_None in Hlk. lia.
Qed.

Lemma scheduleLoop_spec (k : nat) :
  forall (i : Z) (agreementId : string) (tp : Z) (pa : float) (im : Z)
         (cur : loc) (rem : float) (sched : list PaymentSchedule.t)
         (w : World E),
    (cur < length (dates w))%nat ->
    scheduleLoop k i agreementId tp pa im cur rem sched w =
      (Return (sched ++ imap (loopEntry agreementId i (length (dates w)))
                          (loopAmounts k i tp pa rem))%list,
       mkWorld
         (<[cur := Nat.iter k (advanceMonths im) (getTime (dates w) cur)]> (dates w)
          ++ map (fun j => Nat.iter j (advanceMonths im) (getTime (dates w) cur))
                 (seq 0 k))%list
         (ext w)).
Proof.
  induction k as [|k IH]; intros i agreementId tp pa im cur rem sched [h e] Hcur;
    simpl in *.
  - unfold ret. rewrite !app_nil_r, insert_getTime_id by exact Hcur. reflexivity.
  - unfold bind, readDate, gets, newDate, alloc, writeDate, modify, setTime.
    simpl.
    rewrite IH; simpl.
    2:{ rewrite length_insert, length_app. simpl. lia. }
    rewrite length_insert, length_app. simpl.
    rewrite getTime_insert_eq by (rewrite length_app; simpl; lia).
    rewrite list_insert_insert_eq.
    rewrite insert_app_l by exact Hcur.
    f_equal.
    + f_equal. rewrite <- app_assoc. f_equal. simpl. f_equal.
      * unfold loopEntry. f_equal; [f_equal; f_equal; f_equal; lia | lia].
      * apply imap_ext. intros j x _. unfold loopEntry. simpl.
        f_equal; [f_equal; f_equal; f_equal; lia | lia].
    + f_equal. rewrite <- app_assoc. simpl.
      rewrite getTime_app_l by exact Hcur.
      rewrite Nat.iter_swap. f_equal. f_equal.
      rewrite <- seq_shift, map_map. apply map_ext. intros j. simpl.
      apply Nat.iter_swap.
Qed.
End ScheduleLoop.

(** ** The payment schedule generator *)

Section Generator.
Context {E : Type} `{Logger E} `{Runtime E}.
Import LeasingAgreementService.

Lemma getTime_middle (h : Dates) (v : option Z) :
  getTime (h ++ [v]) (length h) = v.
Proof.
  unfold getTime. rewrite list_lookup_middle by reflexivity. reflexivity.
Qed.

Lemma generatePaymentSchedule_spec (agreement : LeasingAgreement.t)
    (frequency : string) (w : World E) :
  let h := dates w in
  let n := turns (totalPaymentsOf h agreement frequency) in
  let start := getTime h (LeasingAgreement.startDate agreement) in
  let step := advanceMonths (getIntervalMonths frequency) in
  generatePaymentSchedule agreement frequency w =
    (Return
       (imap (loopEntry (LeasingAgreement.id agreement) 0 (S (length h)))
          (loopAmounts n 0 (default 0 (totalPaymentsOf h agreement frequency))
             (paymentAmountOf h agreement frequency)
             (LeasingAgreement.price agreement))),
     mkWorld
       (h ++ Nat.iter n step start
          :: map (fun j => Nat.iter j step start) (seq 0 n))%list
       (log LInfo "Payment schedule generated"
          [("agreementId", LeasingAgreement.id agreement);
           ("frequency", frequency)] (ext w))).
Proof.
  destruct w as [h e]. simpl.
  unfold generatePaymentSchedule, bind, gets, readDate, newDate, alloc. simpl.
  rewrite scheduleLoop_spec by (simpl; rewrite length_app; simpl; lia).
  simpl. unfold logger, outside, ret. simpl.
  rewrite length_app. simpl.
  replace (length h + 1)%nat with (S (length h)) by lia.
  rewrite !getTime_middle.
  replace (<[length h := _]> (h ++ [_]))%list
    with (h ++ [Nat.iter (turns (totalPaymentsOf h agreement frequency))
                  (advanceMonths (getIntervalMonths frequency))
                  (getTime h (LeasingAgreement.startDate agreement))])%list.
  2:{ replace (length h) with (length h + 0)%nat at 1 by lia.
      rewrite insert_app_r. reflexivity. }
  rewrite <- app_assoc. reflexivity.
Qed.

End Generator.

Section GeneratorProperties.
Context {E : Type} `{Logger E} `{Runtime E}.
Import LeasingAgreementService.

Lemma loopAmounts_S (k : nat) (i tp : Z) (pa rem : float) :
  loopAmounts (S k) i tp pa rem =
    (if i =? tp - 1 then rem else pa)
    :: loopAmounts k (i + 1) tp pa
         (PrimFloat.sub rem (if i =? tp - 1 then rem else pa)).
Proof. reflexivity. Qed.

Lemma loopAmounts_closed (k : nat) :
  forall (i tp : Z) (pa rem : float),
    i + Z.of_nat (S k) = tp ->
    loopAmounts (S k) i tp pa rem =
      (replicate k pa ++ [Nat.iter k (fun r => (r - pa)%float) rem])%list.
Proof.
  induction k as [|k IH]; intros i tp pa rem Hi.
  - simpl. replace (i =? tp - 1) with true by (symmetry; apply Z.eqb_eq; lia).
    reflexivity.
  - rewrite loopAmounts_S.
    replace (i =? tp - 1) with false by (symmetry; apply Z.eqb_neq; lia).
    rewrite IH by lia.
    rewrite Nat.iter_succ_r. reflexivity.
Qed.

Lemma amounts_of_entries (agreementId : string) (i : Z) (base : loc)
    (l : list float) :
  map PaymentSchedule.amount (imap (loopEntry agreementId i base) l) = l.
Proof.
  revert i base. induction l as [|x l IH]; intros i base; [reflexivity|].
  rewrite imap_cons. simpl. f_equal.
  rewrite <- (IH (i + 1) (S base)) at 2.
  f_equal. apply imap_ext. intros j y _. unfold loopEntry. simpl.
  f_equal; [f_equal; f_equal; f_equal; lia | lia].
Qed.

(** The amounts of a schedule. When the generator computes [n >= 1]
    payments, the schedule has [n] entries, each of the first [n - 1]
    carries the base amount [round2 (price / n)], and the last carries
    what is left of the price after the base amount has been subtracted
    [n - 1] times, each subtraction being one of binary64. *)
Lemma schedule_amounts (agreement : LeasingAgreement.t) (frequency : string)
    (w : World E) (n : Z) :
  totalPaymentsOf (dates w) agreement frequency = Some n ->
  1 <= n ->
  let price := LeasingAgreement.price agreement in
  let base := round2 (price / JSNumber.ofZ n)%float in
  exists schedule w',
    generatePaymentSchedule agreement frequency w = (Return schedule, w')
    /\ length schedule = Z.to_nat n
    /\ map PaymentSchedule.amount schedule =
         (replicate (Z.to_nat n - 1) base
          ++ [Nat.iter (Z.to_nat n - 1) (fun r => (r - base)%float) price])%list.
Proof.
  intros Hn Hpos price base.
  eexists. eexists. split; [apply generatePaymentSchedule_spec|].
  unfold paymentAmountOf. rewrite Hn. simpl.
  destruct (Z.to_nat n) as [|k] eqn:Hk; [lia|].
  rewrite loopAmounts_closed by lia.
  split.
  - rewrite length_imap, length_app, length_replicate. simpl. lia.
  - rewrite amounts_of_entries. simpl. rewrite Nat.sub_0_r. reflexivity.
Qed.

(** C9. A frequency that is none of MONTHLY, QUARTERLY and ANNUALLY has
    an interval of one month, and the generator returns for it the
    schedule it returns for MONTHLY, with the same dates; it does not
    throw. *)
Theorem unknown_frequency_is_monthly (frequency : string) :
  frequency <> "MONTHLY" ->
  frequency <> "QUARTERLY" ->
  frequency <> "ANNUALLY" ->
  getIntervalMonths frequency = 1
  /\ forall (agreement : LeasingAgreement.t) (w : World E),
       exists schedule w1 w2,
         generatePaymentSchedule agreement frequency w = (Return schedule, w1)
         /\ generatePaymentSchedule agreement "MONTHLY" w = (Return schedule, w2)
         /\ dates w1 = dates w2.
Proof.
  intros Hm Hq Ha.
  assert (Hi : getIntervalMonths frequency = 1).
  { unfold getIntervalMonths.
    destruct (String.eqb_spec frequency "MONTHLY"); [contradiction|].
    destruct (String.eqb_spec frequency "QUARTERLY"); [contradiction|].
    destruct (String.eqb_spec frequency "ANNUALLY"); [contradiction|].
    reflexivity. }
  split; [exact Hi|].
  intros agreement w.
  eexists. eexists. eexists.
  split; [apply generatePaymentSchedule_spec|].
  split.
  - rewrite generatePaymentSchedule_spec.
    unfold paymentAmountOf, totalPaymentsOf. rewrite Hi. reflexivity.
  - simpl. unfold totalPaymentsOf. rewrite Hi. reflexivity.
Qed.

End GeneratorProperties.

(** ** Numbers *)

(** [Math.round] on a tie, below and above one half, and on the quotient
    of the rounding test. *)
Example Math_round_examples :
  map JSNumber.Math_round
    [2.5; -2.5; 0.49999999999999994; 0.5; -0.5; 1.4999999999999998;
     3333.3333333333335; 100.49999999999999]%float
  = [3; -2; 0; 1; -0; 1; 3333; 100]%float.
Proof. vm_compute. reflexivity. Qed.

(** [Math.ceil] of the binary64 quotient of a month count by an interval
    is the integer ceiling, for every count within eighty-four years
    either way and each of the three intervals. *)
Example ceil_div_is_Math_ceil :
  forallb
    (fun i =>
       forallb
         (fun k =>
            let d := Z.of_nat k - 1008 in
            PrimFloat.eqb
              (JSNumber.Math_ceil (JSNumber.ofZ d / JSNumber.ofZ i)%float)
              (int_to_number (JSNumber.ceil_div (Some d) i)))
         (seq 0 2017))
    [1; 3; 12]
  = true.
Proof. vm_compute. reflexivity. Qed.

(** ** The calendar *)

(** Two readings of the calendar: 31 January 2025, and that date with
    its month set to February, which is 3 March. *)
Example date_2025_01_31 :
  JSDate.getFullYear 0 (Some 1738281600000) = Some 2025
  /\ JSDate.getMonth 0 (Some 1738281600000) = Some 0
  /\ JSDate.getDate 0 (Some 1738281600000) = Some 31.
Proof. vm_compute. auto. Qed.

Example date_setMonth_overflow :
  JSDate.setMonth 0 (Some 1738281600000) (Some 1) = Some 1740960000000.
Proof. vm_compute. reflexivity. Qed.

Section Calendar.
Import JSDate.

Lemma DaysInYear_step (y : Z) :
  DayFromYear (y + 1) = DayFromYear y + DaysInYear y.
Proof.
  unfold DayFromYear, DaysInYear.
  destruct (Z.eqb_spec (y mod 4) 0); simpl;
    [destruct (Z.eqb_spec (y mod 100) 0); simpl;
     [destruct (Z.eqb_spec (y mod 400) 0); simpl|]|];
    Z.div_mod_to_equations; lia.
Qed.

Lemma YearFromDay_spec (d : Z) :
  DayFromYear (YearFromDay d) <= d < DayFromYear (YearFromDay d + 1).
Proof.
  unfold YearFromDay.
  set (y0 := 1970 + 400 * d / 146097).
  destruct (Z.ltb_spec d (DayFromYear y0)) as [Hlt|Hge].
  - replace (y0 - 1 + 1) with y0 by lia. split; [|exact Hlt].
    unfold DayFromYear in *. subst y0. Z.div_mod_to_equations. lia.
  - destruct (Z.leb_spec (DayFromYear (y0 + 1)) d) as [Hle|Hgt].
    + split; [exact Hle|].
      unfold DayFromYear in *. subst y0. Z.div_mod_to_equations. lia.
    + split; [exact Hge|exact Hgt].
Qed.

Lemma DaysInYear_cases (y : Z) : DaysInYear y = 365 \/ DaysInYear y = 366.
Proof.
  unfold DaysInYear.
  destruct (y mod 4 =? 0), (y mod 100 =? 0), (y mod 400 =? 0); simpl; auto.
Qed.

Lemma InLeapYear_DaysInYear (y : Z) : DaysInYear y = 365 + InLeapYear y.
Proof.
  unfold InLeapYear. destruct (DaysInYear_cases y) as [Hd|Hd]; rewrite Hd;
    reflexivity.
Qed.

Lemma DayFromYear_mono (y y' : Z) :
  y <= y' -> DayFromYear y <= DayFromYear y'.
Proof.
  intros Hy. unfold DayFromYear. Z.div_mod_to_equations. lia.
Qed.

Lemma YearFromDay_unique (y d : Z) :
  DayFromYear y <= d < DayFromYear (y + 1) -> YearFromDay d = y.
Proof.
  intros [Hlo Hhi]. pose proof (YearFromDay_spec d) as [Hlo' Hhi'].
  destruct (Z.lt_trichotomy (YearFromDay d) y) as [Hlt|[Heq|Hgt]];
    [|exact Heq|].
  - pose proof (DayFromYear_mono (YearFromDay d + 1) y ltac:(lia)). lia.
  - pose proof (DayFromYear_mono (y + 1) (YearFromDay d) ltac:(lia)). lia.
Qed.

Lemma Day_MakeDate (day time : Z) :
  0 <= time < msPerDay -> Day (MakeDate day time) = day.
Proof.
  intros Ht. unfold Day, MakeDate, msPerDay in *. Z.div_mod_to_equations. lia.
Qed.

Lemma TimeWithinDay_MakeDate (day time : Z) :
  0 <= time < msPerDay -> TimeWithinDay (MakeDate day time) = time.
Proof.
  intros Ht. unfold TimeWithinDay, MakeDate, msPerDay in *.
  Z.div_mod_to_equations. lia.
Qed.

Lemma TimeWithinDay_range (t : Z) : 0 <= TimeWithinDay t < msPerDay.
Proof. unfold TimeWithinDay, msPerDay. apply Z.mod_pos_bound. lia. Qed.

Lemma MakeDate_Day (t : Z) : MakeDate (Day t) (TimeWithinDay t) = t.
Proof.
  unfold MakeDate, Day, TimeWithinDay, msPerDay. Z.div_mod_to_equations. lia.
Qed.

Lemma DayWithinYear_range (t : Z) :
  0 <= DayWithinYear t < DaysInYear (YearFromTime t).
Proof.
  unfold DayWithinYear, YearFromTime.
  pose proof (YearFromDay_spec (Day t)) as [Hlo Hhi].
  rewrite DaysInYear_step in Hhi. lia.
Qed.

(** The month and the date of a day of the year, and back. *)
Lemma MonthFromDayInYear_range (d leap : Z) :
  0 <= leap <= 1 -> 0 <= d < 365 + leap ->
  let m := MonthFromDayInYear d leap in
  0 <= m <= 11
  /\ 1 <= d - DaysBeforeMonth m leap + 1 <= 31.
Proof.
  intros Hl Hd. unfold MonthFromDayInYear.
  repeat (match goal with
          | |- context [?a <? ?b] => destruct (Z.ltb_spec a b)
          end; [simpl; lia|]).
  simpl. lia.
Qed.

Lemma MonthFromDayInYear_DaysBeforeMonth (m dt leap : Z) :
  0 <= leap <= 1 -> 0 <= m <= 11 -> 1 <= dt <= 28 ->
  MonthFromDayInYear (DaysBeforeMonth m leap + dt - 1) leap = m.
Proof.
  intros Hl Hm Hdt.
  assert (Hcases : m = 0 \/ m = 1 \/ m = 2 \/ m = 3 \/ m = 4 \/ m = 5 \/ m = 6
                   \/ m = 7 \/ m = 8 \/ m = 9 \/ m = 10 \/ m = 11) by lia.
  unfold MonthFromDayInYear.
  repeat destruct Hcases as [->|Hcases]; try subst m; simpl;
    repeat (match goal with
            | |- context [?a <? ?b] => destruct (Z.ltb_spec a b)
            end; try lia); reflexivity.
Qed.

Lemma DaysBeforeMonth_bound (m leap : Z) :
  0 <= leap <= 1 -> 0 <= m <= 11 ->
  0 <= DaysBeforeMonth m leap <= 334 + leap.
Proof.
  intros Hl Hm.
  assert (Hcases : m = 0 \/ m = 1 \/ m = 2 \/ m = 3 \/ m = 4 \/ m = 5 \/ m = 6
                   \/ m = 7 \/ m = 8 \/ m = 9 \/ m = 10 \/ m = 11) by lia.
  repeat destruct Hcases as [->|Hcases]; try subst m; simpl; lia.
Qed.

Lemma InLeapYear_range (y : Z) : 0 <= InLeapYear y <= 1.
Proof. unfold InLeapYear. destruct (_ =? _); lia. Qed.

(** The fields of a time value, and the time value made of its fields. *)
Lemma fields_range (t : Z) :
  0 <= MonthFromTime t <= 11 /\ 1 <= DateFromTime t <= 31.
Proof.
  unfold MonthFromTime, DateFromTime.
  pose proof (DayWithinYear_range t) as Hd.
  rewrite InLeapYear_DaysInYear in Hd.
  apply MonthFromDayInYear_range; [apply InLeapYear_range|exact Hd].
Qed.

Lemma MakeDay_fields (t : Z) :
  MakeDay (YearFromTime t) (MonthFromTime t) (DateFromTime t) = Day t.
Proof.
  pose proof (fields_range t) as [Hm _].
  unfold MakeDay.
  replace (MonthFromTime t / 12) with 0 by (Z.div_mod_to_equations; lia).
  replace (MonthFromTime t mod 12) with (MonthFromTime t)
    by (Z.div_mod_to_equations; lia).
  rewrite Z.add_0_r. unfold DateFromTime, DayWithinYear. lia.
Qed.

(** The fields of a day made of a year, a month and a date up to 28. *)
Lemma fields_MakeDay (y m dt time : Z) :
  1 <= dt <= 28 -> 0 <= time < msPerDay ->
  let t := MakeDate (MakeDay y m dt) time in
  YearFromTime t = y + m / 12
  /\ MonthFromTime t = m mod 12
  /\ DateFromTime t = dt
  /\ TimeWithinDay t = time.
Proof.
  intros Hdt Htime t.
  assert (Hm : 0 <= m mod 12 <= 11) by (Z.div_mod_to_equations; lia).
  pose proof (InLeapYear_range (y + m / 12)) as Hl.
  pose proof (DaysBeforeMonth_bound (m mod 12) _ Hl Hm) as Hb.
  assert (Hday : Day t = MakeDay y m dt) by (apply Day_MakeDate; exact Htime).
  assert (Hy : YearFromTime t = y + m / 12).
  { unfold YearFromTime. rewrite Hday. apply YearFromDay_unique.
    rewrite DaysInYear_step, InLeapYear_DaysInYear. unfold MakeDay. lia. }
  assert (Hdoy : DayWithinYear t
                 = DaysBeforeMonth (m mod 12) (InLeapYear (y + m / 12)) + dt - 1).
  { unfold DayWithinYear. rewrite Hy, Hday. unfold MakeDay. lia. }
  assert (Hmo : MonthFromTime t = m mod 12).
  { unfold MonthFromTime. rewrite Hy, Hdoy.
    apply MonthFromDayInYear_DaysBeforeMonth; assumption. }
  split; [exact Hy|]. split; [exact Hmo|]. split.
  - unfold DateFromTime. rewrite Hmo, Hy, Hdoy. lia.
  - apply TimeWithinDay_MakeDate. exact Htime.
Qed.

Lemma MakeDay_carry (y a b dt : Z) :
  MakeDay (y + a / 12) (a mod 12 + b) dt = MakeDay y (a + b) dt.
Proof.
  unfold MakeDay.
  replace (y + a / 12 + (a mod 12 + b) / 12) with (y + (a + b) / 12)
    by (Z.div_mod_to_equations; lia).
  replace ((a mod 12 + b) mod 12) with ((a + b) mod 12)
    by (Z.div_mod_to_equations; lia).
  reflexivity.
Qed.

Lemma DaysBeforeMonth_step (r leap : Z) :
  0 <= leap <= 1 -> 0 <= r <= 10 ->
  DaysBeforeMonth r leap <= DaysBeforeMonth (r + 1) leap.
Proof.
  intros Hl Hr.
  assert (Hcases : r = 0 \/ r = 1 \/ r = 2 \/ r = 3 \/ r = 4 \/ r = 5
                   \/ r = 6 \/ r = 7 \/ r = 8 \/ r = 9 \/ r = 10) by lia.
  repeat destruct Hcases as [->|Hcases]; try subst r; simpl; lia.
Qed.

Lemma MakeDay_next_month (y m dt : Z) :
  MakeDay y m dt <= MakeDay y (m + 1) dt.
Proof.
  unfold MakeDay.
  assert (Hr : 0 <= m mod 12 <= 11) by (Z.div_mod_to_equations; lia).
  destruct (Z.eq_dec (m mod 12) 11) as [H11|H11].
  - replace ((m + 1) / 12) with (m / 12 + 1) by (Z.div_mod_to_equations; lia).
    replace ((m + 1) mod 12) with 0 by (Z.div_mod_to_equations; lia).
    rewrite Z.add_assoc, DaysInYear_step, InLeapYear_DaysInYear, H11.
    pose proof (InLeapYear_range (y + m / 12)).
    pose proof (InLeapYear_range (y + m / 12 + 1)).
    simpl. lia.
  - replace ((m + 1) / 12) with (m / 12) by (Z.div_mod_to_equations; lia).
    replace ((m + 1) mod 12) with (m mod 12 + 1)
      by (Z.div_mod_to_equations; lia).
    pose proof (DaysBeforeMonth_step (m mod 12) (InLeapYear (y + m / 12))
                  (InLeapYear_range _) ltac:(lia)).
    lia.
Qed.

Lemma MakeDay_month_mono (y dt m : Z) (k : nat) :
  MakeDay y m dt <= MakeDay y (m + Z.of_nat k) dt.
Proof.
  induction k as [|k IH].
  - rewrite Z.add_0_r. lia.
  - pose proof (MakeDay_next_month y (m + Z.of_nat k) dt).
    replace (m + Z.of_nat (S k)) with (m + Z.of_nat k + 1) by lia. lia.
Qed.

Lemma MakeDate_mono (day day' time : Z) :
  day <= day' -> MakeDate day time <= MakeDate day' time.
Proof. unfold MakeDate, msPerDay. lia. Qed.

Lemma TimeClip_Some (t : Z) : Z.abs t <= maxTime -> TimeClip t = Some t.
Proof.
  intros Ht. unfold TimeClip. destruct (Z.ltb_spec maxTime (Z.abs t)); [lia|].
  reflexivity.
Qed.

Lemma TimeClip_None (t : Z) : maxTime < Z.abs t -> TimeClip t = None.
Proof.
  intros Ht. unfold TimeClip. destruct (Z.ltb_spec maxTime (Z.abs t)); [|lia].
  reflexivity.
Qed.

Lemma TimeClip_None_inv (t : Z) : TimeClip t = None -> maxTime < Z.abs t.
Proof.
  unfold TimeClip. destruct (Z.ltb_spec maxTime (Z.abs t)); [auto|discriminate].
Qed.

Lemma TimeClip_inv (t u : Z) : TimeClip t = Some u -> u = t /\ Z.abs t <= maxTime.
Proof.
  unfold TimeClip. destruct (Z.ltb_spec maxTime (Z.abs t)); [discriminate|].
  intros [= <-]. split; [reflexivity|assumption].
Qed.

End Calendar.

Section AdvanceMonths.
Context {E : Type} `{Runtime E}.
Import LeasingAgreementService JSDate.

#[local] Opaque MakeDay MakeDate YearFromTime MonthFromTime DateFromTime
  TimeWithinDay TimeClip maxTime.

Lemma advanceMonths_Some (k t : Z) :
  advanceMonths k (Some t) = TimeClip (UTC LocalTZA (advancedLocal k t)).
Proof.
  unfold advanceMonths, setMonth, getMonth, int_add, advancedLocal.
  cbn [mbind option_bind]. reflexivity.
Qed.

Lemma advancedLocal_0 (t : Z) : advancedLocal 0 t = LocalTime LocalTZA t.
Proof.
  unfold advancedLocal. rewrite Z.add_0_r, MakeDay_fields. apply MakeDate_Day.
Qed.

Lemma advancedLocal_mono (t k : Z) (j : nat) :
  advancedLocal k t <= advancedLocal (k + Z.of_nat j) t.
Proof.
  unfold advancedLocal. apply MakeDate_mono.
  rewrite Z.add_assoc. apply MakeDay_month_mono.
Qed.

Lemma advancedLocal_add (a b t : Z) :
  DateFromTime (LocalTime LocalTZA t) <= 28 ->
  advancedLocal b (UTC LocalTZA (advancedLocal a t)) = advancedLocal (a + b) t.
Proof.
  intros Hdt.
  pose proof (fields_range (LocalTime LocalTZA t)) as [_ [Hd1 _]].
  pose proof (TimeWithinDay_range (LocalTime LocalTZA t)) as Htod.
  unfold advancedLocal at 1.
  replace (LocalTime LocalTZA (UTC LocalTZA (advancedLocal a t)))
    with (advancedLocal a t) by (unfold LocalTime, UTC; lia).
  assert (Hd28 : 1 <= DateFromTime (LocalTime LocalTZA t) <= 28) by lia.
  destruct (fields_MakeDay (YearFromTime (LocalTime LocalTZA t))
              (MonthFromTime (LocalTime LocalTZA t) + a)
              (DateFromTime (LocalTime LocalTZA t))
              (TimeWithinDay (LocalTime LocalTZA t)) Hd28 Htod)
    as (Hy & Hm & Hd & Ht).
  change (MakeDate _ _) with (advancedLocal a t) in Hy, Hm, Hd, Ht.
  rewrite Hy, Hm, Hd, Ht, MakeDay_carry.
  unfold advancedLocal. rewrite Z.add_assoc. reflexivity.
Qed.

(** From a date whose day of the month is at most 28, moving forward by
    the interval [i] times in succession is moving forward by [i] times
    the interval at once. *)
Lemma advance_chain (im t : Z) :
  0 <= im ->
  TimeClip t = Some t ->
  DateFromTime (LocalTime LocalTZA t) <= 28 ->
  forall i : nat,
    Nat.iter i (advanceMonths im) (Some t)
    = advanceMonths (Z.of_nat i * im) (Some t).
Proof.
  intros Him Hvalid Hdt. apply TimeClip_inv in Hvalid as [_ Hvalid].
  induction i as [|i IH].
  - cbn [Nat.iter Z.of_nat Z.mul]. rewrite advanceMonths_Some, advancedLocal_0.
    replace (UTC LocalTZA (LocalTime LocalTZA t)) with t
      by (unfold LocalTime, UTC; lia).
    symmetry. apply TimeClip_Some. exact Hvalid.
  - rewrite Nat.iter_succ, IH, !advanceMonths_Some.
    replace (Z.of_nat (S i) * im) with (Z.of_nat i * im + im) by lia.
    destruct (TimeClip (UTC LocalTZA (advancedLocal (Z.of_nat i * im) t)))
      as [u|] eqn:Hclip.
    + apply TimeClip_inv in Hclip as [-> _].
      rewrite advanceMonths_Some, advancedLocal_add by exact Hdt.
      reflexivity.
    + symmetry. apply TimeClip_None.
      apply TimeClip_None_inv in Hclip.
      pose proof (advancedLocal_mono t 0 (Z.to_nat (Z.of_nat i * im))) as H0.
      pose proof (advancedLocal_mono t (Z.of_nat i * im) (Z.to_nat im)) as H1.
      rewrite advancedLocal_0 in H0.
      rewrite Z.add_0_l, Z2Nat.id in H0 by lia.
      rewrite Z2Nat.id in H1 by lia.
      unfold UTC, LocalTime in *. lia.
Qed.

End AdvanceMonths.

Section DueDates.
Context {E : Type} `{Logger E} `{Runtime E}.
Import LeasingAgreementService.


Lemma length_loopAmounts (k : nat) :
  forall (i tp : Z) (pa rem : float), length (loopAmounts k i tp pa rem) = k.
Proof.
  induction k as [|k IH]; intros i tp pa rem; [reflexivity|].
  rewrite loopAmounts_S. simpl. rewrite IH. reflexivity.
Qed.

Lemma lookup_entries (agreementId : string) (i : Z) (base : loc)
    (l : list float) (j : nat) (p : PaymentSchedule.t) :
  imap (loopEntry agreementId i base) l !! j = Some p ->
  PaymentSchedule.dueDate p = (base + j)%nat /\ (j < length l)%nat.
Proof.
  rewrite list_lookup_imap. intros Hp.
  destruct (l !! j) as [x|] eqn:Hx; [|discriminate].
  simpl in Hp. injection Hp as <-. split; [reflexivity|].
  eapply lookup_lt_Some. exact Hx.
Qed.

Lemma getTime_new_cell (h : Dates) (x : option Z) (g : nat -> option Z)
    (n j : nat) :
  (j < n)%nat ->
  getTime (h ++ x :: map g (seq 0 n)) (S (length h) + j) = g j.
Proof.
  intros Hj. unfold getTime.
  rewrite lookup_app_r by lia.
  replace (S (length h) + j - length h)%nat with (S j) by lia.
  simpl. rewrite list_lookup_fmap, lookup_seq_lt by exact Hj.
  reflexivity.
Qed.


End DueDates.

Import LeasingAgreementService TestDoubles.

Lemma unknown_frequency_is_monthly_witness :
  getIntervalMonths "WEEKLY" = 1
  /\ forall (agreement : LeasingAgreement.t) (w : World Env),
       exists schedule w1 w2,
         generatePaymentSchedule agreement "WEEKLY" w = (Return schedule, w1)
         /\ generatePaymentSchedule agreement "MONTHLY" w = (Return schedule, w2)
         /\ dates w1 = dates w2.
Proof.
  apply (unknown_frequency_is_monthly "WEEKLY"); discriminate.
Defined.

(** The schedule of the rounding test: 100 over three months. *)
Lemma schedule_amounts_witness :
  let price := LeasingAgreement.price (testAgreement 100) in
  let base := round2 (price / JSNumber.ofZ 3)%float in
  exists schedule w',
    generatePaymentSchedule (testAgreement 100) "MONTHLY"
      (testWorld "2025-01-01" "2025-04-01") = (Return schedule, w')
    /\ length schedule = Z.to_nat 3
    /\ map PaymentSchedule.amount schedule =
         (replicate (Z.to_nat 3 - 1) base
          ++ [Nat.iter (Z.to_nat 3 - 1) (fun r => (r - base)%float) price])%list.
Proof.
  apply (schedule_amounts (testAgreement 100) "MONTHLY"
           (testWorld "2025-01-01" "2025-04-01") 3).
  - vm_compute. reflexivity.
  - lia.
Defined.

(** In that test the amounts do sum to the price. *)
Example rounding_test_sum :
  exists schedule w',
    generatePaymentSchedule (testAgreement 100) "MONTHLY"
      (testWorld "2025-01-01" "2025-04-01") = (Return schedule, w')
    /\ PrimFloat.eqb (sumAmounts schedule) 100 = true.
Proof.
  eexists. eexists. split; [vm_compute; reflexivity|].
  vm_compute. reflexivity.
Qed.

(** C1 fails on the code: 100 over the twelve months of 2025 is paid in
    eleven amounts of 8.33 and a last amount that has gathered the
    rounding of eleven subtractions, 8.370000000000017; the twelve
    amounts do not sum to 100 (they sum to 100.00000000000001). *)
Theorem schedule_sum_drifts :
  exists schedule w',
    generatePaymentSchedule (testAgreement 100) "MONTHLY"
      (testWorld "2025-01-01" "2026-01-01") = (Return schedule, w')
    /\ length schedule = 12%nat
    /\ PrimFloat.eqb (sumAmounts schedule)
         (LeasingAgreement.price (testAgreement 100)) = false.
Proof.
  eexists. eexists. split; [vm_compute; reflexivity|].
  split; vm_compute; reflexivity.
Qed.

(** When the month count gives no payment, the schedule is empty. *)
Lemma no_payment_no_entry {E : Type} `{Logger E} `{Runtime E}
    (agreement : LeasingAgreement.t) (frequency : string) (w : World E) (n : Z) :
  totalPaymentsOf (dates w) agreement frequency = Some n ->
  n <= 0 ->
  exists w', generatePaymentSchedule agreement frequency w = (Return [], w').
Proof.
  intros Hn Hle. eexists. rewrite generatePaymentSchedule_spec.
  rewrite Hn. simpl. replace (Z.to_nat n) with O by lia. reflexivity.
Qed.

(** C3 fails on the code. For an agreement that starts and ends in the
    same calendar month the number of payments is computed as 0 and is
    not raised to 1: the generator returns an empty schedule, and
    [processLeasingAgreement] activates an agreement of price 1000 with
    no payment at all. *)
Theorem same_month_schedule_is_empty :
  totalPaymentsOf (dates (testWorld "2025-01-01" "2025-01-31"))
    (testAgreement 100) "MONTHLY" = Some 0
  /\ (exists w',
        generatePaymentSchedule (testAgreement 100) "MONTHLY"
          (testWorld "2025-01-01" "2025-01-31") = (Return [], w'))
  /\ (exists agreement w',
        processLeasingAgreement testConfig sameMonthRequest initialWorld
          = (Return agreement, w')
        /\ LeasingAgreement.status agreement = ACTIVE
        /\ PrimFloat.eqb (LeasingAgreement.price agreement) 1000 = true
        /\ LeasingAgreement.paymentSchedule agreement = []).
Proof.
  split; [vm_compute; reflexivity|].
  split.
  - eexists. vm_compute. reflexivity.
  - eexists. eexists. split; [vm_compute; reflexivity|].
    repeat split; vm_compute; reflexivity.
Qed.



(** ** The validator *)

Section ValidatorProperties.
Context {E : Type} `{Runtime E}.

(** What [validateDateRange] does: once the start is not in the past and
    the end is after the start, DURATION_EXCEEDED is thrown exactly when
    the end is after the day five years from now. *)
Lemma duration_exceeded_iff (startDate endDate : Z) (w : World E)
    (now now' : Z) (e1 e2 : E) :
  Date_now (ext w) = (now, e1) ->
  Date_now e1 = (now', e2) ->
  let maxFutureDate :=
    JSDate.setFullYear LocalTZA (Some now')
      (int_add (JSDate.getFullYear LocalTZA (Some now)) (Some 5)) in
  JSDate.lt (Some startDate) (JSDate.startOfDay LocalTZA (Some now)) = false ->
  JSDate.le (Some endDate) (Some startDate) = false ->
  (exists e, fst (Validator.validateDateRange startDate endDate w) = Throw e
             /\ code e = Some "DURATION_EXCEEDED")
  <-> JSDate.gt (Some endDate) maxFutureDate = true.
Proof.
  intros H1 H2 maxFutureDate Hpast Hrange.
  unfold Validator.validateDateRange, bind, now_ms, outside.
  destruct w as [h e]. cbn [ext dates] in *.
  rewrite H1. cbn [ext dates]. rewrite H2. fold maxFutureDate.
  rewrite Hpast, Hrange.
  destruct (JSDate.gt (Some endDate) maxFutureDate) eqn:Hgt.
  - split; [reflexivity|]. intros _. eexists. split; reflexivity.
  - split; [|discriminate].
    intros (err & Herr & Hcode).
    destruct (JSDate.lt (Some endDate) _); cbn [throw ret fst] in Herr.
    + injection Herr as <-. discriminate.
    + discriminate.
Qed.

(** The outcome of [validateCreateAgreementRequest] does not depend on
    the metadata of the request. *)
Lemma validation_ignores_metadata (request : CreateAgreementRequest.t)
    (metadata : option Metadata) (w : World E) :
  Validator.validateCreateAgreementRequest
    (CreateAgreementRequest.with_metadata request metadata) w
  = Validator.validateCreateAgreementRequest request w.
Proof. reflexivity. Qed.

End ValidatorProperties.

(** C4 fails on the code: the limit of five years is counted from the
    current day, not from the start date. With the clock at noon of
    15 June 2025, a lease from 1 January 2026 to 1 September 2030 (four
    years and eight months) is refused with DURATION_EXCEEDED, and a
    lease from 15 June 2025 at midnight to 15 June 2030 at six o'clock
    (six hours more than five years) is accepted. *)
Theorem duration_limit_counted_from_now :
  (exists startDate endDate w',
     parseISO "2026-01-01" = Some startDate
     /\ parseISO "2030-09-01" = Some endDate
     /\ JSDate.gt (Some endDate)
          (JSDate.setFullYear 0 (Some startDate)
             (int_add (JSDate.getFullYear 0 (Some startDate)) (Some 5))) = false
     /\ Validator.validateDateRange startDate endDate initialWorld
        = (Throw (ValidationError "Lease duration cannot exceed 5 years"
                    "endDate" "DURATION_EXCEEDED"), w'))
  /\ (exists startDate endDate w',
        parseISO "2025-06-15" = Some startDate
        /\ parseISO "2030-06-15T06:00:00.000Z" = Some endDate
        /\ JSDate.gt (Some endDate)
             (JSDate.setFullYear 0 (Some startDate)
                (int_add (JSDate.getFullYear 0 (Some startDate)) (Some 5))) = true
        /\ Validator.validateDateRange startDate endDate initialWorld
           = (Return tt, w')).
Proof.
  split; eexists; eexists; eexists.
  - split; [vm_compute; reflexivity|].
    split; [vm_compute; reflexivity|].
    split; vm_compute; reflexivity.
  - split; [vm_compute; reflexivity|].
    split; [vm_compute; reflexivity|].
    split; vm_compute; reflexivity.
Qed.

(** C5 fails on the code: [validateCreateAgreementRequest] never calls
    [validateMetadata]. A request whose metadata holds a script tag, or
    serializes to more than 10000 characters, passes the validation of
    the request, and [processLeasingAgreement] activates an agreement that
    carries the metadata; [validateMetadata] itself, called on the same
    metadata, throws PROHIBITED_CONTENT, respectively SIZE_EXCEEDED. *)
Theorem metadata_is_not_validated :
  (exists w', Validator.validateCreateAgreementRequest scriptRequest initialWorld
              = (Return tt, w'))
  /\ (exists w', Validator.validateMetadata
                   (CreateAgreementRequest.metadata scriptRequest) initialWorld
                 = (Throw (ValidationError "Metadata contains prohibited content"
                             "metadata" "PROHIBITED_CONTENT"), w'))
  /\ (exists agreement w',
        processLeasingAgreement testConfig scriptRequest initialWorld
        = (Return agreement, w')
        /\ LeasingAgreement.status agreement = ACTIVE
        /\ Some (LeasingAgreement.metadata agreement)
           = CreateAgreementRequest.metadata scriptRequest)
  /\ (exists w', Validator.validateCreateAgreementRequest
                   (CreateAgreementRequest.with_metadata scriptRequest
                      (Some largeMetadata)) initialWorld
                 = (Return tt, w'))
  /\ (exists w', Validator.validateMetadata (Some largeMetadata) initialWorld
                 = (Throw (ValidationError "Metadata size cannot exceed 10KB"
                             "metadata" "SIZE_EXCEEDED"), w')).
Proof.
  split; [eexists; vm_compute; reflexivity|].
  split; [eexists; vm_compute; reflexivity|].
  split.
  { eexists. eexists. split; [vm_compute; reflexivity|].
    split; vm_compute; reflexivity. }
  split; eexists; vm_compute; reflexivity.
Qed.

(** ** The saga *)

Section SagaProperties.
Context {E : Type}.
Context `{ILeasingRepository E} `{INotificationService E}
        `{IInventoryService E} `{IBillingService E} `{Logger E} `{Runtime E}.

(** One rollback of the loop: the compensator returns; or it throws a
    value with a message, which is logged; or it throws [undefined] or
    [null], and the [catch] block throws a [TypeError] itself. *)
Lemma settle_spec (correlationId : string) (rollback : M (World E) unit)
    (w : World E) :
  settle correlationId rollback w
  = match rollback w with
    | (Return _, w') => (Return tt, w')
    | (Throw rollbackError, w') =>
        if is_nullish rollbackError then (Throw (no_message rollbackError), w')
        else
          (Return tt,
           mkWorld (dates w')
             (log LError "Rollback failed"
                [("correlationId", correlationId);
                 ("error", message rollbackError)] (ext w')))
    end.
Proof.
  unfold settle, try_catch.
  destruct (rollback w) as [[[]|rollbackError] w']; [reflexivity|].
  unfold get_message, bind. destruct (is_nullish rollbackError); reflexivity.
Qed.

Lemma runRollbacks_cons (correlationId : string) (rollback : M (World E) unit)
    (rest : list (M (World E) unit)) (w : World E) :
  runRollbacks correlationId (rollback :: rest) w
  = match settle correlationId rollback w with
    | (Return _, w') => runRollbacks correlationId rest w'
    | (Throw rollbackError, w') => (Throw rollbackError, w')
    end.
Proof. reflexivity. Qed.

(** As long as the compensators that throw throw a value with a message,
    the rollback loop does not throw, and runs the rollbacks it is given
    one after the other, whatever each of them does. *)
Lemma runRollbacks_spec (correlationId : string)
    (rollbacks : list (M (World E) unit)) :
  Forall rejects_with_message rollbacks ->
  forall w : World E,
    runRollbacks correlationId rollbacks w
    = (Return tt,
       fold_left (fun w' c => snd (settle correlationId c w')) rollbacks w).
Proof.
  induction 1 as [|c rest Hc _ IH]; intros w; [reflexivity|].
  rewrite runRollbacks_cons. cbn [fold_left]. rewrite settle_spec.
  destruct (c w) as [[[]|rollbackError] w'] eqn:Hcw; cbn [snd].
  - apply IH.
  - rewrite (Hc w rollbackError w' Hcw). cbn [snd]. apply IH.
Qed.

(** A compensator that throws [undefined] or [null] ends the loop: the
    compensators after it are not run, and the loop throws. *)
Lemma runRollbacks_stops (correlationId : string)
    (rollback : M (World E) unit) (rest : list (M (World E) unit))
    (w w' : World E) (rollbackError : JSError) :
  rollback w = (Throw rollbackError, w') ->
  is_nullish rollbackError = true ->
  runRollbacks correlationId (rollback :: rest) w
  = (Throw (no_message rollbackError), w').
Proof.
  intros Hr Hn. rewrite runRollbacks_cons, settle_spec, Hr, Hn. reflexivity.
Qed.

(** The [catch] block of the transaction, when [releaseItem] is the one
    compensator registered. *)
Lemma rollback_release (correlationId itemId : string) (error : JSError)
    (A : Type) (w : World E) :
  (runRollbacks correlationId [outside (releaseItem itemId)] ;;; throw error) w
  = rolled_back (A := A) correlationId error (dates w)
      (releaseItem itemId (ext w)).
Proof.
  unfold bind. rewrite runRollbacks_cons, settle_spec.
  unfold outside, rolled_back.
  destruct (releaseItem itemId (ext w)) as [[[]|rollbackError] e];
    [reflexivity|].
  destruct (is_nullish rollbackError); reflexivity.
Qed.

(** When the billing record cannot be created after the item has been
    reserved, [executeAgreementTransaction] calls [releaseItem] on the
    item. When that call returns, or throws a value with a message (the
    failure is then logged), the error thrown is the one of the billing
    service, the very value caught. When that call throws [undefined] or
    [null], nothing is logged and a [TypeError] is thrown in place of the
    error of the billing service. *)
Theorem billing_failure_rolls_back (agreement : LeasingAgreement.t)
    (correlationId : string) (w : World E) (reserved : bool)
    (savedAgreement : LeasingAgreement.t) (billingError : JSError)
    (e1 e2 e3 : E) :
  reserveItem (LeasingAgreement.itemId agreement) (ext w) = (Return reserved, e1) ->
  save (LeasingAgreement.with_status agreement PENDING) e1
    = (Return savedAgreement, e2) ->
  createBillingRecord savedAgreement e2 = (Throw billingError, e3) ->
  executeAgreementTransaction agreement correlationId w
  = match releaseItem (LeasingAgreement.itemId agreement) e3 with
    | (Return _, e4) => (Throw billingError, mkWorld (dates w) e4)
    | (Throw rollbackError, e4) =>
        if is_nullish rollbackError then
          (Throw (no_message rollbackError), mkWorld (dates w) e4)
        else
          (Throw billingError,
           mkWorld (dates w)
             (log LError "Rollback failed"
                [("correlationId", correlationId);
                 ("error", message rollbackError)] e4))
    end.
Proof.
  intros Hreserve Hsave Hbilling.
  unfold executeAgreementTransaction, transactionBody.
  unfold bind at 1 2 3 4. unfold inSaga, push, modify, outside.
  cbn [fst snd ext dates].
  rewrite Hreserve. cbn [fst snd ext dates]. rewrite Hsave.
  cbn [fst snd ext dates]. rewrite Hbilling. cbn [fst snd ext dates app rev].
  exact (rollback_release correlationId (LeasingAgreement.itemId agreement)
           billingError _ (mkWorld (dates w) e3)).
Qed.

(** When the notification cannot be sent and the value thrown has a
    message, the failure is logged as a warning and goes no further: the
    saga reads the clock and saves the agreement with status ACTIVE. When
    the repository returns, the saga returns what the repository returns,
    and no compensator is run ([releaseItem] is not called); a failure of
    that last save is rolled back. When the notification service throws
    [undefined] or [null], no warning is logged: the [TypeError] of the
    [catch] block is rolled back as a failure of the saga, [releaseItem]
    is called, and the agreement is not saved as ACTIVE. *)
Theorem notification_failure_outcome (agreement : LeasingAgreement.t)
    (correlationId : string) (w : World E) (reserved : bool)
    (savedAgreement : LeasingAgreement.t) (billingId : string)
    (notificationError : JSError) (e1 e2 e3 e4 : E) :
  reserveItem (LeasingAgreement.itemId agreement) (ext w) = (Return reserved, e1) ->
  save (LeasingAgreement.with_status agreement PENDING) e1
    = (Return savedAgreement, e2) ->
  createBillingRecord savedAgreement e2 = (Return billingId, e3) ->
  sendAgreementCreated (LeasingAgreement.employeeId savedAgreement)
    (LeasingAgreement.id savedAgreement)
    (log LInfo "Billing record created"
       [("agreementId", LeasingAgreement.id savedAgreement);
        ("billingId", billingId)] e3)
    = (Throw notificationError, e4) ->
  executeAgreementTransaction agreement correlationId w
  = if is_nullish notificationError then
      rolled_back correlationId (no_message notificationError) (dates w)
        (releaseItem (LeasingAgreement.itemId agreement) e4)
    else
      let (now, e5) :=
        Date_now (log LWarn "Notification failed but agreement created"
                    [("correlationId", correlationId);
                     ("error", message notificationError)] e4) in
      match save (LeasingAgreement.with_status_updatedAt savedAgreement ACTIVE
                    (length (dates w))) e5 with
      | (Return finalAgreement, e6) =>
          (Return finalAgreement,
           mkWorld (dates w ++ [Some now])%list
             (log LInfo "Agreement processed successfully"
                [("correlationId", correlationId);
                 ("agreementId", LeasingAgreement.id finalAgreement)] e6))
      | (Throw saveError, e6) =>
          rolled_back correlationId saveError (dates w ++ [Some now])%list
            (releaseItem (LeasingAgreement.itemId agreement) e6)
      end.
Proof.
  intros Hreserve Hsave Hbilling Hnotify.
  unfold executeAgreementTransaction, transactionBody.
  unfold bind, inSaga, push, modify, outside, logger, try_catch, newDateNow,
    newDate, alloc, ret, bind, outside.
  cbn [fst snd ext dates].
  rewrite Hreserve. cbn [fst snd ext dates]. rewrite Hsave.
  cbn [fst snd ext dates]. rewrite Hbilling. cbn [fst snd ext dates].
  rewrite Hnotify. cbn [fst snd ext dates].
  unfold get_message.
  destruct (is_nullish notificationError).
  - unfold throw at 1. cbn [fst snd ext dates app rev].
    exact (rollback_release correlationId (LeasingAgreement.itemId agreement)
             (no_message notificationError) _ (mkWorld (dates w) e4)).
  - unfold ret. cbn [fst snd ext dates].
    destruct (Date_now _) as [now e5]. cbn [fst snd ext dates].
    destruct (save _ e5) as [[finalAgreement|saveError] e6];
      cbn [fst snd ext dates app rev]; [reflexivity|].
    exact (rollback_release correlationId (LeasingAgreement.itemId agreement)
             saveError _ (mkWorld (dates w ++ [Some now])%list e6)).
Qed.

(** The saga when the notification is sent: the same, without the
    warning. *)
Lemma notification_success_path (agreement : LeasingAgreement.t)
    (correlationId : string) (w : World E) (reserved : bool)
    (savedAgreement finalAgreement : LeasingAgreement.t) (billingId : string)
    (now : Z) (e1 e2 e3 e4 e5 e6 : E) :
  reserveItem (LeasingAgreement.itemId agreement) (ext w) = (Return reserved, e1) ->
  save (LeasingAgreement.with_status agreement PENDING) e1
    = (Return savedAgreement, e2) ->
  createBillingRecord savedAgreement e2 = (Return billingId, e3) ->
  sendAgreementCreated (LeasingAgreement.employeeId savedAgreement)
    (LeasingAgreement.id savedAgreement)
    (log LInfo "Billing record created"
       [("agreementId", LeasingAgreement.id savedAgreement);
        ("billingId", billingId)] e3)
    = (Return tt, e4) ->
  Date_now e4 = (now, e5) ->
  save (LeasingAgreement.with_status_updatedAt savedAgreement ACTIVE
          (length (dates w))) e5
    = (Return finalAgreement, e6) ->
  executeAgreementTransaction agreement correlationId w
    = (Return finalAgreement,
       mkWorld (dates w ++ [Some now])%list
         (log LInfo "Agreement processed successfully"
            [("correlationId", correlationId);
             ("agreementId", LeasingAgreement.id finalAgreement)] e6)).
Proof.
  intros Hreserve Hsave Hbilling Hnotify Hnow Hactivate.
  unfold executeAgreementTransaction, transactionBody.
  unfold bind, inSaga, push, modify, outside, logger, try_catch, newDateNow,
    newDate, alloc, ret, bind, outside.
  cbn [fst snd ext dates].
  rewrite Hreserve. cbn [fst snd ext dates]. rewrite Hsave.
  cbn [fst snd ext dates]. rewrite Hbilling. cbn [fst snd ext dates].
  rewrite Hnotify. cbn [fst snd ext dates]. rewrite Hnow.
  cbn [fst snd ext dates]. rewrite Hactivate. reflexivity.
Qed.

End SagaProperties.

(** The mocks of the tests, with the billing service rejecting: the error
    thrown is the one of the billing service, and the item is available
    again. *)
Lemma billing_failure_rolls_back_witness :
  let w := billingFails (Error "Billing failed") in
  let agreement := testAgreement 1000 in
  let pending := LeasingAgreement.with_status agreement PENDING in
  let e1 := snd (reserveItem "item1" (ext w)) in
  let e2 := snd (save pending e1) in
  let e3 := snd (createBillingRecord pending e2) in
  executeAgreementTransaction agreement "c-1" w
    = (Throw (Error "Billing failed"),
       mkWorld (dates w) (snd (releaseItem "item1" e3)))
  /\ fst (checkAvailability "item1" (ext w)) = Return true
  /\ fst (checkAvailability "item1" e3) = Return false
  /\ fst (checkAvailability "item1"
            (ext (snd (executeAgreementTransaction agreement "c-1" w))))
     = Return true.
Proof.
  intros w agreement pending e1 e2 e3. split.
  - rewrite (billing_failure_rolls_back agreement "c-1" w true pending
               (Error "Billing failed") e1 e2 e3);
      vm_compute; reflexivity.
  - repeat split; vm_compute; reflexivity.
Defined.

(** The test [should rollback inventory reservation on billing failure]. *)
Example rollback_test :
  let w := mkWorld [] (ext (billingFails (Error "Billing failed"))) in
  fst (processLeasingAgreement testConfig validRequest w)
    = Throw (Error "Billing failed")
  /\ fst (checkAvailability "item1"
            (ext (snd (processLeasingAgreement testConfig validRequest w))))
     = Return true.
Proof. split; vm_compute; reflexivity. Qed.

(** When the release fails as well, with an error, the failure is logged
    and the error thrown is still the one of the billing service. *)
Example rollback_failure_is_logged :
  let w := billingAndReleaseFail (Error "Billing failed") (Error "Release failed") in
  fst (executeAgreementTransaction (testAgreement 1000) "c-1" w)
    = Throw (Error "Billing failed")
  /\ console (ext (snd (executeAgreementTransaction (testAgreement 1000) "c-1" w)))
     = [(LError, "Rollback failed",
         [("correlationId", "c-1"); ("error", "Release failed")])].
Proof. split; vm_compute; reflexivity. Qed.

(** C2. The claim fails on a release that is rejected with no reason
    ([mockRejectedValue(undefined)]). The billing service throws
    [Billing failed]; the [catch] block of the rollback reads the message
    of [undefined], which throws a [TypeError]: nothing is logged, and the
    transaction, and with it [processLeasingAgreement], throws that
    [TypeError] where the claim has the error of the billing service
    thrown unchanged. *)
Theorem release_rejection_replaces_billing_error :
  let w := billingAndReleaseFail (Error "Billing failed") Undefined in
  let pending := LeasingAgreement.with_status (testAgreement 1000) PENDING in
  let e2 := snd (save pending (snd (reserveItem "item1" (ext w)))) in
  fst (createBillingRecord pending e2) = Throw (Error "Billing failed")
  /\ fst (releaseItem "item1" e2) = Throw Undefined
  /\ (exists w',
        executeAgreementTransaction (testAgreement 1000) "c-1" w
        = (Throw (Error "Cannot read properties of undefined (reading 'message')"),
           w')
        /\ console (ext w') = [])
  /\ fst (processLeasingAgreement testConfig validRequest (mkWorld [] (ext w)))
     = Throw (Error "Cannot read properties of undefined (reading 'message')").
Proof.
  intros w pending e2.
  split; [vm_compute; reflexivity|].
  split; [vm_compute; reflexivity|].
  split; [eexists; split; vm_compute; reflexivity|].
  vm_compute. reflexivity.
Qed.

(** The mocks of the tests, with the notification service rejecting with
    an error: the agreement returned is ACTIVE, the item stays reserved,
    and the console holds the warning. *)
Lemma notification_failure_outcome_witness :
  let w := notificationFails (Error "Mail server down") in
  let agreement := testAgreement 1000 in
  let pending := LeasingAgreement.with_status agreement PENDING in
  let active :=
    LeasingAgreement.with_status_updatedAt pending ACTIVE (length (dates w)) in
  let e1 := snd (reserveItem "item1" (ext w)) in
  let e2 := snd (save pending e1) in
  let e3 := snd (createBillingRecord pending e2) in
  let e4 := log LInfo "Billing record created"
              [("agreementId", "test-id"); ("billingId", "bill-test-id")] e3 in
  let e5 := log LWarn "Notification failed but agreement created"
              [("correlationId", "c-1"); ("error", "Mail server down")] e4 in
  let e6 := snd (save active e5) in
  executeAgreementTransaction agreement "c-1" w
    = (Return active,
       mkWorld (dates w ++ [Some (clock initialEnv)])%list
         (log LInfo "Agreement processed successfully"
            [("correlationId", "c-1");
             ("agreementId", LeasingAgreement.id active)] e6))
  /\ LeasingAgreement.status active = ACTIVE
  /\ fst (checkAvailability "item1" e6) = Return false.
Proof.
  intros w agreement pending active e1 e2 e3 e4 e5 e6. split.
  - rewrite (notification_failure_outcome agreement "c-1" w true pending
               "bill-test-id" (Error "Mail server down") e1 e2 e3 e4);
      vm_compute; reflexivity.
  - split; vm_compute; reflexivity.
Defined.

(** C7. The claim fails on a notification that is rejected with no
    reason ([mockRejectedValue(undefined)]). The [catch] block of the
    notification step reads the message of [undefined], which throws a
    [TypeError]: no warning is logged, the [TypeError] is caught as a
    failure of the saga, the compensator runs (the item is available
    again), the agreement stays PENDING in the repository, and the
    [TypeError] is thrown to the caller, and by [processLeasingAgreement]
    to its own. *)
Theorem notification_rejection_aborts_saga :
  let w := notificationFails Undefined in
  (exists w',
     executeAgreementTransaction (testAgreement 1000) "c-1" w
     = (Throw (Error "Cannot read properties of undefined (reading 'message')"),
        w')
     /\ fst (checkAvailability "item1" (ext w')) = Return true
     /\ LeasingAgreement.status <$> agreements (ext w') !! "test-id"
        = Some PENDING
     /\ billingRecords (ext w') = [("test-id", "bill-test-id")]
     /\ console (ext w')
        = [(LInfo, "Billing record created",
            [("agreementId", "test-id"); ("billingId", "bill-test-id")])])
  /\ fst (processLeasingAgreement testConfig validRequest (mkWorld [] (ext w)))
     = Throw (Error "Cannot read properties of undefined (reading 'message')").
Proof.
  intros w. split; [|vm_compute; reflexivity].
  eexists. split; [vm_compute; reflexivity|].
  repeat split; vm_compute; reflexivity.
Qed.

(** ** The business rules *)

Section BusinessRules.
Context {E : Type}.
Context `{ILeasingRepository E} `{INotificationService E}
        `{IInventoryService E} `{IBillingService E} `{IEmployeeService E}
        `{Logger E} `{Runtime E}.

Lemma validateBusinessRules_ceiling (config : LeasingConfig.t) (m : float)
    (request : CreateAgreementRequest.t) (w : World E) :
  JSNumber.gt (CreateAgreementRequest.price request)
              (LeasingConfig.maxPrice config) = false ->
  JSNumber.gt (CreateAgreementRequest.price request) m = false ->
  validateBusinessRules (LeasingConfig.with_maxPrice config m) request w
  = validateBusinessRules config request w.
Proof.
  intros Hc Hm. unfold validateBusinessRules, bind.
  destruct (outside (validateEmployee _ _) w) as [[[]|err] w1];
    try reflexivity.
  cbn [negb].
  destruct (outside (checkAvailability _) w1) as [[[]|err] w2];
    try reflexivity.
  cbn [negb LeasingConfig.maxPrice LeasingConfig.with_maxPrice].
  rewrite Hc, Hm. reflexivity.
Qed.

(** C10, as amended. [validateBusinessRules] asks the employee service,
    then the inventory, and compares the price last. When both calls
    return, it throws PRICE_EXCEEDED exactly when both answers are true
    and the price of the request is above [config.maxPrice]. The ceiling
    bears on the price of the request alone: as long as that price is not
    above it, the ceiling can be set to any value without changing what
    [processLeasingAgreement] does, so the discounted price that the
    factory computes afterwards is never compared with it. *)
Theorem price_ceiling_on_request_price (config : LeasingConfig.t)
    (request : CreateAgreementRequest.t) (w : World E)
    (validEmployee available : bool) (e1 e2 : E) :
  validateEmployee (CreateAgreementRequest.employeeId request)
    (CreateAgreementRequest.companyId request) (ext w)
    = (Return validEmployee, e1) ->
  checkAvailability (CreateAgreementRequest.itemId request) e1
    = (Return available, e2) ->
  ((exists err w',
      validateBusinessRules config request w = (Throw err, w')
      /\ code err = Some "PRICE_EXCEEDED")
   <-> (validEmployee = true /\ available = true
        /\ JSNumber.gt (CreateAgreementRequest.price request)
                       (LeasingConfig.maxPrice config) = true))
  /\ (forall (m : float) (w0 : World E),
        JSNumber.gt (CreateAgreementRequest.price request)
                    (LeasingConfig.maxPrice config) = false ->
        JSNumber.gt (CreateAgreementRequest.price request) m = false ->
        processLeasingAgreement (LeasingConfig.with_maxPrice config m) request w0
        = processLeasingAgreement config request w0).
Proof.
  intros Hemp Hav. split.
  - unfold validateBusinessRules, bind, outside. rewrite Hemp.
    cbn [ext dates]. destruct validEmployee; cbn [negb ext dates].
    + rewrite Hav. cbn [ext dates]. destruct available; cbn [negb ext dates].
      * destruct (JSNumber.gt _ _).
        -- split; [intros _; auto|]. intros _. eexists. eexists.
           split; reflexivity.
        -- split; [|intros (_ & _ & Hf); discriminate].
           intros (err & w' & Hr & Hc). discriminate.
      * split; [|intros (_ & Hf & _); discriminate].
        intros (err & w' & Hr & Hc). injection Hr as <- _. discriminate.
    + split; [|intros (Hf & _); discriminate].
      intros (err & w' & Hr & Hc). injection Hr as <- _. discriminate.
  - intros m w0 Hc Hm.
    unfold processLeasingAgreement, bind, try_catch.
    destruct (generateCorrelationId w0) as [[cid|err] w1]; [|reflexivity].
    destruct (logger LInfo _ _ w1) as [[u|err] w2]; [|reflexivity].
    destruct (Validator.validateCreateAgreementRequest request w2)
      as [[u'|err] w3]; [|reflexivity].
    rewrite validateBusinessRules_ceiling by assumption.
    reflexivity.
Qed.

End BusinessRules.

(** C10 as stated fails: for an employee of another company and a price
    above the ceiling, the error thrown is INVALID_EMPLOYEE, not
    PRICE_EXCEEDED. *)
Lemma price_ceiling_counterexample :
  exists w',
    JSNumber.gt (CreateAgreementRequest.price wrongCompanyRequest)
                (LeasingConfig.maxPrice lowCeilingConfig) = true
    /\ validateBusinessRules lowCeilingConfig wrongCompanyRequest initialWorld
       = (Throw (BusinessRuleError
                   "Employee does not exist or does not belong to specified company"
                   "EMPLOYEE_VALIDATION" "INVALID_EMPLOYEE"), w')
    /\ code (BusinessRuleError
               "Employee does not exist or does not belong to specified company"
               "EMPLOYEE_VALIDATION" "INVALID_EMPLOYEE")
       <> Some "PRICE_EXCEEDED".
Proof.
  eexists. split; [vm_compute; reflexivity|].
  split; [vm_compute; reflexivity|]. discriminate.
Qed.

Lemma price_ceiling_on_request_price_witness :
  ((exists err w',
      validateBusinessRules lowCeilingConfig expensiveRequest initialWorld
        = (Throw err, w')
      /\ code err = Some "PRICE_EXCEEDED")
   <-> (true = true /\ true = true
        /\ JSNumber.gt (CreateAgreementRequest.price expensiveRequest)
                       (LeasingConfig.maxPrice lowCeilingConfig) = true))
  /\ (forall (m : float) (w0 : World Env),
        JSNumber.gt (CreateAgreementRequest.price expensiveRequest)
                    (LeasingConfig.maxPrice lowCeilingConfig) = false ->
        JSNumber.gt (CreateAgreementRequest.price expensiveRequest) m = false ->
        processLeasingAgreement (LeasingConfig.with_maxPrice lowCeilingConfig m)
          expensiveRequest w0
        = processLeasingAgreement lowCeilingConfig expensiveRequest w0).
Proof.
  apply (price_ceiling_on_request_price lowCeilingConfig expensiveRequest initialWorld
           true true initialEnv initialEnv); vm_compute; reflexivity.
Defined.

(** A ceiling the discounted price exceeds: with a multiplier above 1 for
    the tier of the employee, a request at the ceiling is accepted and
    the agreement activated has a price above it. *)
Example discounted_price_above_ceiling :
  exists agreement w',
    processLeasingAgreement surchargeConfig validRequest initialWorld
      = (Return agreement, w')
    /\ LeasingAgreement.status agreement = ACTIVE
    /\ JSNumber.gt (LeasingAgreement.price agreement)
                   (LeasingConfig.maxPrice surchargeConfig) = true.
Proof.
  eexists. eexists. split; [vm_compute; reflexivity|].
  split; vm_compute; reflexivity.
Qed.

(** ** Signs in binary64 arithmetic *)

Section FloatSigns.

Variables prec emax : Z.

Lemma iter_pos_invariant {A : Type} (f : A -> A) (P : A -> Prop) :
  (forall x, P x -> P (f x)) ->
  forall (p : positive) (x : A), P x -> P (SpecFloat.iter_pos f p x).
Proof.
  intros Hf. induction p as [p IH|p IH|]; intros x Hx; simpl; auto.
Qed.

Lemma shr_1_nonneg (mrs : shr_record) :
  0 <= shr_m mrs -> 0 <= shr_m (shr_1 mrs).
Proof.
  destruct mrs as [m r s]. simpl.
  destruct m as [|[p|p|]|[p|p|]]; simpl; lia.
Qed.

Lemma shr_nonneg (mrs : shr_record) (e n : Z) :
  0 <= shr_m mrs -> 0 <= shr_m (fst (shr mrs e n)).
Proof.
  intros Hm. unfold shr. destruct n as [|p|p]; simpl; auto.
  apply iter_pos_invariant; auto using shr_1_nonneg.
Qed.

Lemma shr_fexp_nonneg (m e : Z) (l : location) :
  0 <= m -> 0 <= shr_m (fst (shr_fexp prec emax m e l)).
Proof.
  intros Hm. unfold shr_fexp. apply shr_nonneg.
  destruct l as [|[]]; simpl; exact Hm.
Qed.

Lemma round_nearest_even_nonneg (m : Z) (l : location) :
  0 <= m -> 0 <= round_nearest_even m l.
Proof.
  intros Hm. unfold round_nearest_even.
  destruct l as [|[]]; try destruct (Z.even m); lia.
Qed.

(** Rounding a magnitude that is not negative gives a zero, a finite
    number or an infinity of the sign asked for. *)
Lemma binary_round_aux_sign (m e : Z) (l : location) :
  0 <= m -> sf_nonneg (binary_round_aux prec emax false m e l).
Proof.
  intros Hm. unfold binary_round_aux.
  pose proof (shr_fexp_nonneg m e l Hm) as H1.
  destruct (shr_fexp prec emax m e l) as [mrs' e']. simpl in H1.
  pose proof (shr_fexp_nonneg
                (round_nearest_even (shr_m mrs') (loc_of_shr_record mrs'))
                e' loc_Exact
                (round_nearest_even_nonneg _ _ H1)) as H2.
  destruct (shr_fexp prec emax _ e' loc_Exact) as [mrs'' e'']. simpl in H2.
  destruct (shr_m mrs'') as [|p|p]; simpl; [exact I| |lia].
  destruct (e'' <=? emax - prec); simpl; reflexivity.
Qed.

Lemma binary_normalize_sign (m e : Z) :
  0 <= m -> sf_nonneg (binary_normalize prec emax m e false).
Proof.
  intros Hm. unfold binary_normalize. destruct m as [|p|p]; simpl;
    [exact I| |lia].
  unfold binary_round.
  destruct (shl_align p e _) as [mz ez].
  apply binary_round_aux_sign. lia.
Qed.

Lemma SFmul_sign (x y : spec_float) :
  sf_nonneg x -> sf_posfin y -> sf_nonneg (SFmul prec emax x y).
Proof.
  destruct x as [sx|sx| |sx mx ex], y as [sy|sy| |sy my ey]; simpl;
    try contradiction; intros Hx Hy; subst; auto.
  apply binary_round_aux_sign. lia.
Qed.

Lemma SFmul_sign_fin (x y : spec_float) :
  sf_posfin x -> sf_nonnegfin y -> sf_nonneg (SFmul prec emax x y).
Proof.
  destruct x as [sx|sx| |sx mx ex], y as [sy|sy| |sy my ey]; simpl;
    try contradiction; intros Hx Hy; subst; auto.
  apply binary_round_aux_sign. lia.
Qed.

Lemma SFdiv_sign (x y : spec_float) :
  sf_nonneg x -> sf_posfin y -> sf_nonneg (SFdiv prec emax x y).
Proof.
  destruct x as [sx|sx| |sx mx ex], y as [sy|sy| |sy my ey]; simpl;
    try contradiction; intros Hx Hy; subst; auto.
  unfold SFdiv_core_binary.
  set (s := (ex - ey - _)%Z).
  set (m' := match s with Z.pos _ => Z.shiftl (Z.pos mx) s | 0 => Z.pos mx | Z.neg _ => 0 end).
  assert (Hm' : 0 <= m').
  { subst m'. destruct s; try lia. apply Z.shiftl_nonneg. lia. }
  pose proof (Z.div_pos m' (Z.pos my) Hm' ltac:(lia)) as Hq.
  unfold Z.div in Hq.
  destruct (Z.div_eucl m' (Z.pos my)) as [q r]. simpl in Hq.
  apply binary_round_aux_sign. exact Hq.
Qed.

End FloatSigns.

(** *** From the specification to the primitive numbers *)

Lemma Prim2SF_zero : Prim2SF 0%float = S754_zero false.
Proof. vm_compute. reflexivity. Qed.

Lemma Prim2SF_infinity : Prim2SF PrimFloat.infinity = S754_infinity false.
Proof. vm_compute. reflexivity. Qed.

Lemma posfin_one : sf_posfin (Prim2SF 1%float).
Proof. vm_compute. reflexivity. Qed.

Lemma posfin_hundred : sf_posfin (Prim2SF 100%float).
Proof. vm_compute. reflexivity. Qed.

Lemma posfin_nonneg (x : spec_float) : sf_posfin x -> sf_nonneg x.
Proof. destruct x; simpl; intros Hx; try contradiction; exact Hx. Qed.

Lemma posfin_nonnegfin (x : spec_float) : sf_posfin x -> sf_nonnegfin x.
Proof. destruct x; simpl; intros Hx; try contradiction; exact Hx. Qed.

Lemma finite_not_infinity (x : float) (s : bool) :
  PrimFloat.is_finite x = true -> Prim2SF x <> S754_infinity s.
Proof.
  unfold PrimFloat.is_finite, PrimFloat.is_infinity. intros Hfin Hx.
  rewrite FloatAxioms.eqb_spec, FloatAxioms.abs_spec, Hx, Prim2SF_infinity in Hfin.
  simpl in Hfin. rewrite orb_true_r in Hfin. discriminate.
Qed.

Lemma finite_not_nan (x : float) :
  PrimFloat.is_finite x = true -> Prim2SF x <> S754_nan.
Proof.
  unfold PrimFloat.is_finite, PrimFloat.is_nan. intros Hfin Hx.
  rewrite FloatAxioms.eqb_spec, Hx in Hfin. simpl in Hfin. discriminate.
Qed.

Lemma posfin_of_price (x : float) :
  is_positive_price x = true -> sf_posfin (Prim2SF x).
Proof.
  unfold is_positive_price. intros H. apply andb_true_iff in H as [Hlt Hfin].
  rewrite FloatAxioms.ltb_spec, Prim2SF_zero in Hlt.
  pose proof (finite_not_infinity x false Hfin) as Hinf.
  destruct (Prim2SF x) as [s|s| |s m e]; simpl in *; try discriminate.
  - destruct s; [discriminate|congruence].
  - destruct s; [discriminate|reflexivity].
Qed.

Lemma nonnegfin_of_multiplier (x : float) :
  is_multiplier x = true -> sf_nonnegfin (Prim2SF x).
Proof.
  unfold is_multiplier. intros H. apply andb_true_iff in H as [Hle Hfin].
  rewrite FloatAxioms.leb_spec, Prim2SF_zero in Hle.
  pose proof (finite_not_infinity x false Hfin) as Hinf.
  destruct (Prim2SF x) as [s|s| |s m e]; simpl in *; try discriminate; auto.
  - destruct s; [discriminate|congruence].
  - destruct s; [discriminate|reflexivity].
Qed.

Lemma truthy_not_zero (x : float) :
  JSNumber.truthy x = true -> sf_nonnegfin (Prim2SF x) -> sf_posfin (Prim2SF x).
Proof.
  unfold JSNumber.truthy, PrimFloat.is_zero, PrimFloat.zero. intros Ht Hx.
  rewrite FloatAxioms.eqb_spec, Prim2SF_zero in Ht.
  destruct (Prim2SF x) as [s|s| |s m e]; simpl in *; try contradiction; auto.
  discriminate.
Qed.

Lemma nonneg_leb (x : float) :
  sf_nonneg (Prim2SF x) -> PrimFloat.leb 0 x = true.
Proof.
  rewrite FloatAxioms.leb_spec, Prim2SF_zero.
  destruct (Prim2SF x) as [s|s| |s m e]; simpl; intros Hx; subst;
    try contradiction; reflexivity.
Qed.

Lemma mul_sign (x y : float) :
  sf_nonneg (Prim2SF x) -> sf_posfin (Prim2SF y) ->
  sf_nonneg (Prim2SF (x * y)%float).
Proof. rewrite FloatAxioms.mul_spec. apply SFmul_sign. Qed.

Lemma mul_sign_fin (x y : float) :
  sf_posfin (Prim2SF x) -> sf_nonnegfin (Prim2SF y) ->
  sf_nonneg (Prim2SF (x * y)%float).
Proof. rewrite FloatAxioms.mul_spec. apply SFmul_sign_fin. Qed.

Lemma div_sign (x y : float) :
  sf_nonneg (Prim2SF x) -> sf_posfin (Prim2SF y) ->
  sf_nonneg (Prim2SF (x / y)%float).
Proof. rewrite FloatAxioms.div_spec. apply SFdiv_sign. Qed.

Lemma ofZ_sign (n : Z) : 0 <= n -> sf_nonneg (Prim2SF (JSNumber.ofZ n)).
Proof.
  intros Hn. destruct n as [|p|p]; [| |lia].
  - unfold JSNumber.ofZ, PrimFloat.zero. rewrite Prim2SF_zero. exact I.
  - unfold JSNumber.ofZ. rewrite FloatAxioms.of_uint63_spec.
    apply binary_normalize_sign.
    pose proof (Uint63.to_Z_bounded (Uint63.of_Z (Z.pos p))). lia.
Qed.

Lemma Math_round_sign (x : float) :
  sf_nonneg (Prim2SF x) -> sf_nonneg (Prim2SF (JSNumber.Math_round x)).
Proof.
  intros Hx. unfold JSNumber.Math_round.
  destruct (Prim2SF x) as [s|s| |s m e] eqn:Hp; try (rewrite Hp; exact Hx).
  simpl in Hx. subst s.
  destruct (0 <=? e); [rewrite Hp; reflexivity|].
  apply ofZ_sign.
  assert (0 <= Z.shiftr (Z.pos m) (- e)) by (apply Z.shiftr_nonneg; lia).
  destruct (_ <=? _); lia.
Qed.

(** ** The pricing engine *)

Section Pricing.
Context {E : Type} `{Logger E} `{Runtime E}.

(** [calculateLeasingCost] never throws, and only writes a log entry.
    For a finite price above 0, finite multipliers that are not negative
    and a tier that is configured or does not name a member of
    [Object.prototype], the cost is a number, and it is at least 0. *)
Theorem leasing_cost_is_not_negative (config : LeasingConfig.t) (price : float)
    (startDate endDate : loc) (employeeType : string) (w : World E) :
  is_positive_price price = true ->
  is_multiplier (LeasingConfig.longTermDiscount config) = true ->
  (forall (tier : string) (d : float),
     LeasingConfig.employeeDiscounts config !! tier = Some d ->
     is_multiplier d = true) ->
  (LeasingConfig.employeeDiscounts config !! employeeType = None ->
   JSString.array_includes Object_prototype_members employeeType = false) ->
  exists cost : float,
    calculateLeasingCost config price startDate endDate employeeType w
    = (Return cost,
       mkWorld (dates w) (log LInfo "Cost calculation completed" [] (ext w)))
    /\ JSNumber.ge cost 0 = true.
Proof.
  intros Hprice Hlong Hemp Hown.
  exists (round2
            (price
             * longTermMultiplierOf config
                 (calculateDurationInMonths (dates w) startDate endDate)
             * employeeMultiplierOf config employeeType)%float).
  split; [reflexivity|].
  apply nonneg_leb. unfold round2.
  apply div_sign; [|exact posfin_hundred].
  apply Math_round_sign.
  apply mul_sign; [|exact posfin_hundred].
  apply mul_sign.
  - apply mul_sign_fin; [apply posfin_of_price; exact Hprice|].
    unfold longTermMultiplierOf. destruct (JSNumber.ge _ _).
    + apply nonnegfin_of_multiplier. exact Hlong.
    + apply posfin_nonnegfin. exact posfin_one.
  - unfold employeeMultiplierOf.
    destruct (LeasingConfig.employeeDiscounts config !! employeeType)
      as [d|] eqn:Hd.
    + destruct (JSNumber.truthy d) eqn:Ht; [|exact posfin_one].
      apply truthy_not_zero; [exact Ht|].
      apply nonnegfin_of_multiplier. eapply Hemp. exact Hd.
    + rewrite (Hown eq_refl). exact posfin_one.
Qed.

End Pricing.

Lemma testConfig_multipliers (tier : string) (d : float) :
  LeasingConfig.employeeDiscounts testConfig !! tier = Some d ->
  is_multiplier d = true.
Proof.
  unfold testConfig. cbn [LeasingConfig.employeeDiscounts].
  rewrite !lookup_insert_Some, lookup_empty.
  intros [[_ <-]|[_ [[_ <-]|[_ [[_ <-]|[_ Hd]]]]]];
    try discriminate; vm_compute; reflexivity.
Qed.

(** The test of the two discounts together: 1000 over seventeen months
    for a PREMIUM employee costs 720. *)
Lemma leasing_cost_is_not_negative_witness :
  let w := testWorld "2025-01-01" "2026-06-01" in
  exists cost : float,
    calculateLeasingCost testConfig 1000 0%nat 1%nat "PREMIUM" w
    = (Return cost,
       mkWorld (dates w) (log LInfo "Cost calculation completed" [] (ext w)))
    /\ JSNumber.ge cost 0 = true.
Proof.
  intros w.
  apply (leasing_cost_is_not_negative testConfig 1000 0%nat 1%nat "PREMIUM" w).
  - vm_compute. reflexivity.
  - vm_compute. reflexivity.
  - exact testConfig_multipliers.
  - intros _. vm_compute. reflexivity.
Defined.

(** The tests of the discounts. *)
Example discount_composition :
  let short := testWorld "2025-07-01" "2025-12-01" in
  let long := testWorld "2025-01-01" "2026-06-01" in
  fst (calculateLeasingCost testConfig 1000 0%nat 1%nat "STANDARD" short)
    = Return 1000%float
  /\ fst (calculateLeasingCost testConfig 1000 0%nat 1%nat "PREMIUM" short)
     = Return 900%float
  /\ fst (calculateLeasingCost testConfig 1000 0%nat 1%nat "VIP" short)
     = Return 800%float
  /\ fst (calculateLeasingCost testConfig 1000 0%nat 1%nat "STANDARD" long)
     = Return 800%float
  /\ fst (calculateLeasingCost testConfig 1000 0%nat 1%nat "PREMIUM" long)
     = Return 720%float.
Proof. repeat split; vm_compute; reflexivity. Qed.

(** C6. The cost is not the product rounded half-up to the cent. For a
    price of 1.15 and the PREMIUM multiplier 0.9, the product is 1.035,
    which rounds half-up to 1.04: the code returns 1.03, the product
    computed in binary64 being just below 1.035; the agreement that
    [processLeasingAgreement] returns for such a request has that price.
    Nor is the employee multiplier always the one configured, or 1 for a
    tier that is not configured. With a multiplier of 0 configured for the
    VIP tier, the multiplier applied is 1, and 1000 costs 1000 where
    [1000 * 1 * 0] is 0. For the tier [toString], which is not configured,
    the value read is a member of [Object.prototype], and the cost is
    [NaN]. *)
Theorem leasing_cost_diverges :
  let w := testWorld "2025-07-01" "2025-12-01" in
  ((exists w',
      calculateLeasingCost testConfig 1.15 0%nat 1%nat "PREMIUM" w
      = (Return 1.03%float, w'))
   /\ (exists agreement w',
         processLeasingAgreement testConfig premiumRequest initialWorld
         = (Return agreement, w')
         /\ LeasingAgreement.price agreement = 1.03%float)
   /\ of_cents 115 = 1.15%float
   /\ LeasingConfig.employeeDiscounts testConfig !! "PREMIUM"
      = Some (JSNumber.ofZ 9 / 10)%float
   /\ half_up (115 * 9) 10 = 104
   /\ of_cents 103 = 1.03%float
   /\ PrimFloat.eqb (of_cents 103) (of_cents 104) = false)
  /\ (exists w',
        LeasingConfig.employeeDiscounts freeForVipConfig !! "VIP" = Some 0%float
        /\ calculateLeasingCost freeForVipConfig 1000 0%nat 1%nat "VIP" w
           = (Return 1000%float, w')
        /\ PrimFloat.eqb (round2 (1000 * 1 * 0)%float) 0 = true)
  /\ (exists cost w',
        LeasingConfig.employeeDiscounts testConfig !! "toString" = None
        /\ calculateLeasingCost testConfig 1000 0%nat 1%nat "toString" w
           = (Return cost, w')
        /\ JSNumber.isNaN cost = true).
Proof.
  intros w. split; [|split].
  - split; [eexists; vm_compute; reflexivity|].
    split; [eexists; eexists; split; vm_compute; reflexivity|].
    repeat split; vm_compute; reflexivity.
  - eexists. repeat split; vm_compute; reflexivity.
  - eexists. eexists. split; [vm_compute; reflexivity|].
    split; vm_compute; reflexivity.
Qed.

(** ** The properties above, on the inputs of the tests *)

(** January 2025 alone: no payment. *)
Lemma no_payment_no_entry_witness :
  exists w',
    generatePaymentSchedule (testAgreement 100) "MONTHLY"
      (testWorld "2025-01-01" "2025-01-31") = (Return [], w').
Proof.
  apply (no_payment_no_entry (testAgreement 100) "MONTHLY"
           (testWorld "2025-01-01" "2025-01-31") 0).
  - vm_compute. reflexivity.
  - lia.
Defined.

(** With the clock at noon of 15 June 2025, a lease that starts on
    1 January 2026 is refused for its duration exactly when it ends after
    noon of 15 June 2030. *)
Lemma duration_exceeded_iff_witness :
  (exists e,
     fst (Validator.validateDateRange 1767225600000 1914451200000 initialWorld)
       = Throw e
     /\ code e = Some "DURATION_EXCEEDED")
  <-> JSDate.gt (Some 1914451200000)
        (JSDate.setFullYear LocalTZA (Some (clock initialEnv))
           (int_add (JSDate.getFullYear LocalTZA (Some (clock initialEnv)))
              (Some 5))) = true.
Proof.
  apply (duration_exceeded_iff 1767225600000 1914451200000 initialWorld
           (clock initialEnv) (clock initialEnv) initialEnv initialEnv);
    vm_compute; reflexivity.
Defined.

(* ===================================================================== *)
(** * Part III. Properties of the rest of the validator, of the lease in
      calendar months, of the other failures of the saga, of the
      controller and of the configuration *)
(* ===================================================================== *)

(** ** Strings and [sanitizeString] *)

Section Strings.
Import JSString.

Lemma chars_rev_onto (s acc : string) :
  list_ascii_of_string (rev_onto s acc)
  = (rev (list_ascii_of_string s) ++ list_ascii_of_string acc)%list.
Proof.
  revert acc. induction s as [|c s IH]; intros acc; [reflexivity|].
  cbn [rev_onto list_ascii_of_string rev]. rewrite IH.
  cbn [list_ascii_of_string]. rewrite <- app_assoc. reflexivity.
Qed.

Lemma chars_reverse (s : string) :
  list_ascii_of_string (reverse s) = rev (list_ascii_of_string s).
Proof. unfold reverse. rewrite chars_rev_onto. apply app_nil_r. Qed.

Lemma chars_inj (s t : string) :
  list_ascii_of_string s = list_ascii_of_string t -> s = t.
Proof.
  intros Hst. rewrite <- (string_of_list_ascii_of_string s),
    <- (string_of_list_ascii_of_string t), Hst. reflexivity.
Qed.

Lemma reverse_involutive (s : string) : reverse (reverse s) = s.
Proof. apply chars_inj. rewrite !chars_reverse. apply rev_involutive. Qed.

(** *** Stripping a class of characters from the front *)

Section Strip.
Variable w1 : ascii -> bool.
Variable w2 : ascii -> ascii -> bool.
Variable w3 : ascii -> ascii -> ascii -> bool.

Lemma strip_fixed (s : string) :
  heads w1 w2 w3 s = false -> strip w1 w2 w3 s = s.
Proof.
  destruct s as [|c1 [|c2 [|c3 r]]]; cbn [heads strip]; [reflexivity| | |].
  - rewrite orb_false_r. intros ->. reflexivity.
  - rewrite orb_false_r. intros [-> ->]%orb_false_iff. reflexivity.
  - intros [-> [-> ->]%orb_false_iff]%orb_false_iff. reflexivity.
Qed.

Lemma strip_spec_bounded (n : nat) :
  forall s : string,
    (String.length s <= n)%nat ->
    heads w1 w2 w3 (strip w1 w2 w3 s) = false
    /\ exists p,
         list_ascii_of_string s
         = (p ++ list_ascii_of_string (strip w1 w2 w3 s))%list.
Proof.
  induction n as [|n IH]; intros s Hn.
  - destruct s; [|simpl in Hn; lia]. split; [reflexivity|]. exists []. reflexivity.
  - destruct s as [|c1 r1]; [split; [reflexivity|exists []; reflexivity]|].
    cbn [String.length] in Hn. cbn [strip].
    destruct (w1 c1) eqn:H1.
    { destruct (IH r1 ltac:(lia)) as [Hh [p Hp]]. split; [exact Hh|].
      exists (c1 :: p). cbn [list_ascii_of_string app]. rewrite Hp. reflexivity. }
    destruct r1 as [|c2 r2].
    { split; [cbn [heads]; rewrite H1; reflexivity|]. exists []. reflexivity. }
    cbn [String.length] in Hn.
    destruct (w2 c1 c2) eqn:H2.
    { destruct (IH r2 ltac:(lia)) as [Hh [p Hp]]. split; [exact Hh|].
      exists (c1 :: c2 :: p). cbn [list_ascii_of_string app]. rewrite Hp.
      reflexivity. }
    destruct r2 as [|c3 r3].
    { split; [cbn [heads]; rewrite H1, H2; reflexivity|]. exists []. reflexivity. }
    cbn [String.length] in Hn.
    destruct (w3 c1 c2 c3) eqn:H3.
    { destruct (IH r3 ltac:(lia)) as [Hh [p Hp]]. split; [exact Hh|].
      exists (c1 :: c2 :: c3 :: p). cbn [list_ascii_of_string app]. rewrite Hp.
      reflexivity. }
    split; [cbn [heads]; rewrite H1, H2, H3; reflexivity|]. exists []. reflexivity.
Qed.

(** What is left starts with no character of the class, and is the end
    of the string. *)
Lemma strip_spec (s : string) :
  heads w1 w2 w3 (strip w1 w2 w3 s) = false
  /\ exists p,
       list_ascii_of_string s
       = (p ++ list_ascii_of_string (strip w1 w2 w3 s))%list.
Proof. apply (strip_spec_bounded (String.length s)). lia. Qed.

(** A string starts as its beginnings start. *)
Lemma heads_app (s : string) (u v : list ascii) :
  list_ascii_of_string s = (u ++ v)%list ->
  heads w1 w2 w3 (string_of_list_ascii u) = true ->
  heads w1 w2 w3 s = true.
Proof.
  intros Hs Hu. rewrite <- (string_of_list_ascii_of_string s), Hs.
  destruct u as [|c1 [|c2 [|c3 u]]]; cbn [heads string_of_list_ascii app] in *.
  - discriminate.
  - rewrite orb_false_r in Hu. rewrite Hu. reflexivity.
  - rewrite orb_false_r in Hu. apply orb_true_iff in Hu as [->| ->];
      [reflexivity|]. rewrite orb_true_r. destruct v; reflexivity.
  - exact Hu.
Qed.

End Strip.

Lemma trimStart_spec (s : string) :
  starts_with_whitespace (trimStart s) = false
  /\ exists p, list_ascii_of_string s = (p ++ list_ascii_of_string (trimStart s))%list.
Proof. apply strip_spec. Qed.

Lemma trimEnd_spec (s : string) :
  ends_with_whitespace (trimEnd s) = false
  /\ exists q, list_ascii_of_string s = (list_ascii_of_string (trimEnd s) ++ q)%list.
Proof.
  unfold ends_with_whitespace, trimEnd. rewrite reverse_involutive.
  destruct (strip_spec is_whitespace (fun c2 c1 => is_whitespace2 c1 c2)
              (fun c3 c2 c1 => is_whitespace3 c1 c2 c3) (reverse s))
    as [Hh [p Hp]].
  split; [exact Hh|]. exists (rev p).
  rewrite chars_reverse in Hp. rewrite chars_reverse, <- rev_app_distr, <- Hp.
  symmetry. apply rev_involutive.
Qed.

(** [trim] leaves no white space at either end, and keeps a string that
    has none. *)
Lemma trim_ends (s : string) :
  starts_with_whitespace (trim s) = false
  /\ ends_with_whitespace (trim s) = false.
Proof.
  unfold trim.
  destruct (trimStart_spec s) as [Hu _].
  destruct (trimEnd_spec (trimStart s)) as [Hv [q Hq]].
  split; [|exact Hv].
  destruct (starts_with_whitespace (trimEnd (trimStart s))) eqn:Hs;
    [|reflexivity].
  unfold starts_with_whitespace in *.
  rewrite (heads_app _ _ _ (trimStart s) _ q Hq) in Hu; [discriminate|].
  rewrite string_of_list_ascii_of_string. exact Hs.
Qed.

Lemma trim_fixed (s : string) :
  starts_with_whitespace s = false ->
  ends_with_whitespace s = false ->
  trim s = s.
Proof.
  intros Hs Hr. unfold trim, trimStart.
  rewrite (strip_fixed _ _ _ s Hs). unfold trimEnd.
  rewrite (strip_fixed _ _ _ _ Hr). apply reverse_involutive.
Qed.

Lemma trim_chars (s : string) :
  exists p q,
    list_ascii_of_string s = (p ++ list_ascii_of_string (trim s) ++ q)%list.
Proof.
  unfold trim.
  destruct (trimStart_spec s) as [_ [p Hp]].
  destruct (trimEnd_spec (trimStart s)) as [_ [q Hq]].
  exists p, q. rewrite Hp, Hq. reflexivity.
Qed.

Lemma remove_class_clean (cls : ascii -> bool) (s : string) :
  forallb (fun c => negb (cls c)) (list_ascii_of_string (remove_class cls s))
  = true.
Proof.
  induction s as [|c s IH]; [reflexivity|].
  cbn [remove_class]. destruct (cls c) eqn:Hc; [exact IH|].
  cbn [list_ascii_of_string forallb]. rewrite Hc, IH. reflexivity.
Qed.

Lemma remove_class_fixed (cls : ascii -> bool) (s : string) :
  forallb (fun c => negb (cls c)) (list_ascii_of_string s) = true ->
  remove_class cls s = s.
Proof.
  induction s as [|c s IH]; [reflexivity|].
  cbn [list_ascii_of_string forallb remove_class].
  intros [Hc Hs]%andb_true_iff. apply negb_true_iff in Hc. rewrite Hc.
  f_equal. apply IH. exact Hs.
Qed.

Lemma remove_class_keeps (cls other : ascii -> bool) (s : string) :
  forallb (fun c => negb (other c)) (list_ascii_of_string s) = true ->
  forallb (fun c => negb (other c)) (list_ascii_of_string (remove_class cls s))
  = true.
Proof.
  induction s as [|c s IH]; [reflexivity|].
  cbn [list_ascii_of_string forallb remove_class].
  intros [Hc Hs]%andb_true_iff.
  destruct (cls c); [apply IH; exact Hs|].
  cbn [list_ascii_of_string forallb]. rewrite Hc. apply IH. exact Hs.
Qed.

(** *** The length, in code units *)

Lemma code_units_bounds (c : ascii) : 0 <= code_units c <= 2.
Proof.
  unfold code_units.
  destruct (_ <? 128)%nat; [lia|].
  destruct (_ <? 192)%nat; [lia|].
  destruct (_ <? 240)%nat; lia.
Qed.

Lemma length_nonneg (s : string) : 0 <= JSString.length s.
Proof.
  induction s as [|c s IH]; cbn [JSString.length]; [lia|].
  pose proof (code_units_bounds c). lia.
Qed.

Lemma length_of_chars_app (u v : list ascii) :
  JSString.length (string_of_list_ascii (u ++ v))
  = JSString.length (string_of_list_ascii u)
    + JSString.length (string_of_list_ascii v).
Proof.
  induction u as [|c u IH]; cbn [JSString.length string_of_list_ascii app];
    [lia|]. rewrite IH. lia.
Qed.

(** A string of ASCII characters has as many code units as it has
    bytes. *)
Lemma length_ascii (s : string) :
  forallb (fun c => (nat_of_ascii c <? 128)%nat) (list_ascii_of_string s) = true ->
  JSString.length s = Z.of_nat (String.length s).
Proof.
  induction s as [|c s IH]; [reflexivity|].
  cbn [list_ascii_of_string forallb JSString.length String.length].
  intros [Hc Hs]%andb_true_iff. rewrite (IH Hs). unfold code_units.
  rewrite Hc. lia.
Qed.

Lemma remove_class_length (cls : ascii -> bool) (s : string) :
  JSString.length (remove_class cls s) <= JSString.length s.
Proof.
  induction s as [|c s IH]; [reflexivity|].
  cbn [remove_class]. pose proof (code_units_bounds c).
  destruct (cls c); cbn [JSString.length]; lia.
Qed.

Lemma trim_length (s : string) :
  JSString.length (trim s) <= JSString.length s.
Proof.
  destruct (trim_chars s) as (p & q & Hs).
  assert (Hl : JSString.length s
               = JSString.length (string_of_list_ascii (list_ascii_of_string s)))
    by (rewrite string_of_list_ascii_of_string; reflexivity).
  rewrite Hl, Hs, !length_of_chars_app, string_of_list_ascii_of_string.
  pose proof (length_nonneg (string_of_list_ascii p)).
  pose proof (length_nonneg (string_of_list_ascii q)). lia.
Qed.

Lemma trim_keeps (P : ascii -> bool) (s : string) :
  forallb P (list_ascii_of_string s) = true ->
  forallb P (list_ascii_of_string (trim s)) = true.
Proof.
  destruct (trim_chars s) as (p & q & Hs). rewrite Hs, !forallb_app.
  intros [_ [Ht _]%andb_true_iff]%andb_true_iff. exact Ht.
Qed.

End Strings.

Section Sanitize.
Import JSString.

Lemma markup_free_split (s : string) :
  forallb (fun c => negb (is_markup_char c)) (list_ascii_of_string s) = true
  <-> forallb (fun c => negb (is_angle_bracket c)) (list_ascii_of_string s) = true
      /\ forallb (fun c => negb (is_quote_mark c)) (list_ascii_of_string s) = true.
Proof.
  unfold is_markup_char. induction (list_ascii_of_string s) as [|c l IH];
    [simpl; tauto|].
  cbn [forallb]. rewrite !andb_true_iff, IH, negb_orb, andb_true_iff. tauto.
Qed.

Lemma sanitizeString_clean (s : string) :
  is_sanitized (Validator.sanitizeString s) = true.
Proof.
  unfold is_sanitized, Validator.sanitizeString.
  destruct (trim_ends (remove_class is_quote_mark
                         (remove_class is_angle_bracket s))) as [-> ->].
  rewrite !andb_true_r. apply trim_keeps. apply markup_free_split. split.
  - apply remove_class_keeps, remove_class_clean.
  - apply remove_class_clean.
Qed.

Lemma sanitizeString_fixed (s : string) :
  is_sanitized s = true -> Validator.sanitizeString s = s.
Proof.
  unfold is_sanitized, Validator.sanitizeString.
  intros [[Hm Hs]%andb_true_iff Hr]%andb_true_iff.
  apply markup_free_split in Hm as [Ha Hq].
  rewrite (remove_class_fixed _ s Ha), (remove_class_fixed _ s Hq).
  apply trim_fixed; apply negb_true_iff; assumption.
Qed.

(** [sanitizeString]: the result holds no angle bracket and no quotation
    mark and has no white space character at either end (the white space
    of ECMAScript, of one, two or three bytes), whatever the input; it
    has at most the length of the input; the strings returned unchanged
    are exactly those that were in that form already; and sanitizing
    twice is sanitizing once. *)
Theorem sanitizeString_spec (input : string) :
  is_sanitized (Validator.sanitizeString input) = true
  /\ JSString.length (Validator.sanitizeString input) <= JSString.length input
  /\ (Validator.sanitizeString input = input <-> is_sanitized input = true)
  /\ Validator.sanitizeString (Validator.sanitizeString input)
     = Validator.sanitizeString input.
Proof.
  split; [apply sanitizeString_clean|]. split; [|split].
  - unfold Validator.sanitizeString.
    pose proof (trim_length (remove_class is_quote_mark
                               (remove_class is_angle_bracket input))).
    pose proof (remove_class_length is_quote_mark
                  (remove_class is_angle_bracket input)).
    pose proof (remove_class_length is_angle_bracket input). lia.
  - split; [|apply sanitizeString_fixed].
    intros Heq. rewrite <- Heq. apply sanitizeString_clean.
  - apply sanitizeString_fixed, sanitizeString_clean.
Qed.

(** The white space that is not ASCII is stripped as well: a no-break
    space (C2 A0) before and an ideographic space (E3 80 80) after. *)
Example sanitizeString_unicode :
  Validator.sanitizeString
    (String (ascii_of_nat 194) (String (ascii_of_nat 160)
       ("<b>abc</b>"
        ++ String (ascii_of_nat 227) (String (ascii_of_nat 128)
             (String (ascii_of_nat 128) EmptyString)))))
  = "babc/b".
Proof. vm_compute. reflexivity. Qed.

End Sanitize.

(** ** The order of numbers *)

Section FloatOrder.

Lemma Prim2SF_nan_iff (x : float) :
  PrimFloat.is_nan x = true <-> Prim2SF x = S754_nan.
Proof.
  unfold PrimFloat.is_nan. rewrite FloatAxioms.eqb_spec.
  destruct (Prim2SF x) as [s|s| |s m e]; simpl.
  - split; discriminate.
  - destruct s; split; discriminate.
  - split; reflexivity.
  - unfold SFeqb, SFcompare.
    destruct s; rewrite Z.compare_refl; try rewrite Pos.compare_cont_refl;
      try rewrite Pos.compare_refl; simpl.
    all: split; discriminate.
Qed.

Lemma SFcompare_antisym (x y : spec_float) (c : comparison) :
  SFcompare x y = Some c -> SFcompare y x = Some (CompOpp c).
Proof.
  destruct x as [s1|s1| |s1 m1 e1], y as [s2|s2| |s2 m2 e2]; simpl;
    try discriminate;
    try (intros [= <-]; repeat match goal with s : bool |- _ => destruct s end;
         reflexivity).
  intros [= <-]. f_equal.
  rewrite (Z.compare_antisym e1 e2).
  destruct s1, s2; try reflexivity;
    destruct (e1 ?= e2); simpl; try reflexivity;
    rewrite (Pos.compare_cont_antisym m1 m2 Eq); simpl;
    try rewrite CompOpp_involutive; reflexivity.
Qed.

(** On numbers, [x > y] false and neither being [NaN] give [x <= y]. *)
Lemma not_gt_le (x y : float) :
  PrimFloat.is_nan x = false -> PrimFloat.is_nan y = false ->
  PrimFloat.ltb y x = false -> PrimFloat.leb x y = true.
Proof.
  intros Hx Hy. rewrite FloatAxioms.ltb_spec, FloatAxioms.leb_spec.
  unfold SFltb, SFleb.
  destruct (SFcompare (Prim2SF y) (Prim2SF x)) as [c|] eqn:Hc.
  - rewrite (SFcompare_antisym _ _ _ Hc). destruct c; simpl; congruence.
  - exfalso.
    assert (Hnx : Prim2SF x <> S754_nan).
    { intros Hn. apply Prim2SF_nan_iff in Hn. congruence. }
    assert (Hny : Prim2SF y <> S754_nan).
    { intros Hn. apply Prim2SF_nan_iff in Hn. congruence. }
    destruct (Prim2SF y), (Prim2SF x); simpl in Hc; congruence.
Qed.

(** A number that is not [NaN], not at most 0 and not above a finite
    bound is a finite number above 0. *)
Lemma positive_price_of_checks (x bound : float) :
  PrimFloat.is_finite bound = true ->
  PrimFloat.is_nan x = false ->
  PrimFloat.leb x 0 = false ->
  PrimFloat.ltb bound x = false ->
  is_positive_price x = true.
Proof.
  intros Hb Hnan Hle Hgt.
  unfold is_positive_price, PrimFloat.is_finite, PrimFloat.is_infinity.
  rewrite Hnan. cbn [orb].
  rewrite FloatAxioms.ltb_spec, FloatAxioms.eqb_spec, FloatAxioms.abs_spec,
    Prim2SF_zero, Prim2SF_infinity.
  rewrite FloatAxioms.leb_spec, Prim2SF_zero in Hle.
  rewrite FloatAxioms.ltb_spec in Hgt.
  pose proof (finite_not_infinity bound false Hb) as Hb1.
  pose proof (finite_not_infinity bound true Hb) as Hb2.
  pose proof (finite_not_nan bound Hb) as Hb3.
  assert (Hnx : Prim2SF x <> S754_nan).
  { intros Hn. apply Prim2SF_nan_iff in Hn. congruence. }
  destruct (Prim2SF x) as [s|s| |s m e]; simpl in *; try discriminate;
    try congruence.
  - destruct s; [discriminate|].
    destruct (Prim2SF bound) as [s'|s'| |s' m' e']; simpl in *;
      try discriminate; try congruence; destruct s'; congruence.
  - destruct s; [discriminate|]. reflexivity.
Qed.

End FloatOrder.

Section ValidatorSoundness.
Context {E : Type} `{Runtime E}.
Import JSString.

Lemma id_char_is_plain (c : ascii) :
  is_id_char c = true ->
  is_markup_char c = false /\ is_whitespace c = false
  /\ (nat_of_ascii c <? 128)%nat = true.
Proof.
  destruct c as [[] [] [] [] [] [] [] []]; vm_compute; intros Hc;
    try discriminate Hc; repeat split; reflexivity.
Qed.

(** The white space characters of more than one byte are made of bytes
    from 128 on. *)
Lemma whitespace2_high (c1 c2 : ascii) :
  is_whitespace2 c1 c2 = true ->
  (128 <= nat_of_ascii c1)%nat /\ (128 <= nat_of_ascii c2)%nat.
Proof.
  unfold is_whitespace2. rewrite andb_true_iff, !Nat.eqb_eq. lia.
Qed.

Lemma whitespace3_high (c1 c2 c3 : ascii) :
  is_whitespace3 c1 c2 c3 = true ->
  (128 <= nat_of_ascii c1)%nat /\ (128 <= nat_of_ascii c3)%nat.
Proof.
  unfold is_whitespace3.
  rewrite !orb_true_iff, !andb_true_iff, !orb_true_iff, !andb_true_iff,
    !Nat.eqb_eq, !Nat.leb_le. lia.
Qed.

(** A string whose first byte is below 128 and is no white space starts
    with no white space; so for the last byte and the end. *)
Lemma low_start (c : ascii) (r : string) :
  is_whitespace c = false -> (nat_of_ascii c <? 128)%nat = true ->
  starts_with_whitespace (String c r) = false.
Proof.
  intros Hw Hc. apply Nat.ltb_lt in Hc.
  unfold starts_with_whitespace. cbn [heads]. rewrite Hw. cbn [orb].
  destruct r as [|c2 r]; [reflexivity|].
  destruct (is_whitespace2 c c2) eqn:H2;
    [apply whitespace2_high in H2; lia|]. cbn [orb].
  destruct r as [|c3 r]; [reflexivity|].
  destruct (is_whitespace3 c c2 c3) eqn:H3;
    [apply whitespace3_high in H3; lia|]. reflexivity.
Qed.

Lemma low_end (s : string) (c : ascii) (r : string) :
  reverse s = String c r ->
  is_whitespace c = false -> (nat_of_ascii c <? 128)%nat = true ->
  ends_with_whitespace s = false.
Proof.
  intros Hs Hw Hc. apply Nat.ltb_lt in Hc.
  unfold ends_with_whitespace. rewrite Hs. cbn [heads]. rewrite Hw. cbn [orb].
  destruct r as [|c2 r]; [reflexivity|].
  destruct (is_whitespace2 c2 c) eqn:H2;
    [apply whitespace2_high in H2; lia|]. cbn [orb].
  destruct r as [|c3 r]; [reflexivity|].
  destruct (is_whitespace3 c3 c2 c) eqn:H3;
    [apply whitespace3_high in H3; lia|]. reflexivity.
Qed.

Lemma id_chars_sanitized (s : string) :
  forallb is_id_char (list_ascii_of_string s) = true -> is_sanitized s = true.
Proof.
  intros Hs. unfold is_sanitized.
  assert (Hall : forall c, In c (list_ascii_of_string s) ->
                           is_markup_char c = false /\ is_whitespace c = false
                           /\ (nat_of_ascii c <? 128)%nat = true).
  { intros c Hc. apply id_char_is_plain.
    rewrite forallb_forall in Hs. apply Hs. exact Hc. }
  apply andb_true_iff. split; [apply andb_true_iff; split|].
  - apply forallb_forall. intros c Hc. apply negb_true_iff, Hall, Hc.
  - apply negb_true_iff. destruct s as [|c s]; [reflexivity|].
    apply low_start; apply (Hall c); left; reflexivity.
  - apply negb_true_iff.
    destruct (reverse s) as [|c r] eqn:Hr.
    + unfold ends_with_whitespace. rewrite Hr. reflexivity.
    + apply (low_end s c r Hr); apply (Hall c); apply in_rev;
        rewrite <- chars_reverse, Hr; left; reflexivity.
Qed.

(** Identifiers made of letters, digits, underscores and hyphens have as
    many code units as bytes. *)
Lemma id_chars_length (s : string) :
  forallb is_id_char (list_ascii_of_string s) = true ->
  JSString.length s = Z.of_nat (String.length s).
Proof.
  intros Hs. apply length_ascii. apply forallb_forall. intros c Hc.
  apply id_char_is_plain. rewrite forallb_forall in Hs. apply Hs. exact Hc.
Qed.

(** What [validateIdFormat] accepts: it returns exactly on the strings
    of 3 to 50 characters that are all letters, digits, underscores or
    hyphens, and leaves the world as it was; the wrong length is
    reported before the wrong characters. An accepted identifier is
    returned unchanged by [sanitizeString]. *)
Theorem validateIdFormat_accepts (id fieldName : string) (w : World E) :
  let ok := (3 <=? JSString.length id) && (JSString.length id <=? 50) in
  let plain := forallb is_id_char (list_ascii_of_string id) in
  Validator.validateIdFormat id fieldName w
  = ((if negb ok then
        Throw (ValidationError
                 (fieldName ++ " must be between 3 and 50 characters")
                 fieldName "INVALID_LENGTH")
      else if negb plain then
        Throw (ValidationError (fieldName ++ " contains invalid characters")
                 fieldName "INVALID_FORMAT")
      else Return tt), w)
  /\ (ok && plain = true -> Validator.sanitizeString id = id).
Proof.
  intros ok plain. split.
  - unfold Validator.validateIdFormat, ok, plain, matches_id_pattern.
    destruct (Z.ltb_spec (JSString.length id) 3) as [H3|H3];
      destruct (Z.ltb_spec 50 (JSString.length id)) as [H50|H50];
      destruct (Z.leb_spec 3 (JSString.length id));
      destruct (Z.leb_spec (JSString.length id) 50); try lia;
      cbn [orb andb negb]; try reflexivity.
    destruct id as [|c id]; [unfold JSString.length in *; simpl in *; lia|].
    cbn [is_empty negb andb].
    destruct (forallb is_id_char _); reflexivity.
  - intros [_ Hp]%andb_true_iff.
    apply sanitizeString_fixed, id_chars_sanitized, Hp.
Qed.

End ValidatorSoundness.

(** ** The date range *)

Section DateRange.
Context {E : Type} `{Runtime E}.
Import JSDate.

Lemma setDate_plus (tza t k : Z) :
  setDate tza (Some t) (int_add (getDate tza (Some t)) (Some k))
  = TimeClip (t + k * msPerDay).
Proof.
  unfold setDate, getDate, int_add. cbn [mbind option_bind].
  f_equal.
  pose proof (MakeDay_fields (LocalTime tza t)) as Hf.
  pose proof (MakeDate_Day (LocalTime tza t)) as Hd.
  unfold MakeDay in *. unfold MakeDate, UTC, LocalTime in *. lia.
Qed.

Lemma startOfDay_Some (tza t : Z) :
  startOfDay tza (Some t)
  = TimeClip (t - TimeWithinDay (LocalTime tza t)).
Proof.
  unfold startOfDay. cbn [mbind option_bind]. f_equal.
  unfold UTC, LocalTime. lia.
Qed.

(** The dates [validateDateRange] accepts, in a time zone whose offset
    from UTC is constant (the [LocalTZA] of the run-time; a change of
    offset, as with daylight saving, is not modelled, and a day of the
    local calendar is then always 86400000 ms). With the start of the
    current local day and the start date moved thirty days forward both
    in the range of time values, the lease is accepted exactly when it
    starts no earlier than the start of the current local day, ends at
    least thirty days after it starts, on the local clock, and does not
    end after the current instant moved five years forward. (An end that
    is not after the start is refused first, and is among the ends that
    come less than thirty days after the start.) *)
Theorem date_range_accepted_iff (startDate endDate : Z) (w : World E)
    (now now' : Z) (e1 e2 : E) :
  Date_now (ext w) = (now, e1) ->
  Date_now e1 = (now', e2) ->
  let today := now - TimeWithinDay (LocalTime LocalTZA now) in
  let maxFutureDate :=
    setFullYear LocalTZA (Some now')
      (int_add (getFullYear LocalTZA (Some now)) (Some 5)) in
  Z.abs today <= maxTime ->
  Z.abs (startDate + 30 * msPerDay) <= maxTime ->
  Validator.validateDateRange startDate endDate w
    = (Return tt, mkWorld (dates w) e2)
  <-> today <= startDate
      /\ LocalTime LocalTZA startDate + 30 * msPerDay
         <= LocalTime LocalTZA endDate
      /\ JSDate.gt (Some endDate) maxFutureDate = false.
Proof.
  intros H1 H2 today maxFutureDate Htoday Hmin.
  unfold Validator.validateDateRange, bind, now_ms, outside.
  destruct w as [h e]. cbn [ext dates] in *.
  rewrite H1. cbn [ext dates]. rewrite H2. cbn [ext dates].
  fold maxFutureDate.
  rewrite startOfDay_Some, setDate_plus. fold today.
  rewrite (TimeClip_Some today Htoday), (TimeClip_Some _ Hmin).
  unfold LocalTime.
  unfold JSDate.lt at 1, JSDate.le.
  assert (Hday : 0 < msPerDay) by (unfold msPerDay; lia).
  destruct (Z.ltb_spec startDate today) as [Hpast|Hpast].
  { split; [discriminate|]. intros (Hc & _). lia. }
  destruct (Z.leb_spec endDate startDate) as [Hrange|Hrange].
  { split; [discriminate|]. intros (_ & Hc & _). lia. }
  destruct (JSDate.gt (Some endDate) maxFutureDate) eqn:Hgt.
  { split; [discriminate|]. intros (_ & _ & Hc). discriminate. }
  unfold JSDate.lt.
  destruct (Z.ltb_spec endDate (startDate + 30 * msPerDay)) as [Hshort|Hshort].
  { split; [discriminate|]. intros (_ & Hc & _). lia. }
  split; [|reflexivity]. intros _. repeat split; lia.
Qed.

End DateRange.

(** ** The outcome of each check of the validator *)

Section ValidationOutcome.
Context {E : Type} `{Runtime E}.
Import JSString.

Lemma is_validation_error_weaken (fields codes fields' codes' : list string)
    (err : JSError) :
  incl fields fields' -> incl codes codes' ->
  is_validation_error fields codes err ->
  is_validation_error fields' codes' err.
Proof.
  intros Hf Hc. destruct err; simpl; try tauto.
  intros [H1 H2]. split; [apply Hf, H1|apply Hc, H2].
Qed.

Lemma array_includes_In (l : list string) (s : string) :
  array_includes l s = true <-> In s l.
Proof.
  unfold array_includes. rewrite existsb_exists. split.
  - intros (x & Hx & Heq). apply String.eqb_eq in Heq. subst. exact Hx.
  - intros Hs. exists s. split; [exact Hs|apply String.eqb_refl].
Qed.

Lemma validateAndParseDate_outcome (dateString fieldName : string) (w : World E) :
  exists r, Validator.validateAndParseDate dateString fieldName w = (r, w)
    /\ match r with
       | Return date => Date_parse dateString = Some date
       | Throw err =>
           is_validation_error [fieldName] ["REQUIRED"; "INVALID_FORMAT"] err
       end.
Proof.
  unfold Validator.validateAndParseDate.
  destruct (is_empty (trim dateString)).
  - eexists. split; [reflexivity|]. simpl. tauto.
  - destruct (Date_parse dateString) as [date|].
    + eexists. split; reflexivity.
    + eexists. split; [reflexivity|]. simpl. tauto.
Qed.

Lemma validateDateRange_outcome (startDate endDate : Z) (w : World E) :
  exists r,
    Validator.validateDateRange startDate endDate w
    = (r, mkWorld (dates w) (snd (Date_now (snd (Date_now (ext w))))))
    /\ match r with
       | Return _ => True
       | Throw err =>
           is_validation_error ["startDate"; "endDate"]
             ["PAST_DATE"; "INVALID_RANGE"; "DURATION_EXCEEDED";
              "DURATION_TOO_SHORT"] err
       end.
Proof.
  unfold Validator.validateDateRange, bind, now_ms, outside.
  destruct w as [h e]. cbn [ext dates].
  destruct (Date_now e) as [now e1]. cbn [ext dates snd].
  destruct (Date_now e1) as [now' e2]. cbn [ext dates snd].
  repeat match goal with
         | |- context [if ?b then _ else _] => destruct b
         end;
    (eexists; split; [reflexivity|]; simpl; tauto).
Qed.

Lemma million_finite : PrimFloat.is_finite 1000000 = true.
Proof. vm_compute. reflexivity. Qed.

Lemma validatePrice_outcome (price : float) (w : World E) :
  exists r, Validator.validatePrice price w = (r, w)
    /\ match r with
       | Return _ =>
           is_positive_price price = true
           /\ JSNumber.le price 1000000 = true
       | Throw err =>
           is_validation_error ["price"]
             ["INVALID_TYPE"; "INVALID_VALUE"; "EXCEEDS_LIMIT";
              "INVALID_PRECISION"] err
       end.
Proof.
  unfold Validator.validatePrice, JSNumber.isNaN, JSNumber.le, JSNumber.gt.
  destruct (PrimFloat.is_nan price) eqn:Hnan;
    [eexists; split; [reflexivity|]; simpl; tauto|].
  destruct (PrimFloat.leb price 0) eqn:Hle;
    [eexists; split; [reflexivity|]; simpl; tauto|].
  destruct (PrimFloat.ltb 1000000 price) eqn:Hgt;
    [eexists; split; [reflexivity|]; simpl; tauto|].
  destruct (_ && _);
    [eexists; split; [reflexivity|]; simpl; tauto|].
  eexists. split; [reflexivity|]. split.
  - apply (positive_price_of_checks price 1000000 million_finite Hnan Hle Hgt).
  - apply not_gt_le; [exact Hnan|vm_compute; reflexivity|exact Hgt].
Qed.

Lemma validateCurrency_outcome (currency : string) (w : World E) :
  exists r, Validator.validateCurrency currency w = (r, w)
    /\ match r with
       | Return _ => In currency ["USD"; "EUR"; "GBP"; "CAD"]
       | Throw err =>
           is_validation_error ["currency"] ["UNSUPPORTED_CURRENCY"] err
       end.
Proof.
  unfold Validator.validateCurrency.
  destruct (array_includes _ currency) eqn:Hc; cbn [negb].
  - eexists. split; [reflexivity|]. apply array_includes_In. exact Hc.
  - eexists. split; [reflexivity|]. simpl. tauto.
Qed.

Lemma validatePaymentFrequency_outcome (frequency : string) (w : World E) :
  exists r, Validator.validatePaymentFrequency frequency w = (r, w)
    /\ match r with
       | Return _ => In frequency ["MONTHLY"; "QUARTERLY"; "ANNUALLY"]
       | Throw err =>
           is_validation_error ["paymentFrequency"] ["INVALID_FREQUENCY"] err
       end.
Proof.
  unfold Validator.validatePaymentFrequency.
  destruct (array_includes _ frequency) eqn:Hc; cbn [negb].
  - eexists. split; [reflexivity|]. apply array_includes_In. exact Hc.
  - eexists. split; [reflexivity|]. simpl. tauto.
Qed.

Lemma validateIdFormat_outcome (id fieldName : string) (w : World E) :
  exists r, Validator.validateIdFormat id fieldName w = (r, w)
    /\ match r with
       | Return _ => is_valid_id id = true
       | Throw err =>
           is_validation_error [fieldName]
             ["INVALID_LENGTH"; "INVALID_FORMAT"] err
       end.
Proof.
  unfold Validator.validateIdFormat, is_valid_id, matches_id_pattern.
  destruct (Z.ltb_spec (JSString.length id) 3) as [H3|H3];
    [eexists; split; [reflexivity|]; simpl; tauto|].
  destruct (Z.ltb_spec 50 (JSString.length id)) as [H50|H50];
    [eexists; split; [reflexivity|]; simpl; tauto|].
  cbn [orb].
  destruct (Z.leb_spec 3 (JSString.length id)); [|lia].
  destruct (Z.leb_spec (JSString.length id) 50); [|lia].
  destruct id as [|c id]; [unfold JSString.length in *; simpl in *; lia|].
  cbn [is_empty negb andb].
  destruct (forallb is_id_char _);
    eexists; (split; [reflexivity|]); simpl; tauto.
Qed.

End ValidationOutcome.

Section RequestValidation.
Context {E : Type} `{Runtime E}.

Lemma incl_decide (l l' : list string) :
  forallb (fun x => existsb (String.eqb x) l') l = true -> incl l l'.
Proof.
  intros Hl x Hx. rewrite forallb_forall in Hl. specialize (Hl x Hx).
  apply existsb_exists in Hl as (y & Hy & Heq).
  apply String.eqb_eq in Heq. subst. exact Hy.
Qed.

Ltac classified Herr :=
  eapply is_validation_error_weaken; [| |exact Herr];
  apply incl_decide; vm_compute; reflexivity.

Lemma validateCreateAgreementRequest_outcome (request : CreateAgreementRequest.t) (w : World E) :
  exists r w',
    Validator.validateCreateAgreementRequest request w = (r, w')
    /\ dates w' = dates w
    /\ (ext w' = ext w \/ ext w' = snd (Date_now (snd (Date_now (ext w)))))
    /\ match r with
       | Return _ =>
           is_valid_id (CreateAgreementRequest.employeeId request) = true
           /\ is_valid_id (CreateAgreementRequest.itemId request) = true
           /\ is_valid_id (CreateAgreementRequest.companyId request) = true
           /\ (exists startDate endDate,
                 Date_parse (CreateAgreementRequest.startDate request)
                 = Some startDate
                 /\ Date_parse (CreateAgreementRequest.endDate request)
                    = Some endDate
                 /\ fst (Validator.validateDateRange startDate endDate w)
                    = Return tt)
           /\ is_positive_price (CreateAgreementRequest.price request) = true
           /\ JSNumber.le (CreateAgreementRequest.price request) 1000000 = true
           /\ In (CreateAgreementRequest.currency request)
                ["USD"; "EUR"; "GBP"; "CAD"]
           /\ In (CreateAgreementRequest.paymentFrequency request)
                ["MONTHLY"; "QUARTERLY"; "ANNUALLY"]
       | Throw err => is_validation_error requestFields validationCodes err
       end.
Proof.
  unfold Validator.validateCreateAgreementRequest.
  destruct (JSString.is_empty (JSString.trim _));
    [eexists; eexists; split; [reflexivity|]; vm_compute; tauto|].
  destruct (JSString.is_empty (JSString.trim _));
    [eexists; eexists; split; [reflexivity|]; vm_compute; tauto|].
  destruct (JSString.is_empty (JSString.trim _));
    [eexists; eexists; split; [reflexivity|]; vm_compute; tauto|].
  unfold bind at 1.
  destruct (validateAndParseDate_outcome
              (CreateAgreementRequest.startDate request) "startDate" w)
    as ([startDate|err] & -> & Hs);
    [|eexists; eexists; split; [reflexivity|];
      split; [reflexivity|]; split; [left; reflexivity|]; classified Hs].
  unfold bind at 1.
  destruct (validateAndParseDate_outcome
              (CreateAgreementRequest.endDate request) "endDate" w)
    as ([endDate|err] & -> & He);
    [|eexists; eexists; split; [reflexivity|];
      split; [reflexivity|]; split; [left; reflexivity|]; classified He].
  unfold bind at 1.
  destruct (validateDateRange_outcome startDate endDate w)
    as ([[]|err] & Hrange & Hr); rewrite Hrange;
    [|eexists; eexists; split; [reflexivity|];
      split; [reflexivity|]; split; [right; reflexivity|]; classified Hr].
  set (w1 := mkWorld (dates w) _).
  unfold bind at 1.
  destruct (validatePrice_outcome (CreateAgreementRequest.price request) w1)
    as ([[]|err] & -> & Hp);
    [|eexists; eexists; split; [reflexivity|];
      split; [reflexivity|]; split; [right; reflexivity|]; classified Hp].
  unfold bind at 1.
  destruct (validateCurrency_outcome
              (CreateAgreementRequest.currency request) w1)
    as ([[]|err] & -> & Hc);
    [|eexists; eexists; split; [reflexivity|];
      split; [reflexivity|]; split; [right; reflexivity|]; classified Hc].
  unfold bind at 1.
  destruct (validatePaymentFrequency_outcome
              (CreateAgreementRequest.paymentFrequency request) w1)
    as ([[]|err] & -> & Hf);
    [|eexists; eexists; split; [reflexivity|];
      split; [reflexivity|]; split; [right; reflexivity|]; classified Hf].
  unfold bind at 1.
  destruct (validateIdFormat_outcome
              (CreateAgreementRequest.employeeId request) "employeeId" w1)
    as ([[]|err] & -> & Hi1);
    [|eexists; eexists; split; [reflexivity|];
      split; [reflexivity|]; split; [right; reflexivity|]; classified Hi1].
  unfold bind at 1.
  destruct (validateIdFormat_outcome
              (CreateAgreementRequest.itemId request) "itemId" w1)
    as ([[]|err] & -> & Hi2);
    [|eexists; eexists; split; [reflexivity|];
      split; [reflexivity|]; split; [right; reflexivity|]; classified Hi2].
  destruct (validateIdFormat_outcome
              (CreateAgreementRequest.companyId request) "companyId" w1)
    as ([[]|err] & -> & Hi3);
    [|eexists; eexists; split; [reflexivity|];
      split; [reflexivity|]; split; [right; reflexivity|]; classified Hi3].
  eexists. eexists. split; [reflexivity|].
  split; [reflexivity|]. split; [right; reflexivity|].
  destruct Hp as [Hp1 Hp2].
  repeat (split; [assumption|]).
  split; [|repeat (split; [assumption|]); assumption].
  exists startDate, endDate. rewrite Hrange. repeat split; assumption.
Qed.

(** What a validated request satisfies. When
    [validateCreateAgreementRequest] returns, it has created and changed
    no date; the three identifiers have 3 to 50 characters that are
    letters, digits, underscores or hyphens; both dates are parsed, and
    accepted by [validateDateRange]; the price is a finite number above
    0 and at most 1000000; the currency is one of USD, EUR, GBP and CAD;
    and the frequency is one of MONTHLY, QUARTERLY and ANNUALLY, so that
    the interval of the schedule is never the one of the default
    branch of [getIntervalMonths]. *)
Theorem validated_request (request : CreateAgreementRequest.t)
    (w w' : World E) :
  Validator.validateCreateAgreementRequest request w = (Return tt, w') ->
  dates w' = dates w
  /\ is_valid_id (CreateAgreementRequest.employeeId request) = true
  /\ is_valid_id (CreateAgreementRequest.itemId request) = true
  /\ is_valid_id (CreateAgreementRequest.companyId request) = true
  /\ (exists startDate endDate,
        Date_parse (CreateAgreementRequest.startDate request) = Some startDate
        /\ Date_parse (CreateAgreementRequest.endDate request) = Some endDate
        /\ fst (Validator.validateDateRange startDate endDate w) = Return tt)
  /\ is_positive_price (CreateAgreementRequest.price request) = true
  /\ JSNumber.le (CreateAgreementRequest.price request) 1000000 = true
  /\ In (CreateAgreementRequest.currency request) ["USD"; "EUR"; "GBP"; "CAD"]
  /\ (let frequency := CreateAgreementRequest.paymentFrequency request in
      (frequency = "MONTHLY"
       /\ LeasingAgreementService.getIntervalMonths frequency = 1)
      \/ (frequency = "QUARTERLY"
          /\ LeasingAgreementService.getIntervalMonths frequency = 3)
      \/ (frequency = "ANNUALLY"
          /\ LeasingAgreementService.getIntervalMonths frequency = 12)).
Proof.
  intros Hv.
  destruct (validateCreateAgreementRequest_outcome request w)
    as (r & w1 & Hr & Hdates & _ & Hp).
  rewrite Hv in Hr. injection Hr as <- <-.
  destruct Hp as (Hi1 & Hi2 & Hi3 & Hd & Hp1 & Hp2 & Hc & Hf).
  repeat (split; [assumption|]).
  cbn zeta. simpl in Hf.
  destruct Hf as [<-|[<-|[<-|[]]]]; [left|right; left|right; right];
    split; reflexivity.
Qed.

End RequestValidation.

(** ** Calendar months *)

Section CalendarMonths.
Import JSDate.

Lemma MakeDay_index (y1 m1 y2 m2 dt : Z) :
  12 * y1 + m1 = 12 * y2 + m2 -> MakeDay y1 m1 dt = MakeDay y2 m2 dt.
Proof.
  intros Hi. unfold MakeDay.
  replace (y1 + m1 / 12) with (y2 + m2 / 12) by (Z.div_mod_to_equations; lia).
  replace (m1 mod 12) with (m2 mod 12) by (Z.div_mod_to_equations; lia).
  reflexivity.
Qed.

Lemma MakeDay_index_mono (y1 m1 y2 m2 dt : Z) :
  12 * y1 + m1 <= 12 * y2 + m2 -> MakeDay y1 m1 dt <= MakeDay y2 m2 dt.
Proof.
  intros Hi.
  pose proof (MakeDay_month_mono y1 dt m1
                (Z.to_nat (12 * y2 + m2 - (12 * y1 + m1)))) as Hm.
  rewrite Z2Nat.id in Hm by lia.
  rewrite (MakeDay_index y1 (m1 + (12 * y2 + m2 - (12 * y1 + m1))) y2 m2) in Hm
    by lia.
  exact Hm.
Qed.

Lemma MakeDay_date (y m dt : Z) : MakeDay y m dt = MakeDay y m 1 + dt - 1.
Proof. unfold MakeDay. lia. Qed.

Lemma DaysBeforeMonth_step28 (r leap : Z) :
  0 <= leap <= 1 -> 0 <= r <= 10 ->
  DaysBeforeMonth r leap + 28 <= DaysBeforeMonth (r + 1) leap.
Proof.
  intros Hl Hr.
  assert (Hcases : r = 0 \/ r = 1 \/ r = 2 \/ r = 3 \/ r = 4 \/ r = 5
                   \/ r = 6 \/ r = 7 \/ r = 8 \/ r = 9 \/ r = 10) by lia.
  repeat destruct Hcases as [->|Hcases]; try subst r; simpl; lia.
Qed.

(** Every month has at least 28 days. *)
Lemma MakeDay_month_length (y m : Z) :
  MakeDay y m 1 + 28 <= MakeDay y (m + 1) 1.
Proof.
  unfold MakeDay.
  assert (Hr : 0 <= m mod 12 <= 11) by (Z.div_mod_to_equations; lia).
  destruct (Z.eq_dec (m mod 12) 11) as [H11|H11].
  - replace ((m + 1) / 12) with (m / 12 + 1) by (Z.div_mod_to_equations; lia).
    replace ((m + 1) mod 12) with 0 by (Z.div_mod_to_equations; lia).
    rewrite Z.add_assoc, DaysInYear_step, InLeapYear_DaysInYear, H11.
    pose proof (InLeapYear_range (y + m / 12)).
    simpl. lia.
  - replace ((m + 1) / 12) with (m / 12) by (Z.div_mod_to_equations; lia).
    replace ((m + 1) mod 12) with (m mod 12 + 1)
      by (Z.div_mod_to_equations; lia).
    pose proof (DaysBeforeMonth_step28 (m mod 12) (InLeapYear (y + m / 12))
                  (InLeapYear_range _)) as Hs.
    lia.
Qed.

(** The first day of the month of a time value, and its day. *)
Lemma Day_in_month (t : Z) :
  MakeDay (YearFromTime t) (MonthFromTime t) 1 <= Day t
  /\ Day t <= MakeDay (YearFromTime t) (MonthFromTime t) 1 + 30.
Proof.
  pose proof (MakeDay_fields t) as Hf.
  pose proof (fields_range t) as [_ Hd].
  rewrite MakeDay_date in Hf. lia.
Qed.

Lemma MakeDate_before (day day' time time' : Z) :
  day + 1 <= day' -> 0 <= time < msPerDay -> 0 <= time' ->
  MakeDate day time < MakeDate day' time'.
Proof. unfold MakeDate, msPerDay. lia. Qed.

Lemma Day_mono (t u : Z) : t <= u -> Day t <= Day u.
Proof. intros Htu. unfold Day, msPerDay. Z.div_mod_to_equations. lia. Qed.

Lemma Day_plus (t k : Z) : Day (t + k * msPerDay) = Day t + k.
Proof. unfold Day, msPerDay. Z.div_mod_to_equations. lia. Qed.

(** Two time values at least 31 days apart fall in different months. *)
Lemma month_index_31 (t u : Z) :
  t + 31 * msPerDay <= u ->
  12 * YearFromTime t + MonthFromTime t + 1
  <= 12 * YearFromTime u + MonthFromTime u.
Proof.
  intros Htu.
  destruct (Z.le_gt_cases (12 * YearFromTime t + MonthFromTime t + 1)
              (12 * YearFromTime u + MonthFromTime u)) as [Hle|Hgt];
    [exact Hle|exfalso].
  pose proof (MakeDay_index_mono (YearFromTime u) (MonthFromTime u)
                (YearFromTime t) (MonthFromTime t) 1 ltac:(lia)) as Hm.
  pose proof (Day_in_month t) as [Ht _].
  pose proof (Day_in_month u) as [_ Hu].
  pose proof (Day_mono _ _ Htu) as Hd. rewrite Day_plus in Hd. lia.
Qed.

End CalendarMonths.

Section CalendarOrder.
Import JSDate.

Lemma MonthFromDayInYear_upper (d leap : Z) :
  0 <= leap <= 1 -> 0 <= d < 365 + leap ->
  let m := MonthFromDayInYear d leap in
  (m = 11 \/ (0 <= m <= 10 /\ d < DaysBeforeMonth (m + 1) leap)).
Proof.
  intros Hl Hd. unfold MonthFromDayInYear.
  repeat (match goal with
          | |- context [?a <? ?b] => destruct (Z.ltb_spec a b)
          end; [right; simpl; lia|]).
  left. reflexivity.
Qed.

(** The day of a time value comes before the first day of the next
    month. *)
Lemma Day_before_next_month (t : Z) :
  Day t < MakeDay (YearFromTime t) (MonthFromTime t + 1) 1.
Proof.
  pose proof (DayWithinYear_range t) as Hd.
  rewrite InLeapYear_DaysInYear in Hd.
  pose proof (InLeapYear_range (YearFromTime t)) as Hl.
  pose proof (MonthFromDayInYear_upper _ _ Hl Hd) as Hm.
  cbn zeta in Hm. fold (MonthFromTime t) in Hm.
  unfold MakeDay. unfold DayWithinYear in Hd, Hm.
  destruct Hm as [H11|[Hr Hlt]].
  - rewrite H11. change ((11 + 1) / 12) with 1. change ((11 + 1) mod 12) with 0.
    rewrite DaysInYear_step, InLeapYear_DaysInYear. simpl. lia.
  - replace ((MonthFromTime t + 1) / 12) with 0
      by (Z.div_mod_to_equations; lia).
    replace ((MonthFromTime t + 1) mod 12) with (MonthFromTime t + 1)
      by (Z.div_mod_to_equations; lia).
    rewrite Z.add_0_r. lia.
Qed.

(** The month of a time value, counted from year 0, does not decrease
    with the time value. *)
Lemma month_index_mono (t u : Z) :
  t <= u ->
  12 * YearFromTime t + MonthFromTime t
  <= 12 * YearFromTime u + MonthFromTime u.
Proof.
  intros Htu.
  destruct (Z.le_gt_cases (12 * YearFromTime t + MonthFromTime t)
              (12 * YearFromTime u + MonthFromTime u)) as [Hle|Hgt];
    [exact Hle|exfalso].
  pose proof (MakeDay_index_mono (YearFromTime u) (MonthFromTime u + 1)
                (YearFromTime t) (MonthFromTime t) 1 ltac:(lia)) as Hm.
  pose proof (Day_in_month t) as [Ht _].
  pose proof (Day_before_next_month u) as Hu.
  pose proof (Day_mono _ _ Htu) as Hd. lia.
Qed.

End CalendarOrder.

(** ** The lease and its payments *)

Section LeaseMonths.
Context {E : Type} `{Logger E} `{Runtime E}.
Import LeasingAgreementService JSDate.

#[local] Opaque MakeDay MakeDate YearFromTime MonthFromTime DateFromTime
  TimeWithinDay TimeClip maxTime msPerDay.

Lemma getIntervalMonths_cases (frequency : string) :
  getIntervalMonths frequency = 1 \/ getIntervalMonths frequency = 3
  \/ getIntervalMonths frequency = 12.
Proof.
  unfold getIntervalMonths.
  repeat match goal with |- context [String.eqb ?a ?b] =>
    destruct (String.eqb a b) end; auto.
Qed.

Lemma calculateDurationInMonths_Some (h : Dates) (startDate endDate : loc)
    (ts te : Z) :
  getTime h startDate = Some ts ->
  getTime h endDate = Some te ->
  calculateDurationInMonths h startDate endDate
  = Some (12 * YearFromTime (LocalTime LocalTZA te)
          + MonthFromTime (LocalTime LocalTZA te)
          - (12 * YearFromTime (LocalTime LocalTZA ts)
             + MonthFromTime (LocalTime LocalTZA ts))).
Proof.
  intros Hs He. unfold calculateDurationInMonths. rewrite Hs, He.
  unfold getFullYear, getMonth, int_sub, int_mul, int_add.
  cbn [mbind option_bind]. f_equal. lia.
Qed.

(** The number of payments: the least multiple of the interval that
    covers the months. *)
Lemma ceil_div_bounds (d i n : Z) :
  i = 1 \/ i = 3 \/ i = 12 ->
  JSNumber.ceil_div (Some d) i = Some n ->
  (n - 1) * i < d <= n * i.
Proof.
  unfold JSNumber.ceil_div. intros Hi [= <-].
  destruct Hi as [->|[->| ->]]; Z.div_mod_to_equations; lia.
Qed.

(** The payments of a lease, the dates being read on the local clock
    (in a time zone whose offset from UTC is constant, the [LocalTZA] of
    the run-time). For an agreement whose end date is not before its
    start date, the count of calendar months is not negative, and the
    generator returns a schedule of as many entries as it takes
    intervals to cover the months; when the local time of the end date
    is 31 days or more after the local time of the start date, that is
    at least one calendar month and at least one payment. *)
Theorem payments_of_a_lease (agreement : LeasingAgreement.t)
    (frequency : string) (w : World E) (ts te : Z) :
  getTime (dates w) (LeasingAgreement.startDate agreement) = Some ts ->
  getTime (dates w) (LeasingAgreement.endDate agreement) = Some te ->
  LocalTime LocalTZA ts <= LocalTime LocalTZA te ->
  exists months n schedule w',
    calculateDurationInMonths (dates w) (LeasingAgreement.startDate agreement)
      (LeasingAgreement.endDate agreement) = Some months
    /\ 0 <= months
    /\ totalPaymentsOf (dates w) agreement frequency = Some n
    /\ 0 <= n
    /\ (n - 1) * getIntervalMonths frequency < months
       <= n * getIntervalMonths frequency
    /\ generatePaymentSchedule agreement frequency w = (Return schedule, w')
    /\ length schedule = Z.to_nat n
    /\ (LocalTime LocalTZA ts + 31 * msPerDay <= LocalTime LocalTZA te ->
        1 <= months /\ 1 <= n).
Proof.
  intros Hs He Horder.
  pose proof (calculateDurationInMonths_Some _ _ _ ts te Hs He) as Hd.
  set (months := 12 * _ + _ - _) in Hd.
  assert (Hm : 0 <= months).
  { pose proof (month_index_mono (LocalTime LocalTZA ts) (LocalTime LocalTZA te))
      as Hi.
    unfold months. unfold LocalTime in *. lia. }
  destruct (JSNumber.ceil_div (Some months) (getIntervalMonths frequency))
    as [n|] eqn:Hn; [|discriminate].
  pose proof (ceil_div_bounds months _ n (getIntervalMonths_cases frequency) Hn)
    as Hb.
  assert (Hn0 : 0 <= n).
  { destruct (getIntervalMonths_cases frequency) as [Hi|[Hi|Hi]];
      rewrite Hi in Hb; lia. }
  assert (Htp : totalPaymentsOf (dates w) agreement frequency = Some n).
  { unfold totalPaymentsOf. rewrite Hd. exact Hn. }
  exists months, n. eexists. eexists.
  split; [exact Hd|]. split; [exact Hm|]. split; [exact Htp|].
  split; [exact Hn0|]. split; [exact Hb|].
  split; [apply generatePaymentSchedule_spec|].
  split; [rewrite length_imap, length_loopAmounts, Htp; reflexivity|].
  intros Hlong.
  assert (Hm1 : 1 <= months).
  { pose proof (month_index_31 (LocalTime LocalTZA ts) (LocalTime LocalTZA te))
      as Hi.
    unfold months. unfold LocalTime in *. lia. }
  split; [exact Hm1|].
  destruct (getIntervalMonths_cases frequency) as [Hi|[Hi|Hi]];
    rewrite Hi in Hb; lia.
Qed.

(** When the day of the month of the start date is at most 28, every
    due date of the schedule falls within the lease: it is not before
    the start date and it is before the end date. *)
Theorem due_dates_within_lease (agreement : LeasingAgreement.t)
    (frequency : string) (w : World E) (ts te : Z) :
  getTime (dates w) (LeasingAgreement.startDate agreement) = Some ts ->
  getTime (dates w) (LeasingAgreement.endDate agreement) = Some te ->
  Z.abs ts <= maxTime ->
  Z.abs te <= maxTime ->
  DateFromTime (LocalTime LocalTZA ts) <= 28 ->
  exists schedule w',
    generatePaymentSchedule agreement frequency w = (Return schedule, w')
    /\ forall (i : nat) (p : PaymentSchedule.t),
         schedule !! i = Some p ->
         exists due,
           getTime (dates w') (PaymentSchedule.dueDate p) = Some due
           /\ ts <= due < te.
Proof.
  intros Hs He Hvs Hve Hday.
  eexists. eexists. split; [apply generatePaymentSchedule_spec|].
  cbn [dates]. intros i p Hp.
  apply lookup_entries in Hp as [Hdue Hi].
  rewrite length_loopAmounts in Hi. rewrite Hdue.
  rewrite getTime_new_cell by exact Hi.
  rewrite Hs.
  pose proof (getIntervalMonths_cases frequency) as Hcases.
  set (im := getIntervalMonths frequency) in *.
  rewrite advance_chain;
    [|lia|apply TimeClip_Some; exact Hvs|exact Hday].
  rewrite advanceMonths_Some.
  (* the number of payments bounds the index *)
  pose proof (calculateDurationInMonths_Some _ _ _ ts te Hs He) as Hd.
  set (months := 12 * _ + _ - _) in Hd.
  unfold totalPaymentsOf in Hi. rewrite Hd in Hi. fold im in Hi.
  destruct (JSNumber.ceil_div (Some months) im) as [n|] eqn:Hn;
    [|discriminate].
  pose proof (ceil_div_bounds months im n Hcases Hn) as Hb.
  cbn [turns] in Hi.
  set (k := Z.of_nat i * im).
  assert (Hk : 0 <= k /\ k + 1 <= months).
  { unfold k. destruct Hcases as [Hc|[Hc|Hc]]; rewrite Hc in *; lia. }
  (* the local time aimed at lies between the two ends *)
  pose proof (advancedLocal_mono ts 0 (Z.to_nat k)) as Hlo.
  rewrite advancedLocal_0, Z.add_0_l, Z2Nat.id in Hlo by lia.
  assert (Hhi : advancedLocal k ts < LocalTime LocalTZA te).
  { unfold advancedLocal.
    set (ls := LocalTime LocalTZA ts) in *.
    set (le := LocalTime LocalTZA te) in *.
    pose proof (fields_range ls) as [_ [Hd1 _]].
    pose proof (TimeWithinDay_range ls) as Htod.
    pose proof (MakeDay_date (YearFromTime ls) (MonthFromTime ls + k)
                  (DateFromTime ls)) as Hdt.
    pose proof (MakeDay_month_length (YearFromTime ls) (MonthFromTime ls + k))
      as Hlen.
    pose proof (MakeDay_index_mono (YearFromTime ls) (MonthFromTime ls + k + 1)
                  (YearFromTime le) (MonthFromTime le) 1) as Hidx.
    pose proof (Day_in_month le) as [Hfirst _].
    pose proof (MakeDate_Day le) as Hle.
    pose proof (TimeWithinDay_range le) as Htod'.
    assert (Hlt : MakeDay (YearFromTime ls) (MonthFromTime ls + k)
                    (DateFromTime ls) + 1 <= Day le).
    { unfold months in Hk. fold ls le in Hk. lia. }
    rewrite <- Hle. apply MakeDate_before; lia. }
  exists (UTC LocalTZA (advancedLocal k ts)).
  unfold UTC, LocalTime in *. split; [|lia].
  apply TimeClip_Some. lia.
Qed.

End LeaseMonths.

Section PaymentIds.
Context {E : Type} `{Logger E} `{Runtime E}.
Import LeasingAgreementService.

Lemma lookup_entry_id (agreementId : string) (i : Z) (base : loc)
    (l : list float) (j : nat) (p : PaymentSchedule.t) :
  imap (loopEntry agreementId i base) l !! j = Some p ->
  PaymentSchedule.id p
  = agreementId ++ "-payment-" ++ pretty (i + Z.of_nat j + 1)
  /\ PaymentSchedule.status p = PAYMENT_PENDING
  /\ PaymentSchedule.attemptCount p = 0.
Proof.
  rewrite list_lookup_imap. intros Hp.
  destruct (l !! j) as [x|] eqn:Hx; [|discriminate].
  simpl in Hp. injection Hp as <-. repeat split.
Qed.

(** The entries of a schedule are numbered from 1 in their order: the
    identifier of entry [i] is the identifier of the agreement followed
    by [-payment-] and [i + 1], so that no two entries of a schedule
    have the same identifier; every entry is PENDING and has never been
    attempted. *)
Theorem payment_ids_are_distinct (agreement : LeasingAgreement.t)
    (frequency : string) (w : World E) :
  exists schedule w',
    generatePaymentSchedule agreement frequency w = (Return schedule, w')
    /\ (forall (i : nat) (p : PaymentSchedule.t),
          schedule !! i = Some p ->
          PaymentSchedule.id p
          = LeasingAgreement.id agreement ++ "-payment-"
            ++ pretty (Z.of_nat i + 1)
          /\ PaymentSchedule.status p = PAYMENT_PENDING
          /\ PaymentSchedule.attemptCount p = 0)
    /\ (forall (i j : nat) (p q : PaymentSchedule.t),
          schedule !! i = Some p -> schedule !! j = Some q ->
          PaymentSchedule.id p = PaymentSchedule.id q -> i = j).
Proof.
  eexists. eexists. split; [apply generatePaymentSchedule_spec|].
  split.
  - intros i p Hp. apply lookup_entry_id in Hp. exact Hp.
  - intros i j p q Hp Hq Heq.
    apply lookup_entry_id in Hp as [Hp _].
    apply lookup_entry_id in Hq as [Hq _].
    rewrite Hp, Hq in Heq.
    apply String.app_inj, String.app_inj, pretty_Z_inj in Heq. lia.
Qed.

End PaymentIds.

(** [toISOString] and [parseInt] on a few inputs. *)
Example toISOString_examples :
  map JSDate.toISOString
    [Some 1738281600000; Some 0; Some (-1); Some 253402300800000;
     Some (-62198755200000); Some 1749988800123; None]
  = [Some "2025-01-31T00:00:00.000Z"; Some "1970-01-01T00:00:00.000Z";
     Some "1969-12-31T23:59:59.999Z"; Some "+010000-01-01T00:00:00.000Z";
     Some "-000001-01-01T00:00:00.000Z"; Some "2025-06-15T12:00:00.123Z";
     None].
Proof. vm_compute. reflexivity. Qed.

Example parseInt_examples :
  map Config.parseInt
    ["60"; " 42px"; "-7"; "1e6"; "1000000.99"; "abc"; EmptyString; "+5";
     "0x10"; "9007199254740993"]
  = [60; 42; -7; 1; 1000000; PrimFloat.nan; PrimFloat.nan; 5; 0;
     9007199254740992]%float.
Proof. vm_compute. reflexivity. Qed.

(** ** The saga, when the reservation or the first save fails *)

Section SagaFailures.
Context {E : Type}.
Context `{ILeasingRepository E} `{INotificationService E}
        `{IInventoryService E} `{IBillingService E} `{Logger E} `{Runtime E}.
Import LeasingAgreementService.

(** When the item cannot be reserved, nothing has been done that would
    have to be undone: [executeAgreementTransaction] throws the error of
    the inventory service and calls no other collaborator, [releaseItem]
    included. *)
Theorem reservation_failure_needs_no_rollback (agreement : LeasingAgreement.t)
    (correlationId : string) (w : World E) (error : JSError) (e1 : E) :
  reserveItem (LeasingAgreement.itemId agreement) (ext w) = (Throw error, e1) ->
  executeAgreementTransaction agreement correlationId w
  = (Throw error, mkWorld (dates w) e1).
Proof.
  intros Hreserve.
  unfold executeAgreementTransaction, transactionBody.
  unfold bind at 1. unfold inSaga at 1. unfold outside at 1.
  cbn [fst snd ext dates]. rewrite Hreserve. cbn [fst snd rev].
  reflexivity.
Qed.

(** When the agreement cannot be saved after the item has been reserved,
    [releaseItem] is called on the item, and neither the billing service
    nor the notification service is called. When the release returns, or
    throws a value with a message (the failure is then logged as
    [Rollback failed]), the error thrown is the one of the repository.
    When the release throws [undefined] or [null], nothing is logged and
    the [TypeError] of the [catch] block is thrown in place of the error
    of the repository. *)
Theorem save_failure_releases_item (agreement : LeasingAgreement.t)
    (correlationId : string) (w : World E) (reserved : bool)
    (error : JSError) (e1 e2 : E) :
  reserveItem (LeasingAgreement.itemId agreement) (ext w) = (Return reserved, e1) ->
  save (LeasingAgreement.with_status agreement PENDING) e1 = (Throw error, e2) ->
  executeAgreementTransaction agreement correlationId w
  = match releaseItem (LeasingAgreement.itemId agreement) e2 with
    | (Return _, e3) => (Throw error, mkWorld (dates w) e3)
    | (Throw rollbackError, e3) =>
        if is_nullish rollbackError then
          (Throw (no_message rollbackError), mkWorld (dates w) e3)
        else
          (Throw error,
           mkWorld (dates w)
             (log LError "Rollback failed"
                [("correlationId", correlationId);
                 ("error", message rollbackError)] e3))
    end.
Proof.
  intros Hreserve Hsave.
  unfold executeAgreementTransaction, transactionBody.
  unfold bind at 1 2 3. unfold inSaga, push, modify, outside.
  cbn [fst snd ext dates].
  rewrite Hreserve. cbn [fst snd ext dates]. rewrite Hsave.
  cbn [fst snd ext dates app rev].
  exact (rollback_release correlationId (LeasingAgreement.itemId agreement)
           error _ (mkWorld (dates w) e2)).
Qed.

End SagaFailures.

(** ** Requests refused before the saga *)

Section Rejections.
Context {E : Type}.
Context `{ILeasingRepository E} `{INotificationService E}
        `{IInventoryService E} `{IBillingService E} `{IEmployeeService E}
        `{Logger E} `{Runtime E}.
Import LeasingAgreementService.

(** The start of [processLeasingAgreement]: the correlation identifier is
    made and the request is logged. *)
Lemma processLeasingAgreement_start (config : LeasingConfig.t)
    (request : CreateAgreementRequest.t) (w : World E) (now : Z)
    (suffix : string) (e0 e1 : E) :
  Date_now (ext w) = (now, e0) ->
  random_suffix e0 = (suffix, e1) ->
  let correlationId := pretty now ++ "-" ++ suffix in
  processLeasingAgreement config request w
  = try_catch
      (Validator.validateCreateAgreementRequest request ;;;
       validateBusinessRules config request ;;;
       agreement <- createAgreementFromRequest config request ;;
       executeAgreementTransaction agreement correlationId)
      (fun error =>
         error_message <- get_message error ;;
         logger LError "Failed to process leasing agreement"
           [("correlationId", correlationId); ("error", error_message)] ;;;
         throw error)
      (mkWorld (dates w)
         (log LInfo "Processing leasing agreement"
            [("correlationId", correlationId);
             ("employeeId", CreateAgreementRequest.employeeId request);
             ("itemId", CreateAgreementRequest.itemId request)] e1)).
Proof.
  intros Hnow Hsuffix correlationId.
  unfold processLeasingAgreement, generateCorrelationId, now_ms, randomSuffix.
  unfold bind at 1. unfold bind at 1. unfold outside at 1.
  rewrite Hnow. cbn [ext dates].
  unfold bind at 1. unfold outside at 1. cbn [ext dates].
  rewrite Hsuffix. unfold ret at 1.
  unfold try_catch, bind, logger, outside. cbn [ext dates]. reflexivity.
Qed.

(** A request that the validator refuses reaches no collaborator.
    [processLeasingAgreement] throws the error of the validator, a
    [ValidationError] on a field of the request, after logging it; in
    the world it leaves, no date has been created, and the outside is
    the one the service started from, with the clock read and the two
    log entries written: no call has been made to the employee service,
    the inventory, the repository, the billing service or the
    notification service. *)
Theorem invalid_request_reaches_no_collaborator (config : LeasingConfig.t)
    (request : CreateAgreementRequest.t) (w : World E) (now : Z)
    (suffix : string) (e0 e1 : E) (error : JSError) (w3 : World E) :
  Date_now (ext w) = (now, e0) ->
  random_suffix e0 = (suffix, e1) ->
  let correlationId := pretty now ++ "-" ++ suffix in
  let e2 :=
    log LInfo "Processing leasing agreement"
      [("correlationId", correlationId);
       ("employeeId", CreateAgreementRequest.employeeId request);
       ("itemId", CreateAgreementRequest.itemId request)] e1 in
  Validator.validateCreateAgreementRequest request (mkWorld (dates w) e2)
    = (Throw error, w3) ->
  is_validation_error requestFields validationCodes error
  /\ (ext w3 = e2 \/ ext w3 = snd (Date_now (snd (Date_now e2))))
  /\ processLeasingAgreement config request w
     = (Throw error,
        mkWorld (dates w)
          (log LError "Failed to process leasing agreement"
             [("correlationId", correlationId); ("error", message error)]
             (ext w3))).
Proof.
  intros Hnow Hsuffix correlationId e2 Hv.
  destruct (validateCreateAgreementRequest_outcome request
              (mkWorld (dates w) e2)) as (r & w' & Hr & Hdates & Hext & Hp).
  rewrite Hv in Hr. injection Hr as <- <-.
  cbn [dates ext] in Hdates, Hext.
  split; [exact Hp|]. split; [exact Hext|].
  rewrite (processLeasingAgreement_start config request w now suffix e0 e1
             Hnow Hsuffix).
  fold correlationId. fold e2.
  unfold try_catch. unfold bind at 1. rewrite Hv.
  destruct error; try contradiction.
  unfold get_message, bind, logger, outside, throw, ret. cbn [is_nullish].
  rewrite Hdates. reflexivity.
Qed.

(** A request that a business rule refuses reserves nothing. When
    [validateBusinessRules] throws, the only collaborators called are the
    employee service and, when the employee is valid, the inventory for
    the availability of the item: nothing is reserved, saved, billed or
    notified, and no date is created. [processLeasingAgreement] logs
    that error and throws it; when the value thrown is [undefined] or
    [null] (the employee service or the inventory rejecting with no
    reason), reading its message throws a [TypeError]: nothing is logged,
    and the [TypeError] is thrown in place of that value. *)
Theorem refused_request_reserves_nothing (config : LeasingConfig.t)
    (request : CreateAgreementRequest.t) (w : World E) (now : Z)
    (suffix : string) (e0 e1 : E) (error : JSError) (w3 w4 : World E) :
  Date_now (ext w) = (now, e0) ->
  random_suffix e0 = (suffix, e1) ->
  let correlationId := pretty now ++ "-" ++ suffix in
  let e2 :=
    log LInfo "Processing leasing agreement"
      [("correlationId", correlationId);
       ("employeeId", CreateAgreementRequest.employeeId request);
       ("itemId", CreateAgreementRequest.itemId request)] e1 in
  Validator.validateCreateAgreementRequest request (mkWorld (dates w) e2)
    = (Return tt, w3) ->
  validateBusinessRules config request w3 = (Throw error, w4) ->
  let asked :=
    snd (validateEmployee (CreateAgreementRequest.employeeId request)
           (CreateAgreementRequest.companyId request) (ext w3)) in
  (ext w4 = asked
   \/ ext w4 = snd (checkAvailability (CreateAgreementRequest.itemId request)
                      asked))
  /\ processLeasingAgreement config request w
     = if is_nullish error then
         (Throw (no_message error), mkWorld (dates w) (ext w4))
       else
         (Throw error,
          mkWorld (dates w)
            (log LError "Failed to process leasing agreement"
               [("correlationId", correlationId); ("error", message error)]
               (ext w4))).
Proof.
  intros Hnow Hsuffix correlationId e2 Hv Hb asked.
  destruct (validateCreateAgreementRequest_outcome request
              (mkWorld (dates w) e2)) as (r & w' & Hr & Hdates & _ & _).
  rewrite Hv in Hr. injection Hr as <- <-. cbn [dates] in Hdates.
  assert (Hw4 : dates w4 = dates w3
                /\ (ext w4 = asked
                    \/ ext w4
                       = snd (checkAvailability
                                (CreateAgreementRequest.itemId request) asked))).
  { revert Hb. unfold validateBusinessRules, bind, outside, asked, throw, ret.
    destruct w3 as [h3 e3]. cbn [ext dates].
    destruct (validateEmployee _ _ e3) as [[[]|err] e4]; cbn [snd negb];
      try (intros [= <- <-]; cbn [ext dates]; auto; fail).
    cbn [ext dates].
    destruct (checkAvailability _ e4) as [[[]|err] e5];
      cbn [snd negb ext dates];
      try (intros [= <- <-]; cbn [ext dates]; auto; fail).
    destruct (JSNumber.gt _ _); [|discriminate].
    intros [= <- <-]. cbn [ext dates]. auto. }
  destruct Hw4 as [Hd4 Hext]. split; [exact Hext|].
  rewrite (processLeasingAgreement_start config request w now suffix e0 e1
             Hnow Hsuffix).
  fold correlationId. fold e2.
  unfold try_catch. unfold bind at 1. rewrite Hv.
  unfold bind at 1. rewrite Hb.
  unfold get_message, bind. destruct (is_nullish error).
  - unfold throw. destruct w4 as [h4 e4]. cbn [dates ext] in *.
    rewrite Hd4, Hdates. reflexivity.
  - unfold logger, outside, throw, ret. rewrite Hd4, Hdates. reflexivity.
Qed.

End Rejections.

(** ** The factory *)

Section Factory.
Context {E : Type}.
Context `{ILeasingRepository E} `{INotificationService E}
        `{IInventoryService E} `{IBillingService E} `{IEmployeeService E}
        `{Logger E} `{Runtime E}.
Import LeasingAgreementService.

Lemma getTime_cons_app (h : Dates) (v : option Z) (rest : Dates) :
  getTime (h ++ v :: rest) (length h) = v.
Proof.
  unfold getTime. rewrite list_lookup_middle by reflexivity. reflexivity.
Qed.

(** The agreement that the factory makes of a request. Once the
    employee service has returned the tier of the employee,
    [createAgreementFromRequest] returns, whatever the request: a DRAFT
    agreement that carries the identifiers, the currency and the
    metadata of the request (an empty object when there is none), whose
    start and end dates are new objects holding the dates parsed from
    the request, whose price is the discounted cost of the price of the
    request, and whose schedule hands out that discounted price; the
    four dates of the agreement are distinct objects, and the dates that
    existed before are as they were. *)
Theorem created_agreement (config : LeasingConfig.t)
    (request : CreateAgreementRequest.t) (w : World E) (employeeType : string)
    (e1 : E) :
  getEmployeeType (CreateAgreementRequest.employeeId request) (ext w)
    = (Return employeeType, e1) ->
  let startTime := Date_parse (CreateAgreementRequest.startDate request) in
  let endTime := Date_parse (CreateAgreementRequest.endDate request) in
  let months :=
    int_add
      (int_mul (int_sub (JSDate.getFullYear LocalTZA endTime)
                        (JSDate.getFullYear LocalTZA startTime)) (Some 12))
      (int_sub (JSDate.getMonth LocalTZA endTime)
               (JSDate.getMonth LocalTZA startTime)) in
  let cost :=
    round2 (CreateAgreementRequest.price request
            * longTermMultiplierOf config months
            * employeeMultiplierOf config employeeType)%float in
  let payments :=
    JSNumber.ceil_div months
      (getIntervalMonths (CreateAgreementRequest.paymentFrequency request)) in
  exists agreement w',
    createAgreementFromRequest config request w = (Return agreement, w')
    /\ LeasingAgreement.status agreement = DRAFT
    /\ LeasingAgreement.employeeId agreement
       = CreateAgreementRequest.employeeId request
    /\ LeasingAgreement.itemId agreement = CreateAgreementRequest.itemId request
    /\ LeasingAgreement.companyId agreement
       = CreateAgreementRequest.companyId request
    /\ LeasingAgreement.currency agreement
       = CreateAgreementRequest.currency request
    /\ LeasingAgreement.metadata agreement
       = default [] (CreateAgreementRequest.metadata request)
    /\ LeasingAgreement.price agreement = cost
    /\ map PaymentSchedule.amount (LeasingAgreement.paymentSchedule agreement)
       = loopAmounts (turns payments) 0 (default 0 payments)
           (round2 (cost / int_to_number payments)%float) cost
    /\ getTime (dates w') (LeasingAgreement.startDate agreement) = startTime
    /\ getTime (dates w') (LeasingAgreement.endDate agreement) = endTime
    /\ NoDup [LeasingAgreement.startDate agreement;
              LeasingAgreement.endDate agreement;
              LeasingAgreement.createdAt agreement;
              LeasingAgreement.updatedAt agreement]
    /\ (forall l : loc,
          In l [LeasingAgreement.startDate agreement;
                LeasingAgreement.endDate agreement;
                LeasingAgreement.createdAt agreement;
                LeasingAgreement.updatedAt agreement] ->
          (length (dates w) <= l)%nat)
    /\ (forall l : loc,
          (l < length (dates w))%nat ->
          getTime (dates w') l = getTime (dates w) l).
Proof.
  intros Htype startTime endTime months cost payments.
  destruct w as [h e]. cbn [ext dates] in *.
  unfold createAgreementFromRequest.
  unfold bind at 1. unfold newDate at 1, alloc. cbn [ext dates].
  unfold bind at 1. unfold newDate at 1, alloc. cbn [ext dates].
  unfold bind at 1. unfold outside at 1. cbn [ext dates]. rewrite Htype.
  fold startTime endTime.
  set (h2 := ((h ++ [startTime]) ++ [endTime])%list).
  assert (Hlen2 : length h2 = S (S (length h))).
  { unfold h2. rewrite !length_app. simpl. lia. }
  assert (Hs2 : getTime h2 (length h) = startTime).
  { unfold h2. rewrite <- app_assoc. apply getTime_cons_app. }
  assert (He2 : getTime h2 (length (h ++ [startTime])) = endTime).
  { unfold h2. apply getTime_middle. }
  assert (Hmonths : calculateDurationInMonths h2 (length h)
                      (length (h ++ [startTime])) = months).
  { unfold calculateDurationInMonths. rewrite Hs2, He2. reflexivity. }
  unfold bind at 1. unfold calculateLeasingCost.
  unfold bind at 1. unfold gets at 1. cbn [ext dates]. rewrite Hmonths.
  unfold bind at 1. unfold logger at 1, outside at 1. cbn [ext dates].
  unfold ret at 1.
  change (JSNumber.Math_round _ / 100)%float with cost.
  unfold bind at 1. unfold generateAgreementId, now_ms, randomSuffix.
  unfold bind at 1. unfold outside at 1. cbn [ext dates].
  destruct (Date_now _) as [now ea].
  unfold bind at 1. unfold outside at 1. cbn [ext dates].
  destruct (random_suffix ea) as [suffix eb]. unfold ret at 1.
  unfold bind at 1. unfold newDateNow at 1.
  unfold bind at 1. unfold outside at 1. cbn [ext dates].
  destruct (Date_now eb) as [now1 ec].
  unfold newDate at 1, alloc. cbn [ext dates].
  unfold bind at 1. unfold newDateNow at 1.
  unfold bind at 1. unfold outside at 1. cbn [ext dates].
  destruct (Date_now ec) as [now2 ed].
  unfold newDate at 1, alloc. cbn [ext dates].
  set (h4 := ((h2 ++ [Some now1]) ++ [Some now2])%list).
  assert (Hs4 : getTime h4 (length h) = startTime).
  { unfold h4. rewrite !getTime_app_l; [exact Hs2| |];
      rewrite ?length_app, Hlen2; simpl; lia. }
  assert (He4 : getTime h4 (length (h ++ [startTime])) = endTime).
  { unfold h4. rewrite !getTime_app_l; [exact He2| |];
      rewrite ?length_app, Hlen2; simpl; lia. }
  unfold bind at 1. rewrite generatePaymentSchedule_spec.
  cbn [dates ext LeasingAgreement.startDate LeasingAgreement.endDate
       LeasingAgreement.price LeasingAgreement.id].
  unfold ret.
  assert (Htp : forall a,
            LeasingAgreement.startDate a = length h ->
            LeasingAgreement.endDate a = length (h ++ [startTime]) ->
            totalPaymentsOf h4 a
              (CreateAgreementRequest.paymentFrequency request) = payments).
  { intros a Ha1 Ha2. unfold totalPaymentsOf, calculateDurationInMonths.
    rewrite Ha1, Ha2, Hs4, He4. reflexivity. }
  eexists. eexists. split; [reflexivity|].
  cbn [LeasingAgreement.with_paymentSchedule LeasingAgreement.status
       LeasingAgreement.employeeId LeasingAgreement.itemId
       LeasingAgreement.companyId LeasingAgreement.currency
       LeasingAgreement.metadata LeasingAgreement.price
       LeasingAgreement.paymentSchedule LeasingAgreement.startDate
       LeasingAgreement.endDate LeasingAgreement.createdAt
       LeasingAgreement.updatedAt LeasingAgreement.id dates].
  repeat (split; [reflexivity|]).
  assert (Hlen4 : length h4 = S (S (S (S (length h))))).
  { unfold h4. rewrite !length_app, Hlen2. simpl. lia. }
  assert (Hl1 : length (h ++ [startTime]) = S (length h)).
  { rewrite length_app. simpl. lia. }
  assert (Hl3 : length (h2 ++ [Some now1]) = S (S (S (length h)))).
  { rewrite length_app, Hlen2. simpl. lia. }
  split.
  { rewrite amounts_of_entries. unfold paymentAmountOf.
    rewrite !Htp by reflexivity.
    cbn [LeasingAgreement.price]. reflexivity. }
  split.
  { rewrite getTime_app_l by lia. exact Hs4. }
  split.
  { rewrite getTime_app_l by lia. exact He4. }
  split.
  { rewrite Hl1, Hlen2, Hl3.
    do 4 (constructor;
          [rewrite ?not_elem_of_cons; repeat split; try lia;
           apply not_elem_of_nil|]).
    constructor. }
  split.
  { rewrite Hl1, Hlen2, Hl3. simpl. intuition lia. }
  intros l Hl.
  rewrite getTime_app_l by lia.
  unfold h4, h2. rewrite !getTime_app_l; [reflexivity|..];
    rewrite ?length_app; simpl; lia.
Qed.

End Factory.

(** ** The controller *)

Ltac controller_start Hnow Hsuffix :=
  unfold LeasingAgreementController.createAgreement,
    LeasingAgreementController.generateCorrelationId, now_ms, randomSuffix;
  unfold bind at 1; unfold bind at 1; unfold outside at 1;
  rewrite Hnow; cbn [ext dates];
  unfold bind at 1; unfold outside at 1; cbn [ext dates];
  rewrite Hsuffix; unfold ret at 1;
  unfold try_catch; unfold bind at 1; unfold logger at 1, outside at 1;
  cbn [ext dates].

Section ControllerProperties.
Context {E : Type}.
Context `{ILeasingRepository E} `{INotificationService E}
        `{IInventoryService E} `{IBillingService E} `{IEmployeeService E}
        `{Logger E} `{Runtime E}.
Import LeasingAgreementController.

Lemma handleError_spec (error : JSError) (correlationId : string)
    (w : World E) :
  handleError error correlationId w
  = match error with
    | Unserializable _ reason => (Throw (Error reason), w)
    | _ =>
        (Return (errorResponse error correlationId),
         mkWorld (dates w)
           (log LError "Request failed" [("correlationId", correlationId)]
              (ext w)))
    end.
Proof.
  unfold handleError, bind, logger_error, logger, outside.
  destruct error; reflexivity.
Qed.

(** Formatting the schedule only throws the [RangeError] of an invalid
    date. *)
Lemma array_map_serializable (l : list PaymentSchedule.t) (w w' : World E)
    (error : JSError) :
  array_map formatPaymentSchedule l w = (Throw error, w') ->
  is_serializable error = true.
Proof.
  revert w. induction l as [|p l IH]; intros w; [discriminate|].
  cbn [array_map]. unfold bind at 1. unfold formatPaymentSchedule at 1.
  unfold bind at 1. unfold dateToISOString, bind, readDate, gets.
  destruct (JSDate.toISOString _) as [dueDate|].
  - unfold ret at 1 2.
    destruct (array_map formatPaymentSchedule l w) as [[ys|err] w1] eqn:Hl.
    + discriminate.
    + intros [= <- <-]. apply (IH w). exact Hl.
  - unfold throw. intros [= <- <-]. reflexivity.
Qed.

(** A request without an authenticated user is not processed: the
    answer is 401 with the code UNAUTHORIZED, and the service is not
    called. Apart from the clock, the random source and the log entry
    of the request, the world is as it was. *)
Theorem unauthenticated_request_is_not_processed (config : LeasingConfig.t)
    (req : Request.t) (w : World E) (now : Z) (suffix : string) (e0 e1 : E) :
  Date_now (ext w) = (now, e0) ->
  random_suffix e0 = (suffix, e1) ->
  string_truthy (User.id <$> Request.user req) = false ->
  let correlationId := "req-" ++ pretty now ++ "-" ++ suffix in
  createAgreement config req w
  = (Return (HttpResponse.mk 401
               (HttpResponse.Failure "UNAUTHORIZED" "Authentication required"
                  None (Some correlationId))),
     mkWorld (dates w)
       (log LInfo "Creating leasing agreement"
          ([("correlationId", correlationId)]
           ++ log_field "userId" (User.id <$> Request.user req)
           ++ log_field "companyId"
                (CreateAgreementRequest.companyId <$> Request.body req))%list
          e1)).
Proof.
  intros Hnow Hsuffix Huser correlationId.
  controller_start Hnow Hsuffix.
  destruct (Request.user req) as [user|]; [|reflexivity].
  cbn [fmap option_fmap option_map string_truthy] in Huser.
  apply negb_false_iff in Huser. rewrite Huser. reflexivity.
Qed.

(** A request of an authenticated user that has no body, or whose
    content type is not JSON, is answered with the code BAD_REQUEST and
    the status 500: [getStatusCodeForError] has no case for that code.
    The service is not called. *)
Theorem bad_request_is_answered_500 (config : LeasingConfig.t)
    (req : Request.t) (w : World E) (now : Z) (suffix : string) (e0 e1 : E)
    (user : User.t) :
  Date_now (ext w) = (now, e0) ->
  random_suffix e0 = (suffix, e1) ->
  Request.user req = Some user ->
  JSString.is_empty (User.id user) = false ->
  Request.body req = None \/ Request.is_json req = false ->
  let correlationId := "req-" ++ pretty now ++ "-" ++ suffix in
  exists message,
    createAgreement config req w
    = (Return (HttpResponse.mk 500
                 (HttpResponse.Failure "BAD_REQUEST" message None
                    (Some correlationId))),
       mkWorld (dates w)
         (log LInfo "Creating leasing agreement"
            ([("correlationId", correlationId); ("userId", User.id user)]
             ++ log_field "companyId"
                  (CreateAgreementRequest.companyId <$> Request.body req))%list
            e1)).
Proof.
  intros Hnow Hsuffix Huser Hid Hbad correlationId.
  controller_start Hnow Hsuffix.
  rewrite Huser, Hid. cbn [fmap option_fmap option_map log_field app].
  destruct (Request.body req) as [agreementRequest|].
  - destruct Hbad as [Hbody|Hjson]; [discriminate|]. rewrite Hjson.
    cbn [negb]. eexists. reflexivity.
  - eexists. reflexivity.
Qed.

(** An error of the service is answered according to its class, and
    nothing of an unexpected error is disclosed. When the request of an
    authenticated user with access to the company reaches the service
    and the service throws, [createAgreement] logs the failure and
    answers 400 with the message and the field of a [ValidationError],
    409 with the message of a [BusinessRuleError], and 500 with the
    fixed message [An unexpected error occurred] for any other value,
    [undefined] and [null] included, whatever its own message. The one
    value that is not answered is an error that the logger cannot
    serialize: [createAgreement] then throws the [TypeError] of
    [JSON.stringify], and nothing is logged or sent. *)
Theorem service_error_is_answered_by_class (config : LeasingConfig.t)
    (req : Request.t) (w : World E) (now : Z) (suffix : string) (e0 e1 : E)
    (user : User.t) (agreementRequest : CreateAgreementRequest.t)
    (error : JSError) (w3 : World E) :
  Date_now (ext w) = (now, e0) ->
  random_suffix e0 = (suffix, e1) ->
  Request.user req = Some user ->
  JSString.is_empty (User.id user) = false ->
  Request.body req = Some agreementRequest ->
  Request.is_json req = true ->
  hasCompanyAccess user (CreateAgreementRequest.companyId agreementRequest)
    = true ->
  let correlationId := "req-" ++ pretty now ++ "-" ++ suffix in
  LeasingAgreementService.processLeasingAgreement config agreementRequest
    (mkWorld (dates w)
       (log LInfo "Creating leasing agreement"
          [("correlationId", correlationId); ("userId", User.id user);
           ("companyId", CreateAgreementRequest.companyId agreementRequest)]
          e1))
    = (Throw error, w3) ->
  createAgreement config req w
  = match error with
    | Unserializable _ reason => (Throw (Error reason), w3)
    | _ =>
        (Return
           match error with
           | ValidationError msg field _ =>
               HttpResponse.mk 400
                 (HttpResponse.Failure "VALIDATION_ERROR" msg (Some field)
                    (Some correlationId))
           | BusinessRuleError msg _ _ =>
               HttpResponse.mk 409
                 (HttpResponse.Failure "BUSINESS_RULE_ERROR" msg None
                    (Some correlationId))
           | _ =>
               HttpResponse.mk 500
                 (HttpResponse.Failure "INTERNAL_ERROR"
                    "An unexpected error occurred" None (Some correlationId))
           end,
         mkWorld (dates w3)
           (log LError "Request failed" [("correlationId", correlationId)]
              (ext w3)))
    end.
Proof.
  intros Hnow Hsuffix Huser Hid Hbody Hjson Haccess correlationId Hservice.
  controller_start Hnow Hsuffix.
  rewrite Huser, Hid, Hbody, Hjson, Haccess.
  cbn [negb fmap option_fmap option_map log_field app].
  unfold bind at 1. fold correlationId. rewrite Hservice.
  rewrite handleError_spec. destruct error; reflexivity.
Qed.

(** [createAgreement] sends one response, whatever the request and
    whatever the collaborators do, unless the logger throws: the response
    has the status 201 with the agreement, or one of 400, 401, 403, 409
    and 500 with an error. The exception is a service that throws an
    error that the logger cannot serialize: [handleError] hands it to the
    logger first, [JSON.stringify] throws a [TypeError], and
    [createAgreement] throws that [TypeError] without a response. *)
Theorem createAgreement_responds_unless_logger_throws
    (config : LeasingConfig.t) (req : Request.t) (w : World E) :
  (exists res w',
     createAgreement config req w = (Return res, w')
     /\ match HttpResponse.json res with
        | HttpResponse.Success _ _ => HttpResponse.statusCode res = 201
        | HttpResponse.Pending _ _ => False
        | HttpResponse.Failure _ _ _ _ =>
            In (HttpResponse.statusCode res) [400; 401; 403; 409; 500]
        end)
  \/ (exists agreementRequest message reason w1 w',
        Request.body req = Some agreementRequest
        /\ LeasingAgreementService.processLeasingAgreement config
             agreementRequest w1
           = (Throw (Unserializable message reason), w')
        /\ createAgreement config req w = (Throw (Error reason), w')).
Proof.
  enough (Hr : forall r, r = createAgreement config req w ->
            (exists res w',
               r = (Return res, w')
               /\ match HttpResponse.json res with
                  | HttpResponse.Success _ _ => HttpResponse.statusCode res = 201
                  | HttpResponse.Pending _ _ => False
                  | HttpResponse.Failure _ _ _ _ =>
                      In (HttpResponse.statusCode res) [400; 401; 403; 409; 500]
                  end)
            \/ (exists agreementRequest message reason w1 w',
                  Request.body req = Some agreementRequest
                  /\ LeasingAgreementService.processLeasingAgreement config
                       agreementRequest w1
                     = (Throw (Unserializable message reason), w')
                  /\ r = (Throw (Error reason), w')))
    by exact (Hr _ eq_refl).
  intros r.
  destruct (Date_now (ext w)) as [now e0] eqn:Hnow.
  destruct (random_suffix e0) as [suffix e1] eqn:Hsuffix.
  controller_start Hnow Hsuffix.
  set (correlationId := "req-" ++ pretty now ++ "-" ++ suffix).
  set (w2 := mkWorld (dates w) _).
  destruct (Request.user req) as [user|];
    [|intros ->; left; eexists; eexists; split; [reflexivity|]; simpl; auto].
  destruct (JSString.is_empty (User.id user));
    [intros ->; left; eexists; eexists; split; [reflexivity|]; simpl; auto|].
  destruct (Request.body req) as [agreementRequest|] eqn:Hbody;
    [|intros ->; left; eexists; eexists; split; [reflexivity|]; simpl; auto 6].
  destruct (Request.is_json req); cbn [negb];
    [|intros ->; left; eexists; eexists; split; [reflexivity|]; simpl; auto 6].
  destruct (hasCompanyAccess user _); cbn [negb];
    [|intros ->; left; eexists; eexists; split; [reflexivity|]; simpl; auto].
  assert (Hfail : forall error w0,
            is_serializable error = true ->
            exists res w',
              handleError error correlationId w0 = (Return res, w')
              /\ match HttpResponse.json res with
                 | HttpResponse.Success _ _ => HttpResponse.statusCode res = 201
                 | HttpResponse.Pending _ _ => False
                 | HttpResponse.Failure _ _ _ _ =>
                     In (HttpResponse.statusCode res) [400; 401; 403; 409; 500]
                 end).
  { intros error w0 Hs. rewrite handleError_spec.
    destruct error; try discriminate Hs; eexists; eexists;
      (split; [reflexivity|]); simpl; auto 6. }
  unfold bind at 1.
  destruct (LeasingAgreementService.processLeasingAgreement config
              agreementRequest w2) as [[agreement|error] w3] eqn:Hservice.
  2:{ intros ->.
      destruct (is_serializable error) eqn:Hs; [left; apply Hfail, Hs|].
      destruct error; try discriminate Hs. right.
      exists agreementRequest, message0, reason, w2, w3.
      split; [reflexivity|]. split; [exact Hservice|].
      rewrite handleError_spec. reflexivity. }
  unfold bind at 1.
  destruct (array_map formatPaymentSchedule _ w3) as [[schedule|error] w4]
    eqn:Hmap.
  2:{ intros ->. left. apply Hfail.
      exact (array_map_serializable _ _ _ _ Hmap). }
  unfold bind at 1. unfold dateToISOString at 1. unfold bind at 1.
  unfold readDate, gets.
  destruct (JSDate.toISOString _) as [createdAt|];
    [|intros ->; left; apply Hfail; reflexivity].
  unfold ret at 1. unfold bind, logger, outside, ret.
  intros ->. left. eexists. eexists. split; reflexivity.
Qed.

End ControllerProperties.

Section CompanyAccess.
Context {E : Type}.
Context `{ILeasingRepository E} `{INotificationService E}
        `{IInventoryService E} `{IBillingService E} `{IEmployeeService E}
        `{Logger E} `{Runtime E}.
Import LeasingAgreementController SecurityMiddleware.

(** The company access middleware and the controller. When
    [validateCompanyAccess] lets a request through whose body names a
    company, it has left the request and the world as they were, and
    the user of the request has access to that company in the sense of
    the controller, which therefore never answers 403: it sends a
    response with another status, or, when the logger cannot serialize
    the error of the service, throws the [TypeError] of the logger. *)
Theorem company_access_is_checked_once (config : LeasingConfig.t)
    (req req' : Request.t) (w w1 : World E)
    (agreementRequest : CreateAgreementRequest.t) :
  validateCompanyAccess req w = (Return (Next req'), w1) ->
  Request.body req = Some agreementRequest ->
  JSString.is_empty (CreateAgreementRequest.companyId agreementRequest)
    = false ->
  w1 = w /\ req' = req
  /\ (exists user,
        Request.user req = Some user
        /\ hasCompanyAccess user
             (CreateAgreementRequest.companyId agreementRequest) = true)
  /\ forall w2 : World E,
       (exists res w3,
          createAgreement config req w2 = (Return res, w3)
          /\ HttpResponse.statusCode res <> 403)
       \/ (exists reason w3,
             createAgreement config req w2 = (Throw (Error reason), w3)).
Proof.
  intros Hpass Hbody Hcompany.
  unfold validateCompanyAccess in Hpass. rewrite Hbody in Hpass.
  destruct (Request.user req) as [user|] eqn:Huser; [|discriminate].
  cbn [fmap option_fmap option_map] in Hpass.
  unfold string_or, string_truthy in Hpass.
  repeat (rewrite Hcompany in Hpass; cbn [negb] in Hpass).
  assert (Haccess : hasCompanyAccess user
                      (CreateAgreementRequest.companyId agreementRequest)
                    = true /\ w1 = w /\ req' = req).
  { unfold hasCompanyAccess.
    destruct (String.eqb (User.role user) "admin").
    - rewrite orb_true_r. injection Hpass as <- <-. auto.
    - rewrite orb_false_r.
      destruct (bool_decide _) eqn:Hdec; cbn [negb] in Hpass.
      + apply bool_decide_eq_true in Hdec. injection Hdec as Hdec.
        rewrite Hdec, String.eqb_refl. injection Hpass as <- <-. auto.
      + unfold bind, logger, outside, ret in Hpass. discriminate. }
  destruct Haccess as (Haccess & -> & ->).
  split; [reflexivity|]. split; [reflexivity|]. split; [exists user; auto|].
  intros w2.
  enough (Hr : forall r, r = createAgreement config req w2 ->
            (exists res w3,
               r = (Return res, w3) /\ HttpResponse.statusCode res <> 403)
            \/ (exists reason w3, r = (Throw (Error reason), w3)))
    by exact (Hr _ eq_refl).
  intros r.
  destruct (Date_now (ext w2)) as [now e0] eqn:Hnow.
  destruct (random_suffix e0) as [suffix e1] eqn:Hsuffix.
  controller_start Hnow Hsuffix.
  rewrite Huser, Hbody, Haccess. cbn [negb].
  set (correlationId := "req-" ++ pretty now ++ "-" ++ suffix).
  set (w2' := mkWorld (dates w2) _).
  destruct (JSString.is_empty (User.id user));
    [intros ->; left; eexists; eexists; split; [reflexivity|];
     vm_compute; discriminate|].
  destruct (Request.is_json req); cbn [negb];
    [|intros ->; left; eexists; eexists; split; [reflexivity|];
      vm_compute; discriminate].
  assert (Hfail : forall error w0,
            (exists res w',
               handleError error correlationId w0 = (Return res, w')
               /\ HttpResponse.statusCode res <> 403)
            \/ (exists reason w',
                  handleError error correlationId w0
                  = (Throw (Error reason), w'))).
  { intros error w0. rewrite handleError_spec.
    destruct error;
      try (left; eexists; eexists; split; [reflexivity|];
           vm_compute; discriminate).
    right. eexists. eexists. reflexivity. }
  unfold bind at 1.
  destruct (LeasingAgreementService.processLeasingAgreement config
              agreementRequest w2') as [[agreement|error] w3];
    [|intros ->; apply Hfail].
  unfold bind at 1.
  destruct (array_map formatPaymentSchedule _ w3) as [[schedule|error] w4];
    [|intros ->; apply Hfail].
  unfold bind at 1. unfold dateToISOString at 1. unfold bind at 1.
  unfold readDate, gets.
  destruct (JSDate.toISOString _) as [createdAt|]; [|intros ->; apply Hfail].
  unfold ret at 1. unfold bind, logger, outside, ret.
  intros ->. left. eexists. eexists. split; [reflexivity|].
  vm_compute. discriminate.
Qed.

End CompanyAccess.

Section ControllerSuccess.
Context {E : Type}.
Context `{ILeasingRepository E} `{INotificationService E}
        `{IInventoryService E} `{IBillingService E} `{IEmployeeService E}
        `{Logger E} `{Runtime E}.
Import LeasingAgreementController.

Lemma array_map_formatted (l : list PaymentSchedule.t) (w : World E) :
  forall schedule,
    mapM (formatted (dates w)) l = Some schedule ->
    array_map formatPaymentSchedule l w = (Return schedule, w).
Proof.
  induction l as [|p l IH]; intros schedule Hm.
  - injection Hm as <-. reflexivity.
  - cbn [mapM] in Hm.
    destruct (formatted (dates w) p) as [y|] eqn:Hf; cbn in Hm;
      [|discriminate Hm].
    destruct (mapM (formatted (dates w)) l) as [rest|]; cbn in Hm;
      [|discriminate Hm].
    injection Hm as <-.
    unfold formatted in Hf.
    destruct (JSDate.toISOString (getTime (dates w) (PaymentSchedule.dueDate p)))
      as [dueDate|] eqn:Hiso; cbn in Hf; [|discriminate Hf].
    injection Hf as <-.
    cbn [array_map]. unfold bind at 1. unfold formatPaymentSchedule at 1.
    unfold bind at 1. unfold dateToISOString, bind, readDate, gets.
    rewrite Hiso. unfold ret. rewrite (IH rest eq_refl). reflexivity.
Qed.

(** The answer to a request that the service has processed. When the
    service returns an agreement whose dates are valid, the answer is
    201 with the identifier, the status and the price of that agreement
    (the discounted price, as [totalCost]), its creation date in ISO
    form, and one entry for each payment, in order, with its
    identifier, its due date in ISO form, its amount and its status. *)
Theorem processed_request_is_answered_201 (config : LeasingConfig.t)
    (req : Request.t) (w : World E) (now : Z) (suffix : string) (e0 e1 : E)
    (user : User.t) (agreementRequest : CreateAgreementRequest.t)
    (agreement : LeasingAgreement.t) (w3 : World E)
    (schedule : list PaymentScheduleResponse.t) (createdAt : string) :
  Date_now (ext w) = (now, e0) ->
  random_suffix e0 = (suffix, e1) ->
  Request.user req = Some user ->
  JSString.is_empty (User.id user) = false ->
  Request.body req = Some agreementRequest ->
  Request.is_json req = true ->
  hasCompanyAccess user (CreateAgreementRequest.companyId agreementRequest)
    = true ->
  let correlationId := "req-" ++ pretty now ++ "-" ++ suffix in
  LeasingAgreementService.processLeasingAgreement config agreementRequest
    (mkWorld (dates w)
       (log LInfo "Creating leasing agreement"
          [("correlationId", correlationId); ("userId", User.id user);
           ("companyId", CreateAgreementRequest.companyId agreementRequest)]
          e1))
    = (Return agreement, w3) ->
  mapM (formatted (dates w3)) (LeasingAgreement.paymentSchedule agreement)
    = Some schedule ->
  JSDate.toISOString (getTime (dates w3) (LeasingAgreement.createdAt agreement))
    = Some createdAt ->
  createAgreement config req w
  = (Return
       (HttpResponse.mk 201
          (HttpResponse.Success
             (AgreementResponse.mk (LeasingAgreement.id agreement)
                (LeasingAgreement.status agreement)
                (LeasingAgreement.price agreement) schedule createdAt)
             correlationId)),
     mkWorld (dates w3)
       (log LInfo "Agreement created successfully"
          [("correlationId", correlationId);
           ("agreementId", LeasingAgreement.id agreement);
           ("userId", User.id user)] (ext w3))).
Proof.
  intros Hnow Hsuffix Huser Hid Hbody Hjson Haccess correlationId Hservice
    Hschedule Hcreated.
  controller_start Hnow Hsuffix.
  rewrite Huser, Hid, Hbody, Hjson, Haccess.
  cbn [negb fmap option_fmap option_map log_field app].
  unfold bind at 1. fold correlationId. rewrite Hservice.
  unfold bind at 1. rewrite (array_map_formatted _ w3 schedule Hschedule).
  unfold bind at 1. unfold dateToISOString, bind, readDate, gets.
  rewrite Hcreated. reflexivity.
Qed.

End ControllerSuccess.

(** ** The routes *)

Section RouteProperties.
Context {E : Type}.
Context `{ILeasingRepository E} `{INotificationService E}
        `{IInventoryService E} `{IBillingService E} `{IEmployeeService E}
        `{Logger E} `{Runtime E}.
Import SecurityMiddleware.

(** What [authenticate] does with a request: without a header that
    starts with [Bearer ], or with a token of at most ten characters, it
    answers 401; otherwise it passes the request on with the one user of
    the mock, whatever the token. The world is left as it was. *)
Lemma authenticate_spec (req : Request.t) (w : World E) :
  (exists code message,
     authenticate req w
     = (Return (Responded
                  (HttpResponse.mk 401
                     (HttpResponse.Failure code message None None))), w)
     /\ (code = "MISSING_TOKEN" \/ code = "INVALID_TOKEN"))
  \/ authenticate req w
     = (Return (Next (Request.with_user req
                        (User.mk "user123" "user@example.com" "comp1" "user"))),
        w).
Proof.
  unfold authenticate.
  destruct (Request.authorization req) as [authHeader|];
    [|left; eexists; eexists; split; [reflexivity|auto]].
  destruct (JSString.is_empty authHeader || negb (String.prefix _ authHeader));
    [left; eexists; eexists; split; [reflexivity|auto]|].
  unfold validateToken.
  destruct (10 <? _);
    [right; reflexivity|left; eexists; eexists; split; [reflexivity|auto]].
Qed.

(** The route of the agreements of an employee is closed. The route
    asks for the role [manager], and the only user that [authenticate]
    ever sets has the role [user]: every request is answered 401 (no
    token, or a token of at most ten characters) or 403 (any other
    token), and the handler of the controller is never reached. *)
Theorem employee_agreements_route_is_closed (req : Request.t) (w : World E) :
  exists status code message w',
    App.getEmployeeAgreements req w
    = (Return (HttpResponse.mk status
                 (HttpResponse.Failure code message None None)), w')
    /\ dates w' = dates w
    /\ ((status = 401 /\ (code = "MISSING_TOKEN" \/ code = "INVALID_TOKEN")
         /\ w' = w)
        \/ (status = 403 /\ code = "INSUFFICIENT_PERMISSIONS"
            /\ ext w'
               = log LWarn "Authorization failed"
                   [("userId", "user123"); ("userRole", "user");
                    ("requiredRole", "manager");
                    ("endpoint", Request.path req)] (ext w))).
Proof.
  unfold App.getEmployeeAgreements. cbn [App.handlers].
  unfold bind at 1.
  destruct (authenticate_spec req w) as [(code & message & -> & Hcode)| ->].
  - eexists. eexists. eexists. eexists. split; [reflexivity|].
    split; [reflexivity|]. left. auto.
  - unfold bind at 1. unfold authorize.
    cbn [Request.user Request.with_user User.role User.id string_truthy
         JSString.is_empty negb andb log_field app Request.path].
    replace (bool_decide (Some "user" = Some "manager")) with false
      by (symmetry; apply bool_decide_eq_false; discriminate).
    cbn [negb andb]. change (String.eqb "user" "admin") with false.
    cbn [negb andb]. unfold bind, logger, outside, ret. cbn [ext dates].
    eexists. eexists. eexists. eexists. split; [reflexivity|].
    split; [reflexivity|]. right. auto.
Qed.

End RouteProperties.

(** ** The configuration *)

Section ConfigProperties.
Context {E : Type}.
Context `{ILeasingRepository E} `{INotificationService E}
        `{IInventoryService E} `{IBillingService E} `{IEmployeeService E}
        `{Logger E} `{Runtime E}.
Import Config LeasingAgreementService.

Lemma Prim2SF_nan : Prim2SF PrimFloat.nan = S754_nan.
Proof. vm_compute. reflexivity. Qed.

Lemma gt_nan (x : float) : JSNumber.gt x PrimFloat.nan = false.
Proof.
  unfold JSNumber.gt. rewrite FloatAxioms.ltb_spec, Prim2SF_nan. reflexivity.
Qed.

Lemma ge_nan (x : float) : JSNumber.ge x PrimFloat.nan = false.
Proof.
  unfold JSNumber.ge. rewrite FloatAxioms.leb_spec, Prim2SF_nan. reflexivity.
Qed.

Lemma parseInt_nan (s : string) :
  starts_with_integer s = false -> parseInt s = PrimFloat.nan.
Proof.
  unfold starts_with_integer, parseInt.
  set (s1 := JSString.trimStart s).
  assert (Hlead : forall s2,
            match s2 with
            | String c _ =>
                match digit_value c with Some _ => true | None => false end
            | EmptyString => false
            end = false -> leading_digits s2 None = None).
  { intros [|c r]; [reflexivity|]. cbn [leading_digits].
    destruct (digit_value c); [discriminate|reflexivity]. }
  destruct s1 as [|c r]; [reflexivity|].
  destruct (Ascii.eqb c "-"); [intros Hs; rewrite (Hlead r Hs); reflexivity|].
  destruct (Ascii.eqb c "+"); intros Hs;
    [rewrite (Hlead r Hs)|rewrite (Hlead (String c r) Hs)]; reflexivity.
Qed.

(** A ceiling that cannot be read is not enforced. When MAX_PRICE is
    set to a text in which [parseInt] finds no integer, the ceiling of
    the configuration is [NaN], and [validateBusinessRules] refuses no
    price: once the employee is valid and the item available it
    returns, whatever the price of the request. *)
Theorem unreadable_ceiling_is_not_enforced (parseFloat : string -> float)
    (env : gmap string string) (text : string)
    (request : CreateAgreementRequest.t) (w : World E) (e1 e2 : E) :
  env !! "MAX_PRICE" = Some text ->
  JSString.is_empty text = false ->
  starts_with_integer text = false ->
  validateEmployee (CreateAgreementRequest.employeeId request)
    (CreateAgreementRequest.companyId request) (ext w) = (Return true, e1) ->
  checkAvailability (CreateAgreementRequest.itemId request) e1
    = (Return true, e2) ->
  let config := AppConfig.leasing (loadConfig parseFloat env) in
  JSNumber.isNaN (LeasingConfig.maxPrice config) = true
  /\ validateBusinessRules config request w = (Return tt, mkWorld (dates w) e2).
Proof.
  intros Henv Htext Hint Hemp Hav config.
  assert (Hmax : LeasingConfig.maxPrice config = PrimFloat.nan).
  { unfold config, loadConfig. cbn [AppConfig.leasing LeasingConfig.maxPrice].
    unfold env_or. rewrite Henv, Htext. apply parseInt_nan. exact Hint. }
  split; [rewrite Hmax; reflexivity|].
  unfold validateBusinessRules, bind, outside. rewrite Hemp.
  cbn [negb ext dates]. rewrite Hav. cbn [negb ext dates].
  rewrite Hmax, gt_nan. reflexivity.
Qed.

(** A threshold that cannot be read disables the long-term discount.
    When LONG_TERM_THRESHOLD is set to a text in which [parseInt] finds
    no integer, the long-term multiplier is 1 for every duration. *)
Theorem unreadable_threshold_disables_discount (parseFloat : string -> float)
    (env : gmap string string) (text : string) (durationMonths : option Z) :
  env !! "LONG_TERM_THRESHOLD" = Some text ->
  JSString.is_empty text = false ->
  starts_with_integer text = false ->
  let config := AppConfig.leasing (loadConfig parseFloat env) in
  longTermMultiplierOf config durationMonths = 1%float.
Proof.
  intros Henv Htext Hint config.
  unfold longTermMultiplierOf, config, loadConfig.
  cbn [AppConfig.leasing LeasingConfig.longTermThreshold].
  unfold env_or. rewrite Henv, Htext, (parseInt_nan _ Hint), ge_nan.
  reflexivity.
Qed.

End ConfigProperties.

Section Defaults.
Import Config.

(** The defaults of the leasing configuration. In an environment where
    none of the five variables of the leasing configuration is set (or
    where they are set to the empty string), [loadConfig] gives 60 and 1
    for the longest and the shortest lease, a ceiling of 1000000, the
    four currencies, the multipliers 1, 0.9 and 0.8, a threshold of 12
    months and the discount read from [0.8]. *)
Theorem loadConfig_defaults (parseFloat : string -> float)
    (env : gmap string string) :
  (forall name,
     In name ["MAX_LEASING_DURATION"; "MIN_LEASING_DURATION"; "MAX_PRICE";
              "LONG_TERM_DISCOUNT"; "LONG_TERM_THRESHOLD"] ->
     env !! name = None \/ env !! name = Some EmptyString) ->
  AppConfig.leasing (loadConfig parseFloat env)
  = LeasingConfig.mk 60 1 1000000 ["USD"; "EUR"; "GBP"; "CAD"]
      (<["STANDARD" := 1%float]> (<["PREMIUM" := 0.9%float]>
         (<["VIP" := 0.8%float]> ∅)))
      (parseFloat "0.8") 12.
Proof.
  intros Hunset.
  assert (Hdef : forall name fallback,
            In name ["MAX_LEASING_DURATION"; "MIN_LEASING_DURATION";
                     "MAX_PRICE"; "LONG_TERM_DISCOUNT"; "LONG_TERM_THRESHOLD"] ->
            env_or env name fallback = fallback).
  { intros name fallback Hname. unfold env_or.
    destruct (Hunset name Hname) as [-> | ->]; reflexivity. }
  unfold loadConfig. cbn [AppConfig.leasing].
  rewrite !Hdef by (simpl; tauto).
  f_equal; vm_compute; reflexivity.
Qed.

End Defaults.

(** ** The properties of this part, on the inputs of the tests *)

Import HttpFixtures.

(** With the clock at noon of 15 June 2025, a lease from 1 July to
    31 July 2025, thirty days later, is accepted. *)
Lemma date_range_accepted_iff_witness :
  Validator.validateDateRange 1751328000000 1753920000000 initialWorld
  = (Return tt, mkWorld (dates initialWorld) initialEnv)
  <-> clock initialEnv
      - JSDate.TimeWithinDay (JSDate.LocalTime LocalTZA (clock initialEnv))
      <= 1751328000000
      /\ JSDate.LocalTime LocalTZA 1751328000000 + 30 * JSDate.msPerDay
         <= JSDate.LocalTime LocalTZA 1753920000000
      /\ JSDate.gt (Some 1753920000000)
           (JSDate.setFullYear LocalTZA (Some (clock initialEnv))
              (int_add (JSDate.getFullYear LocalTZA (Some (clock initialEnv)))
                 (Some 5)))
         = false.
Proof.
  apply (date_range_accepted_iff 1751328000000 1753920000000 initialWorld
           (clock initialEnv) (clock initialEnv) initialEnv initialEnv);
    vm_compute; first [reflexivity | discriminate].
Defined.

(** The request of the first test is validated. *)
Lemma validated_request_witness :
  dates initialWorld = dates initialWorld
  /\ is_valid_id "emp1" = true
  /\ is_valid_id "item1" = true
  /\ is_valid_id "comp1" = true
  /\ (exists startDate endDate,
        parseISO "2025-07-01T00:00:00.000Z" = Some startDate
        /\ parseISO "2025-12-01T00:00:00.000Z" = Some endDate
        /\ fst (Validator.validateDateRange startDate endDate initialWorld)
           = Return tt)
  /\ is_positive_price 1000 = true
  /\ JSNumber.le 1000 1000000 = true
  /\ In "USD" ["USD"; "EUR"; "GBP"; "CAD"]
  /\ (("MONTHLY" = "MONTHLY" /\ getIntervalMonths "MONTHLY" = 1)
      \/ ("MONTHLY" = "QUARTERLY" /\ getIntervalMonths "MONTHLY" = 3)
      \/ ("MONTHLY" = "ANNUALLY" /\ getIntervalMonths "MONTHLY" = 12)).
Proof.
  refine (validated_request validRequest initialWorld initialWorld _).
  vm_compute. reflexivity.
Defined.

(** The lease of the tests, from 1 July to 1 December 2025, paid
    monthly: five months, five payments. *)
Lemma payments_of_a_lease_witness :
  exists months n schedule w',
    calculateDurationInMonths (dates (testWorld "2025-07-01" "2025-12-01"))
      0%nat 1%nat = Some months
    /\ 0 <= months
    /\ totalPaymentsOf (dates (testWorld "2025-07-01" "2025-12-01"))
         (testAgreement 1000) "MONTHLY" = Some n
    /\ 0 <= n
    /\ (n - 1) * getIntervalMonths "MONTHLY" < months
       <= n * getIntervalMonths "MONTHLY"
    /\ generatePaymentSchedule (testAgreement 1000) "MONTHLY"
         (testWorld "2025-07-01" "2025-12-01") = (Return schedule, w')
    /\ length schedule = Z.to_nat n
    /\ (JSDate.LocalTime LocalTZA 1751328000000 + 31 * JSDate.msPerDay
        <= JSDate.LocalTime LocalTZA 1764547200000 ->
        1 <= months /\ 1 <= n).
Proof.
  apply (payments_of_a_lease (testAgreement 1000) "MONTHLY"
           (testWorld "2025-07-01" "2025-12-01") 1751328000000 1764547200000).
  - vm_compute. reflexivity.
  - vm_compute. reflexivity.
  - vm_compute. discriminate.
Defined.

Lemma due_dates_within_lease_witness :
  exists schedule w',
    generatePaymentSchedule (testAgreement 1000) "MONTHLY"
      (testWorld "2025-07-01" "2025-12-01") = (Return schedule, w')
    /\ forall (i : nat) (p : PaymentSchedule.t),
         schedule !! i = Some p ->
         exists due,
           getTime (dates w') (PaymentSchedule.dueDate p) = Some due
           /\ 1751328000000 <= due < 1764547200000.
Proof.
  apply (due_dates_within_lease (testAgreement 1000) "MONTHLY"
           (testWorld "2025-07-01" "2025-12-01") 1751328000000 1764547200000).
  - vm_compute. reflexivity.
  - vm_compute. reflexivity.
  - vm_compute. discriminate.
  - vm_compute. discriminate.
  - vm_compute. discriminate.
Defined.

(** The mocks with [reserveItem] rejecting: the error is thrown and the
    item is as available as before. *)
Lemma reservation_failure_needs_no_rollback_witness :
  executeAgreementTransaction (testAgreement 1000) "c-1"
    (Faulty.world ["reserveItem"])
  = (Throw (Error "reserveItem failed"),
     mkWorld [] (Faulty.mk initialEnv ["reserveItem"])).
Proof.
  apply (reservation_failure_needs_no_rollback (testAgreement 1000) "c-1"
           (Faulty.world ["reserveItem"]) (Error "reserveItem failed")
           (Faulty.mk initialEnv ["reserveItem"])).
  vm_compute. reflexivity.
Defined.

(** The mocks with [save] rejecting: the item reserved is released. *)
Lemma save_failure_releases_item_witness :
  let w := Faulty.world ["save"] in
  let e1 := snd (reserveItem "item1" (ext w)) in
  executeAgreementTransaction (testAgreement 1000) "c-1" w
    = (Throw (Error "save failed"),
       mkWorld (dates w) (snd (releaseItem "item1" e1)))
  /\ fst (checkAvailability "item1" e1) = Return false
  /\ fst (checkAvailability "item1"
            (ext (snd (executeAgreementTransaction (testAgreement 1000)
                         "c-1" w))))
     = Return true.
Proof.
  intros w e1. split.
  - rewrite (save_failure_releases_item (testAgreement 1000) "c-1" w true
               (Error "save failed") e1 e1); vm_compute; reflexivity.
  - split; vm_compute; reflexivity.
Defined.

(** An employee identifier of two characters: the request is refused
    with INVALID_LENGTH, and the mocks are as after [beforeEach]. *)
Lemma invalid_request_reaches_no_collaborator_witness :
  let error :=
    ValidationError "employeeId must be between 3 and 50 characters"
      "employeeId" "INVALID_LENGTH" in
  let e2 :=
    log LInfo "Processing leasing agreement"
      [("correlationId", "1749988800000-k3x9q2m7d"); ("employeeId", "e1");
       ("itemId", "item1")] initialEnv in
  (is_validation_error requestFields validationCodes error
   /\ (e2 = e2 \/ e2 = snd (Date_now (snd (Date_now e2))))
   /\ processLeasingAgreement testConfig shortIdRequest initialWorld
      = (Throw error,
         mkWorld []
           (log LError "Failed to process leasing agreement"
              [("correlationId", "1749988800000-k3x9q2m7d");
               ("error", "employeeId must be between 3 and 50 characters")]
              e2)))
  /\ reservedItems
       (ext (snd (processLeasingAgreement testConfig shortIdRequest
                    initialWorld))) = ∅.
Proof.
  intros error e2. split.
  - refine (invalid_request_reaches_no_collaborator testConfig shortIdRequest
              initialWorld 1749988800000 "k3x9q2m7d" initialEnv initialEnv
              error (mkWorld [] e2) _ _ _); vm_compute; reflexivity.
  - vm_compute. reflexivity.
Defined.

(** An employee of another company: the request is refused with
    INVALID_EMPLOYEE after the employee service alone has been asked. *)
Lemma refused_request_reserves_nothing_witness :
  let error :=
    BusinessRuleError
      "Employee does not exist or does not belong to specified company"
      "EMPLOYEE_VALIDATION" "INVALID_EMPLOYEE" in
  let e2 :=
    log LInfo "Processing leasing agreement"
      [("correlationId", "1749988800000-k3x9q2m7d"); ("employeeId", "emp3");
       ("itemId", "item1")] initialEnv in
  let asked := snd (validateEmployee "emp3" "comp1" e2) in
  (asked = asked \/ asked = snd (checkAvailability "item1" asked))
  /\ processLeasingAgreement testConfig otherCompanyRequest initialWorld
     = (Throw error,
        mkWorld []
          (log LError "Failed to process leasing agreement"
             [("correlationId", "1749988800000-k3x9q2m7d");
              ("error", message error)] asked)).
Proof.
  intros error e2 asked.
  refine (refused_request_reserves_nothing testConfig otherCompanyRequest
            initialWorld 1749988800000 "k3x9q2m7d" initialEnv initialEnv
            error (mkWorld [] e2) (mkWorld [] asked) _ _ _ _);
    vm_compute; reflexivity.
Defined.

(** The agreement made of the request of the first test: 1000 over five
    months for a STANDARD employee, in five payments of 200. *)
Lemma created_agreement_witness :
  exists agreement w',
    createAgreementFromRequest testConfig validRequest initialWorld
      = (Return agreement, w')
    /\ LeasingAgreement.status agreement = DRAFT
    /\ LeasingAgreement.price agreement = 1000%float
    /\ map PaymentSchedule.amount (LeasingAgreement.paymentSchedule agreement)
       = [200; 200; 200; 200; 200]%float
    /\ getTime (dates w') (LeasingAgreement.startDate agreement)
       = Some 1751328000000
    /\ getTime (dates w') (LeasingAgreement.endDate agreement)
       = Some 1764547200000.
Proof.
  assert (Htype : getEmployeeType "emp1" initialEnv
                  = (Return "STANDARD", initialEnv))
    by (vm_compute; reflexivity).
  destruct (created_agreement testConfig validRequest initialWorld "STANDARD"
              initialEnv Htype)
    as (agreement & w' & Hrun & Hstatus & _ & _ & _ & _ & _ & Hprice
        & Hamounts & Hstart & Hend & _).
  exists agreement, w'.
  split; [exact Hrun|]. split; [exact Hstatus|].
  split; [rewrite Hprice; vm_compute; reflexivity|].
  split; [rewrite Hamounts; vm_compute; reflexivity|].
  split; [rewrite Hstart|rewrite Hend]; vm_compute; reflexivity.
Defined.

(** A request without a user. *)
Lemma unauthenticated_request_is_not_processed_witness :
  LeasingAgreementController.createAgreement testConfig
    (requestOf None (Some validRequest)) initialWorld
  = (Return (HttpResponse.mk 401
               (HttpResponse.Failure "UNAUTHORIZED" "Authentication required"
                  None (Some "req-1749988800000-k3x9q2m7d"))),
     mkWorld []
       (log LInfo "Creating leasing agreement"
          [("correlationId", "req-1749988800000-k3x9q2m7d");
           ("companyId", "comp1")] initialEnv)).
Proof.
  refine (unauthenticated_request_is_not_processed testConfig
            (requestOf None (Some validRequest)) initialWorld 1749988800000
            "k3x9q2m7d" initialEnv initialEnv _ _ _); reflexivity.
Defined.

(** A request without a body. *)
Lemma bad_request_is_answered_500_witness :
  exists message,
    LeasingAgreementController.createAgreement testConfig
      (requestOf (Some testUser) None) initialWorld
    = (Return (HttpResponse.mk 500
                 (HttpResponse.Failure "BAD_REQUEST" message None
                    (Some "req-1749988800000-k3x9q2m7d"))),
       mkWorld []
         (log LInfo "Creating leasing agreement"
            [("correlationId", "req-1749988800000-k3x9q2m7d");
             ("userId", "user123")] initialEnv)).
Proof.
  refine (bad_request_is_answered_500 testConfig
            (requestOf (Some testUser) None) initialWorld 1749988800000
            "k3x9q2m7d" initialEnv initialEnv testUser _ _ _ _ _);
    try reflexivity.
  left. reflexivity.
Defined.

(** The request for an employee of another company is answered 409, and
    the request with an identifier of two characters 400. *)
Lemma service_error_is_answered_by_class_witness :
  fst (LeasingAgreementController.createAgreement testConfig
         (requestOf (Some testUser) (Some otherCompanyRequest)) initialWorld)
  = Return (HttpResponse.mk 409
              (HttpResponse.Failure "BUSINESS_RULE_ERROR"
                 "Employee does not exist or does not belong to specified company"
                 None (Some "req-1749988800000-k3x9q2m7d"))).
Proof.
  set (e2 :=
    log LInfo "Creating leasing agreement"
      [("correlationId", "req-1749988800000-k3x9q2m7d");
       ("userId", "user123"); ("companyId", "comp1")] initialEnv).
  rewrite (service_error_is_answered_by_class testConfig
             (requestOf (Some testUser) (Some otherCompanyRequest))
             initialWorld 1749988800000 "k3x9q2m7d" initialEnv initialEnv
             testUser otherCompanyRequest
             (BusinessRuleError
                "Employee does not exist or does not belong to specified company"
                "EMPLOYEE_VALIDATION" "INVALID_EMPLOYEE")
             (snd (processLeasingAgreement testConfig otherCompanyRequest
                     (mkWorld [] e2))));
    vm_compute; reflexivity.
Defined.

(** The request of the first test, sent by the user of the mock. *)
Lemma company_access_is_checked_once_witness :
  initialWorld = initialWorld
  /\ requestOf (Some testUser) (Some validRequest)
     = requestOf (Some testUser) (Some validRequest)
  /\ (exists user,
        Some testUser = Some user
        /\ LeasingAgreementController.hasCompanyAccess user "comp1" = true)
  /\ forall w2 : World Env,
       (exists res w3,
          LeasingAgreementController.createAgreement testConfig
            (requestOf (Some testUser) (Some validRequest)) w2
          = (Return res, w3)
          /\ HttpResponse.statusCode res <> 403)
       \/ (exists reason w3,
             LeasingAgreementController.createAgreement testConfig
               (requestOf (Some testUser) (Some validRequest)) w2
             = (Throw (Error reason), w3)).
Proof.
  refine (company_access_is_checked_once testConfig
            (requestOf (Some testUser) (Some validRequest))
            (requestOf (Some testUser) (Some validRequest))
            initialWorld initialWorld validRequest _ _ _); reflexivity.
Defined.

(** MAX_PRICE set to [unlimited]: a price of 5000000 passes the business
    rules. *)
Lemma unreadable_ceiling_is_not_enforced_witness :
  let config :=
    Config.AppConfig.leasing (Config.loadConfig (fun _ => 0.8%float) wordyEnv) in
  let request :=
    CreateAgreementRequest.mk "emp1" "item1" "2025-07-01T00:00:00.000Z"
      "2025-12-01T00:00:00.000Z" 5000000 "USD" "comp1" "MONTHLY" None in
  JSNumber.isNaN (LeasingConfig.maxPrice config) = true
  /\ validateBusinessRules config request initialWorld
     = (Return tt, mkWorld [] initialEnv).
Proof.
  intros config request.
  refine (unreadable_ceiling_is_not_enforced (fun _ => 0.8%float) wordyEnv
            "unlimited" request initialWorld initialEnv initialEnv
            _ _ _ _ _); vm_compute; reflexivity.
Defined.

(** LONG_TERM_THRESHOLD set to [one year]: no discount at 17 months. *)
Lemma unreadable_threshold_disables_discount_witness :
  longTermMultiplierOf
    (Config.AppConfig.leasing (Config.loadConfig (fun _ => 0.8%float) wordyEnv))
    (Some 17)
  = 1%float.
Proof.
  refine (unreadable_threshold_disables_discount
            (fun _ => 0.8%float) wordyEnv "one year" (Some 17) _ _ _);
    vm_compute; reflexivity.
Defined.

(** The empty environment: the defaults are the configuration of the
    tests. *)
Lemma loadConfig_defaults_witness :
  Config.AppConfig.leasing (Config.loadConfig (fun _ => 0.8%float) ∅)
  = testConfig.
Proof.
  refine (loadConfig_defaults (fun _ => 0.8%float) ∅ _).
  intros name _. left. apply lookup_empty.
Defined.

(** The saga of the tests when nothing fails. *)
Lemma notification_success_path_witness :
  let w := testWorld "2025-07-01" "2025-12-01" in
  let agreement := testAgreement 1000 in
  let pending := LeasingAgreement.with_status agreement PENDING in
  let active :=
    LeasingAgreement.with_status_updatedAt pending ACTIVE (length (dates w)) in
  let e1 := snd (reserveItem "item1" (ext w)) in
  let e2 := snd (save pending e1) in
  let e3 := snd (createBillingRecord pending e2) in
  let e4 :=
    snd (sendAgreementCreated "emp1" "test-id"
           (log LInfo "Billing record created"
              [("agreementId", "test-id"); ("billingId", "bill-test-id")] e3)) in
  let e6 := snd (save active e4) in
  executeAgreementTransaction agreement "c-1" w
    = (Return active,
       mkWorld (dates w ++ [Some (clock initialEnv)])%list
         (log LInfo "Agreement processed successfully"
            [("correlationId", "c-1"); ("agreementId", "test-id")] e6))
  /\ sentNotifications e6 = [("emp1", "test-id")]
  /\ billingRecords e6 = [("test-id", "bill-test-id")]
  /\ fst (checkAvailability "item1" e6) = Return false.
Proof.
  intros w agreement pending active e1 e2 e3 e4 e6. split.
  - refine (notification_success_path agreement "c-1" w true pending active
              "bill-test-id" (clock initialEnv) e1 e2 e3 e4 e4 e6
              _ _ _ _ _ _); vm_compute; reflexivity.
  - repeat split; vm_compute; reflexivity.
Defined.

(** The request of the first test, sent by the user of the mock: 201,
    a total cost of 1000 and five payments, the first due on 1 July. *)
Lemma processed_request_is_answered_201_witness :
  let e2 :=
    log LInfo "Creating leasing agreement"
      [("correlationId", "req-1749988800000-k3x9q2m7d");
       ("userId", "user123"); ("companyId", "comp1")] initialEnv in
  let processed :=
    processLeasingAgreement testConfig validRequest (mkWorld [] e2) in
  let agreement :=
    match fst processed with
    | Return a => a
    | Throw _ => testAgreement 0
    end in
  let schedule :=
    default []
      (mapM (formatted (dates (snd processed)))
         (LeasingAgreement.paymentSchedule agreement)) in
  LeasingAgreementController.createAgreement testConfig
    (requestOf (Some testUser) (Some validRequest)) initialWorld
  = (Return
       (HttpResponse.mk 201
          (HttpResponse.Success
             (AgreementResponse.mk (LeasingAgreement.id agreement)
                (LeasingAgreement.status agreement)
                (LeasingAgreement.price agreement) schedule
                "2025-06-15T12:00:00.000Z")
             "req-1749988800000-k3x9q2m7d")),
     mkWorld (dates (snd processed))
       (log LInfo "Agreement created successfully"
          [("correlationId", "req-1749988800000-k3x9q2m7d");
           ("agreementId", LeasingAgreement.id agreement);
           ("userId", "user123")] (ext (snd processed))))
  /\ LeasingAgreement.status agreement = ACTIVE
  /\ LeasingAgreement.price agreement = 1000%float
  /\ map PaymentScheduleResponse.dueDate schedule
     = ["2025-07-01T00:00:00.000Z"; "2025-08-01T00:00:00.000Z";
        "2025-09-01T00:00:00.000Z"; "2025-10-01T00:00:00.000Z";
        "2025-11-01T00:00:00.000Z"].
Proof.
  intros e2 processed agreement schedule. split.
  - refine (processed_request_is_answered_201 testConfig
              (requestOf (Some testUser) (Some validRequest)) initialWorld
              1749988800000 "k3x9q2m7d" initialEnv initialEnv testUser
              validRequest agreement (snd processed) schedule
              "2025-06-15T12:00:00.000Z" _ _ _ _ _ _ _ _ _ _);
      vm_compute; reflexivity.
  - repeat split; vm_compute; reflexivity.
Defined.

(** An edge of the schedule: a price of 1.25 over fifty-nine months,
    1 after the long-term discount. The base amount is 0.02, fifty-eight
    of them exceed the price, and the last payment of the agreement
    activated is below zero. *)
Example small_price_last_payment :
  exists agreement w' last,
    processLeasingAgreement testConfig
      (CreateAgreementRequest.mk "emp1" "item1" "2025-07-01T00:00:00.000Z"
         "2030-06-01T00:00:00.000Z" 1.25 "USD" "comp1" "MONTHLY" None)
      initialWorld
    = (Return agreement, w')
    /\ LeasingAgreement.status agreement = ACTIVE
    /\ length (LeasingAgreement.paymentSchedule agreement) = 59%nat
    /\ List.last (map PaymentSchedule.amount
                    (LeasingAgreement.paymentSchedule agreement)) 0%float
       = last
    /\ PrimFloat.ltb last 0 = true.
Proof.
  eexists. eexists. eexists. split; [vm_compute; reflexivity|].
  repeat split; vm_compute; reflexivity.
Qed.

(** Lengths are counted in code units: an identifier of one accented
    letter (two bytes) and one plain letter has the length 2 and is
    refused for its length, before its characters are looked at; an
    identifier of two plain letters and one character beyond U+FFFF (four
    bytes, two code units) has the length 4 and is refused for its
    characters. *)
Example identifier_length_in_code_units :
  let accented := String (ascii_of_nat 195) (String (ascii_of_nat 169) "a") in
  let astral :=
    "ab" ++ String (ascii_of_nat 240) (String (ascii_of_nat 157)
              (String (ascii_of_nat 146) (String (ascii_of_nat 179) EmptyString))) in
  JSString.length accented = 2
  /\ fst (Validator.validateIdFormat accented "employeeId" initialWorld)
     = Throw (ValidationError "employeeId must be between 3 and 50 characters"
                "employeeId" "INVALID_LENGTH")
  /\ JSString.length astral = 4
  /\ fst (Validator.validateIdFormat astral "employeeId" initialWorld)
     = Throw (ValidationError "employeeId contains invalid characters"
                "employeeId" "INVALID_FORMAT").
Proof. repeat split; vm_compute; reflexivity. Qed.

(** A control character in a string of the metadata is written as an
    escape. *)
Example stringify_control_characters :
  JSON.stringify
    (JSON.JObject
       [("note", JSON.JString (String (ascii_of_nat 10)
                                 (String (ascii_of_nat 1) "x")))])
  = "{" ++ String JSON.dquote "note" ++ String JSON.dquote ":"
    ++ String JSON.dquote
         (String JSON.backslash "n" ++ String JSON.backslash "u0001x")
    ++ String JSON.dquote "}".
Proof. vm_compute. reflexivity. Qed.

(** The billing service rejecting with an error that holds a circular
    reference: the service rolls back and throws it, and the controller,
    whose logger cannot write it, sends no response and throws the
    [TypeError] of [JSON.stringify]. *)
Example unserializable_error_is_not_answered :
  let circular :=
    Unserializable "Billing failed" "Converting circular structure to JSON" in
  let w := mkWorld [] (ext (billingFails circular)) in
  fst (processLeasingAgreement testConfig validRequest w) = Throw circular
  /\ fst (LeasingAgreementController.createAgreement testConfig
            (requestOf (Some testUser) (Some validRequest)) w)
     = Throw (Error "Converting circular structure to JSON").
Proof. split; vm_compute; reflexivity. Qed.
